(** * download_data_sst: partitioned retrieval pipeline

    A shallow embedding of [download_data_sst.py]: the calendar arithmetic of
    [generate_date_ranges], the request negotiation and streaming of
    [retrieve_data], the resume scheduler [retrieve_missing_data], the merger
    [merge_netcdf_files_xarray] and the driver [download_dataset].

    Python integers are [Z]; [//] is [Z.div] and [%] is [Z.modulo] (both floor
    towards minus infinity for the positive divisors used here). Exceptions
    are values of [exn]; a computation that may raise returns an [outcome].
    Loops that Python writes as [while] take a fuel argument and answer
    [OutOfFuel] when it is exhausted. *)

From Stdlib Require Import ZArith Lia Bool List String Ascii.
From stdpp Require Import base gmap strings list.
Import ListNotations.

Local Open Scope string_scope.
Local Open Scope list_scope.
Local Open Scope Z_scope.

(** ** Exceptions and outcomes *)

(** Failures of the transport under [requests]. *)
Inductive transport_error : Type :=
  | ConnectionFailed
  | ReadTimeout
  | ChunkedEncodingError.

Inductive exn : Type :=
  | ValueError
  | OverflowError
  | KeyError (key : string)
  | TypeError
  | IndexError
  | HTTPError (status : Z) (url : string)
  | RequestException (t : transport_error)
  | MissingSchema
  | JSONDecodeError
  | FileNotFoundError (path : string).

Inductive outcome (A : Type) : Type :=
  | Return (a : A)
  | Raise (e : exn)
  | OutOfFuel.
Arguments Return {A} a.
Arguments Raise {A} e.
Arguments OutOfFuel {A}.

Definition obind {A B} (m : outcome A) (k : A -> outcome B) : outcome B :=
  match m with
  | Return a => k a
  | Raise e => Raise e
  | OutOfFuel => OutOfFuel
  end.

Declare Scope outcome_scope.
Delimit Scope outcome_scope with outcome.
Notation "'let?' x ':=' m 'in' k" := (obind m (fun x => k))
  (at level 10, x pattern, m at level 100, k at level 200) : outcome_scope.
Local Open Scope outcome_scope.

(** ** The [datetime] module

    Only the date fields are ever set by the program (hour, minute, second and
    microsecond stay zero), so a [datetime] is its year, month and day. The
    definitions follow CPython's [Lib/_pydatetime.py]. *)

Module Datetime.

Definition MINYEAR : Z := 1.
Definition MAXYEAR : Z := 9999.
Definition MAXORDINAL : Z := 3652059.

Record datetime : Type := mkdatetime { year : Z; month : Z; day : Z }.

Definition DAYS_IN_MONTH : list Z :=
  [-1; 31; 28; 31; 30; 31; 30; 31; 31; 30; 31; 30; 31].
Definition DAYS_BEFORE_MONTH : list Z :=
  [-1; 0; 31; 59; 90; 120; 151; 181; 212; 243; 273; 304; 334].

Definition table (t : list Z) (i : Z) : Z := nth (Z.to_nat i) t 0.

(** [_is_leap]: year % 4 == 0 and (year % 100 != 0 or year % 400 == 0). *)
Definition is_leap (y : Z) : bool :=
  (y mod 4 =? 0) && (negb (y mod 100 =? 0) || (y mod 400 =? 0)).

Definition b2z (b : bool) : Z := if b then 1 else 0.

(** [_days_before_year]: number of days before January 1st of [year]. *)
Definition days_before_year (year : Z) : Z :=
  let y := year - 1 in y * 365 + y / 4 - y / 100 + y / 400.

(** [_days_in_month]. *)
Definition days_in_month (year month : Z) : Z :=
  if (month =? 2) && is_leap year then 29 else table DAYS_IN_MONTH month.

(** [_days_before_month]. *)
Definition days_before_month (year month : Z) : Z :=
  table DAYS_BEFORE_MONTH month + b2z ((2 <? month) && is_leap year).

(** [_ymd2ord]. *)
Definition ymd2ord (year month day : Z) : Z :=
  days_before_year year + days_before_month year month + day.

Definition DI400Y : Z := 146097.
Definition DI100Y : Z := 36524.
Definition DI4Y : Z := 1461.

(** [_ord2ymd]: the 400/100/4/1-year cycle decomposition of an ordinal. *)
Definition ord2ymd (n : Z) : datetime :=
  let n := n - 1 in
  let n400 := n / DI400Y in
  let n := n mod DI400Y in
  let year := n400 * 400 + 1 in
  let n100 := n / DI100Y in
  let n := n mod DI100Y in
  let n4 := n / DI4Y in
  let n := n mod DI4Y in
  let n1 := n / 365 in
  let n := n mod 365 in
  let year := year + (n100 * 100 + n4 * 4 + n1) in
  if (n1 =? 4) || (n100 =? 4) then mkdatetime (year - 1) 12 31
  else
    let leapyear := (n1 =? 3) && (negb (n4 =? 24) || (n100 =? 3)) in
    let month := Z.shiftr (n + 50) 5 in
    let preceding := table DAYS_BEFORE_MONTH month + b2z ((2 <? month) && leapyear) in
    if n <? preceding then
      let month := month - 1 in
      let preceding :=
        preceding - (table DAYS_IN_MONTH month + b2z ((month =? 2) && leapyear)) in
      mkdatetime year month (n - preceding + 1)
    else mkdatetime year month (n - preceding + 1).

(** [_check_date_fields], as run by the constructor and by [replace]. *)
Definition check_date_fields (y m d : Z) : bool :=
  (MINYEAR <=? y) && (y <=? MAXYEAR) && (1 <=? m) && (m <=? 12)
  && (1 <=? d) && (d <=? days_in_month y m).

(** The constructor is the C one that [from datetime import datetime] gives:
    it reads its arguments as C ints before it checks them, and an argument
    that does not fit raises [OverflowError]. *)
Definition INT_MIN : Z := -2147483648.
Definition INT_MAX : Z := 2147483647.

Definition fits_int (n : Z) : bool := (INT_MIN <=? n) && (n <=? INT_MAX).

(** [datetime(year, month, day)]. *)
Definition new (y m d : Z) : outcome datetime :=
  if negb (fits_int y && fits_int m && fits_int d) then Raise OverflowError
  else if check_date_fields y m d then Return (mkdatetime y m d)
  else Raise ValueError.

(** [dt.replace(year=..., month=..., day=...)]: absent keywords keep the field. *)
Definition replace (dt : datetime) (y m d : option Z) : outcome datetime :=
  new (default (year dt) y) (default (month dt) m) (default (day dt) d).

Definition toordinal (dt : datetime) : Z := ymd2ord (year dt) (month dt) (day dt).

(** [dt + timedelta(days=n)]. *)
Definition add_days (dt : datetime) (n : Z) : outcome datetime :=
  let o := toordinal dt + n in
  if (0 <? o) && (o <=? MAXORDINAL) then Return (ord2ymd o) else Raise OverflowError.

(** [dt - timedelta(days=n)] is [dt + (-timedelta(days=n))]. *)
Definition sub_days (dt : datetime) (n : Z) : outcome datetime := add_days dt (- n).

(** [(a - b).days]. *)
Definition diff_days (a b : datetime) : Z := toordinal a - toordinal b.

(** [a <= b]: comparison of the field tuples. *)
Definition le (a b : datetime) : bool :=
  (year a <? year b)
  || ((year a =? year b)
      && ((month a <? month b) || ((month a =? month b) && (day a <=? day b)))).

(** Decimal rendering with zero fill, as [%Y], [%m] and [%d] produce it. *)
Definition digit (n : Z) : ascii := ascii_of_nat (48 + Z.to_nat (n mod 10)).

Fixpoint zfill (width : nat) (n : Z) : string :=
  match width with
  | O => EmptyString
  | S w => zfill w (n / 10) +:+ String (digit n) EmptyString
  end.

(** [dt.strftime("%Y-%m-%d")], the year on four digits. *)
Definition strftime (dt : datetime) : string :=
  zfill 4 (year dt) +:+ "-" +:+ zfill 2 (month dt) +:+ "-" +:+ zfill 2 (day dt).

End Datetime.

Import Datetime.

(** ** [generate_date_ranges]

    The month cursor [start_date] walks from January 1st of [start_year]; the
    boundary is January 31st of [end_year] (the December 31st line is
    commented out in the source). Each pass appends the three rendered parts
    of the cursor's month. The two lines the function prints are written by
    [download_dataset], its caller, so that the function stays a pure one. *)

Definition date_range : Type := string * string.

Fixpoint generate_loop (fuel : nat) (start_date end_date : datetime)
    (date_ranges : list date_range) : outcome (list date_range) :=
  if negb (Datetime.le start_date end_date) then Return date_ranges
  else
    match fuel with
    | O => OutOfFuel
    | S fuel =>
      (* Calculate the end of the month *)
      let? end_of_month :=
        (if month start_date =? 12 then replace start_date None None (Some 31)
         else
           let? first_of_next :=
             replace start_date None (Some (month start_date + 1)) (Some 1) in
           sub_days first_of_next 1) in
      (* Split the month into three parts *)
      let days_in_month := diff_days end_of_month start_date + 1 in
      let part_size := days_in_month / 3 in
      (* First part *)
      let? end_part_1 := add_days start_date (part_size - 1) in
      let date_ranges := date_ranges ++ [(strftime start_date, strftime end_part_1)] in
      (* Second part *)
      let? start_part_2 := add_days end_part_1 1 in
      let? end_part_2 := add_days start_part_2 (part_size - 1) in
      let date_ranges := date_ranges ++ [(strftime start_part_2, strftime end_part_2)] in
      (* Third part *)
      let? start_part_3 := add_days end_part_2 1 in
      let date_ranges := date_ranges ++ [(strftime start_part_3, strftime end_of_month)] in
      (* Move to the next month *)
      let? start_date :=
        (if month start_date =? 12
         then replace start_date (Some (year start_date + 1)) (Some 1) (Some 1)
         else replace start_date None (Some (month start_date + 1)) (Some 1)) in
      generate_loop fuel start_date end_date date_ranges
    end.

Definition generate_date_ranges (fuel : nat) (start_year end_year : Z)
    : outcome (list date_range) :=
  let? start_date := new start_year 1 1 in
  let? end_date := new end_year 1 31 in
  generate_loop fuel start_date end_date [].

(** *** The partition in closed form

    The intervals the loop is shown to produce, as dates rather than rendered
    strings: month [m] of year [y] is cut at [days_in_month y m / 3]. *)

Definition interval : Type := datetime * datetime.

Definition month_parts (y m : Z) : list interval :=
  let part_size := days_in_month y m / 3 in
  [ (mkdatetime y m 1, mkdatetime y m part_size);
    (mkdatetime y m (part_size + 1), mkdatetime y m (2 * part_size));
    (mkdatetime y m (2 * part_size + 1), mkdatetime y m (days_in_month y m)) ].

(** Months are numbered [12 * y + (m - 1)]. *)
Definition month_of_index (i : Z) : Z * Z := (i / 12, i mod 12 + 1).

(** The months from January of [start_year] to January of [end_year]. *)
Definition covered_months (start_year end_year : Z) : list (Z * Z) :=
  month_of_index <$> seqZ (12 * start_year) (12 * (end_year - start_year) + 1).

Definition partition (start_year end_year : Z) : list interval :=
  flat_map (fun ym => month_parts ym.1 ym.2) (covered_months start_year end_year).

Definition render (iv : interval) : date_range := (strftime iv.1, strftime iv.2).

(** The days of an interval, as proleptic Gregorian ordinals. *)
Definition interval_days (iv : interval) : list Z :=
  seqZ (toordinal iv.1) (toordinal iv.2 - toordinal iv.1 + 1).

(** Fuel that suffices for the loop: one unit per covered month. *)
Definition months_fuel (start_year end_year : Z) : nat :=
  Z.to_nat (12 * (end_year - start_year) + 1).

Set Warnings "-register-all".

(** ** Decoded JSON documents

    What [response.json()] returns. An object lists its keys once, in document
    order. *)

Inductive json : Type :=
  | JNull
  | JBool (b : bool)
  | JInt (n : Z)
  | JFloat (literal : string)
  | JStr (s : string)
  | JArr (items : list json)
  | JObj (fields : list (string * json)).

Fixpoint assoc (key : string) (fields : list (string * json)) : option json :=
  match fields with
  | [] => None
  | (k, v) :: rest => if String.eqb k key then Some v else assoc key rest
  end.

Fixpoint is_prefix (p s : string) : bool :=
  match p, s with
  | EmptyString, _ => true
  | String a p', String b s' => Ascii.eqb a b && is_prefix p' s'
  | String _ _, EmptyString => false
  end.

Fixpoint is_substring (p s : string) : bool :=
  is_prefix p s
  || match s with
     | EmptyString => false
     | String _ s' => is_substring p s'
     end.

Definition is_str (key : string) (j : json) : bool :=
  match j with
  | JStr s => String.eqb s key
  | _ => false
  end.

(** [key in doc]. *)
Definition json_contains (key : string) (doc : json) : outcome bool :=
  match doc with
  | JObj fields => Return (bool_decide (is_Some (assoc key fields)))
  | JArr items => Return (existsb (is_str key) items)
  | JStr s => Return (is_substring key s)
  | _ => Raise TypeError
  end.

(** [doc[key]] for a string key. *)
Definition json_getitem (doc : json) (key : string) : outcome json :=
  match doc with
  | JObj fields =>
    match assoc key fields with
    | Some v => Return v
    | None => Raise (KeyError key)
    end
  | _ => Raise TypeError
  end.

(** [len(doc)]. *)
Definition json_len (doc : json) : outcome Z :=
  match doc with
  | JArr items => Return (Z.of_nat (length items))
  | JStr s => Return (Z.of_nat (String.length s))
  | JObj fields => Return (Z.of_nat (length fields))
  | _ => Raise TypeError
  end.

(** [doc[0]]. *)
Definition json_first (doc : json) : outcome json :=
  match doc with
  | JArr (x :: _) => Return x
  | JArr [] => Raise IndexError
  | JStr (String c _) => Return (JStr (String c EmptyString))
  | JStr EmptyString => Raise IndexError
  | JObj _ => Raise (KeyError "0")
  | _ => Raise TypeError
  end.

(** [a == b]. It is Python's comparison on null, booleans, integers and
    strings, and whenever one side is a string. It is an approximation
    elsewhere: a number written with a fraction is compared by its literal
    (so [1] and [1.0] differ, and [NaN] equals itself), and objects are
    compared in the order of their keys. Only the decision to print an order
    status depends on it; what is stated about those lines is stated for
    statuses that are strings. *)
Fixpoint json_eqb (a b : json) : bool :=
  match a, b with
  | JNull, JNull => true
  | JBool x, JBool y => Bool.eqb x y
  | JBool x, JInt y | JInt y, JBool x => b2z x =? y
  | JInt x, JInt y => x =? y
  | JFloat x, JFloat y => String.eqb x y
  | JStr x, JStr y => String.eqb x y
  | JArr xs, JArr ys =>
    (fix items (xs ys : list json) : bool :=
       match xs, ys with
       | [], [] => true
       | x :: xs', y :: ys' => json_eqb x y && items xs' ys'
       | _, _ => false
       end) xs ys
  | JObj xs, JObj ys =>
    (fix fields (xs ys : list (string * json)) : bool :=
       match xs, ys with
       | [], [] => true
       | (k, x) :: xs', (l, y) :: ys' => String.eqb k l && json_eqb x y && fields xs' ys'
       | _, _ => false
       end) xs ys
  | _, _ => false
  end.

(** ** The outside world

    The remote archive is an oracle: its answer may depend on the request and
    on how many requests the process has sent before. The transport may fail
    instead of answering. Files are byte strings under their path; parent
    directories are taken to exist ([download_dataset] creates them). *)

Inductive http_method : Type := GET | POST.

Record Request : Type := mkrequest {
  method : http_method;
  url : string;
  authorization : string;
  payload : option json;
  stream : bool
}.

Inductive header_int : Type :=
  | HAbsent
  | HInt (n : Z)
  | HMalformed.

Record Response : Type := mkresponse {
  status_code : Z;
  chunks : list string;            (* the body as [iter_content] delivers it *)
  broken : option transport_error; (* the transfer breaks after [chunks] *)
  json_doc : option json;          (* [None]: the body is not JSON *)
  location : option string;        (* [headers.get("Location")] *)
  content_length : header_int      (* the [content-length] header *)
}.

Definition reply : Type := transport_error + Response.

Definition server : Type := nat -> Request -> reply.

(** A line of standard output, kept as the fragments of its f-string. *)
Inductive fragment : Type :=
  | Str (s : string)
  | Num (n : Z)
  | Doc (j : json)
  | Ranges (l : list date_range)
  | Elapsed.

Record world : Type := mkworld {
  fs : gmap string string;
  sent : list Request;
  stdout : list (list fragment)
}.

Record environment : Type := mkenvironment {
  get_token : option string;  (* [auth.get_token()] of the credential source *)
  remote : server
}.

(** *** Computations over the world *)

Definition M (A : Type) : Type := world -> outcome A * world.

Definition ret {A} (a : A) : M A := fun w => (Return a, w).

Definition bind {A B} (m : M A) (k : A -> M B) : M B := fun w =>
  match m w with
  | (Return a, w') => k a w'
  | (Raise e, w') => (Raise e, w')
  | (OutOfFuel, w') => (OutOfFuel, w')
  end.

Definition raise {A} (e : exn) : M A := fun w => (Raise e, w).
Definition out_of_fuel {A} : M A := fun w => (OutOfFuel, w).
Definition lift {A} (o : outcome A) : M A := fun w => (o, w).

Declare Scope world_scope.
Delimit Scope world_scope with world.
Notation "x <- m ;; k" := (bind m (fun x => k))
  (at level 100, m at next level, right associativity) : world_scope.
Notation "m ;; k" := (bind m (fun _ => k))
  (at level 100, right associativity) : world_scope.
Local Open Scope world_scope.

Definition print (line : list fragment) : M unit := fun w =>
  (Return tt, mkworld (fs w) (sent w) (stdout w ++ [line])).

Definition path_exists (path : string) : M bool := fun w =>
  (Return (bool_decide (is_Some (fs w !! path))), w).

(** [open(filename, 'wb')]: the file is created, or emptied when it exists. *)
Definition open_wb (filename : string) : M unit := fun w =>
  (Return tt, mkworld (<[filename := ""]> (fs w)) (sent w) (stdout w)).

(** [f.write(data)] on the file opened at [filename]. *)
Definition write (filename data : string) : M unit := fun w =>
  (Return tt,
   mkworld (<[filename := default "" (fs w !! filename) +:+ data]> (fs w))
     (sent w) (stdout w)).

(** ** The [requests] library *)

(** [requests.request]: the empty URL is refused before anything is sent
    ([MissingSchema]). Which other URLs the library refuses (one without a
    scheme, or with a scheme it has no adapter for) is not modelled: a
    non-empty URL is taken to be one the library sends. Without
    [stream=True] the body is read before the call returns, so a transfer
    that breaks raises there. *)
Definition requests_send (srv : server) (rq : Request) : M Response := fun w =>
  if String.eqb (url rq) "" then (Raise MissingSchema, w)
  else
    let w' := mkworld (fs w) (sent w ++ [rq]) (stdout w) in
    match srv (length (sent w)) rq with
    | inl t => (Raise (RequestException t), w')
    | inr r =>
      match stream rq, broken r with
      | false, Some t => (Raise (RequestException t), w')
      | _, _ => (Return r, w')
      end
    end.

Definition requests_post (srv : server) (u auth : string) (body : json) : M Response :=
  requests_send srv (mkrequest POST u auth (Some body) false).

Definition requests_get (srv : server) (u auth : string) (streamed : bool) : M Response :=
  requests_send srv (mkrequest GET u auth None streamed).

(** [response.text] of a response whose body has been read in full. *)
Definition text (r : Response) : string := String.concat "" (chunks r).

(** [response.text] of a response that may have been requested with
    [stream=True]: the body is read first, which fails if the transfer
    breaks. *)
Definition response_text (r : Response) : outcome string :=
  match broken r with
  | Some t => Raise (RequestException t)
  | None => Return (text r)
  end.

(** [response.json()]: reads the body, then decodes it. *)
Definition response_json (r : Response) : outcome json :=
  match broken r with
  | Some t => Raise (RequestException t)
  | None =>
    match json_doc r with
    | Some doc => Return doc
    | None => Raise JSONDecodeError
    end
  end.

(** [response.raise_for_status()]. *)
Definition raise_for_status (u : string) (r : Response) : M unit :=
  if (400 <=? status_code r) && (status_code r <? 600)
  then raise (HTTPError (status_code r) u)
  else ret tt.

(** A value used where [requests] wants a URL. *)
Definition as_url (j : json) : outcome string :=
  match j with
  | JStr s => Return s
  | _ => Raise MissingSchema
  end.

(** ** [retrieve_data] *)

Definition HTTP_SUCCESS_CODE : Z := 200.
Definition HTTP_ACCEPTED_CODE : Z := 202.

Definition search_url : string := "https://hda.data.destination-earth.eu/stac/search".

Definition query_filters : json :=
  JObj
    [ ("variable",
       JObj [("eq", JArr [JStr "analysed_sst"; JStr "analysed_sst_uncertainty";
                          JStr "mask"; JStr "sea_ice_fraction"])]);
      ("data_format", JObj [("eq", JStr "netcdf")]);
      ("area", JObj [("eq", JArr [JFloat "67.8"; JFloat "-44.8"; JFloat "-21.8"; JFloat "44.8"])]) ].

Definition search_payload (start_date end_date : string) : json :=
  JObj
    [ ("collections", JArr [JStr "EO.MO.DAT.SST_GLO_SST_L4_REP_OBSERVATIONS_010_024"]);
      ("datetime", JStr (start_date +:+ "/" +:+ end_date));
      ("query", query_filters) ].

(** [f"Bearer {access_token}"]: a missing token is rendered as [None]. *)
Definition auth_headers (access_token : option string) : string :=
  "Bearer " +:+ default "None" access_token.

(** The polling loop: as long as the response carries a non-empty [Location]
    header, report a changed order status and request that location. *)
Fixpoint poll (fuel : nat) (srv : server) (auth : string) (u : string)
    (response : Response) (old_status : json) : M (string * Response) :=
  match location response with
  | None => ret (u, response)
  | Some next =>
    if String.eqb next "" then ret (u, response)
    else
      match fuel with
      | O => out_of_fuel
      | S fuel =>
        doc <- lift (response_json response) ;;
        status <- lift (json_getitem doc "status") ;;
        old_status <-
          (if negb (json_eqb old_status status)
           then print [Str "order status: "; Doc status] ;; ret status
           else ret old_status) ;;
        response <- requests_get srv next auth true ;;
        poll fuel srv auth next response old_status
      end
  end.

(** [int(response.headers.get("content-length", 0))]. *)
Definition total_size_of (r : Response) : outcome Z :=
  match content_length r with
  | HAbsent => Return 0
  | HInt n => Return n
  | HMalformed => Raise ValueError
  end.

(** Step 6: the body is written chunk by chunk to the open file; a transfer
    that breaks raises after the chunks that arrived. *)
Fixpoint write_chunks (filename : string) (data : list string) : M unit :=
  match data with
  | [] => ret tt
  | chunk :: rest => write filename chunk ;; write_chunks filename rest
  end.

Definition iter_content_to (filename : string) (r : Response) : M unit :=
  write_chunks filename (chunks r) ;;
  match broken r with
  | Some t => raise (RequestException t)
  | None => ret tt
  end.

(** Steps 4 (after the loop) to 6, on the response that is to be saved; [u]
    is the URL it was fetched from. *)
Definition save_response (u : string) (response : Response) (output_file : string) : M unit :=
  (if negb ((status_code response =? HTTP_SUCCESS_CODE)
            || (status_code response =? HTTP_ACCEPTED_CODE))
   then body <- lift (response_text response) ;; print [Str body]
   else ret tt) ;;
  raise_for_status u response ;;
  let filename := output_file in
  total_size <- lift (total_size_of response) ;;
  print [Str "Downloading "; Str filename; Str " ("; Num total_size; Str " bytes) ..."] ;;
  open_wb filename ;;
  iter_content_to filename response ;;
  print [Str "Download completed."].

(** Steps 3 to 6, once the search has produced a first product. *)
Definition download_product (fuel : nat) (srv : server) (auth : string)
    (product : json) (output_file : string) : M unit :=
  assets <- lift (json_getitem product "assets") ;;
  link <- lift (json_getitem assets "downloadLink") ;;
  href <- lift (json_getitem link "href") ;;
  download_url <- lift (as_url href) ;;
  response <- requests_get srv download_url auth false ;;
  let direct_download_url :=
    if status_code response =? HTTP_SUCCESS_CODE then download_url else "" in
  (if status_code response =? HTTP_SUCCESS_CODE then ret tt
   else if negb (status_code response =? HTTP_ACCEPTED_CODE)
        then print [Str (text response)] else ret tt) ;;
  print [Str download_url] ;;
  raise_for_status download_url response ;;
  polled <-
    (if String.eqb direct_download_url ""
     then poll fuel srv auth download_url response (JStr "")
     else ret (download_url, response)) ;;
  save_response polled.1 polled.2 output_file.

(** Step 2, once the search has been answered: the early returns, then the
    first product of the results. *)
Definition select_product (fuel : nat) (srv : server) (auth : string)
    (response : Response) (start_date output_file : string) : M unit :=
  if negb (status_code response =? 200) then
    print [Str "Error: "; Num (status_code response)] ;;
    print [Str (text response)]
  else if String.eqb (text response) "" then
    print [Str "Empty response received."]
  else
    match json_doc response with
    | None =>
      print [Str "Failed to decode JSON: "] ;;
      print [Str "Response text: "; Str (text response)]
    | Some search_results =>
      has_features <- lift (json_contains "features" search_results) ;;
      no_match <-
        (if negb has_features then ret true
         else
           features <- lift (json_getitem search_results "features") ;;
           n <- lift (json_len features) ;;
           ret (n =? 0)) ;;
      if no_match : bool then
        print [Str "No matching products found for "; Str start_date; Str "."]
      else
        (* pick the first product in the search results *)
        features <- lift (json_getitem search_results "features") ;;
        product <- lift (json_first features) ;;
        download_product fuel srv auth product output_file
    end.

Definition retrieve_data (fuel : nat) (env : environment)
    (start_date end_date output_file : string) : M unit :=
  (* 1. Authenticate *)
  let access_token := get_token env in
  (if access_token is Some _
   then print [Str "DEDL/DESP Access Token Obtained Successfully"]
   else print [Str "Failed to Obtain DEDL/DESP Access Token"]) ;;
  let auth := auth_headers access_token in
  (* 2. Build the STAC search payload *)
  let payload := search_payload start_date end_date in
  print [Str "Sending STAC search request for "; Str start_date; Str " to ";
         Str end_date; Str " ..."] ;;
  response <- requests_post (remote env) search_url auth payload ;;
  select_product fuel (remote env) auth response start_date output_file.

(** ** [os.path] *)

Fixpoint ends_with_slash (s : string) : bool :=
  match s with
  | EmptyString => false
  | String c EmptyString => Ascii.eqb c "/"
  | String _ rest => ends_with_slash rest
  end.

(** [os.path.join(a, b)] on POSIX. *)
Definition os_path_join (a b : string) : string :=
  if is_prefix "/" b then b
  else if String.eqb a "" || ends_with_slash a then a +:+ b
  else a +:+ "/" +:+ b.

(** [os.path.join(output_dir, f"{start_date}.nc")]. *)
Definition artifact_path (output_dir start_date : string) : string :=
  os_path_join output_dir (start_date +:+ ".nc").

(** ** The thread pool

    A submitted call of [retrieve_data] is a [task]. The model runs a task in
    one piece, at the moment it completes. Which waiting task completes next
    is the scheduler's choice, written down in a [schedule]: a pick [i] names
    the [i]-th task still waiting, and only the first [workers] of them are
    running and can complete. [during_submit] lists the picks made before
    each call of [os.path.exists] in the submission loop, [after_submit]
    those made once everything is submitted (what is left after them
    completes in submission order). [as_completed] first yields the futures
    that were finished when it was called, in the iteration order of a set:
    [set_order] picks that order. *)

Record task : Type := mktask {
  task_start : string;
  task_end : string;
  task_file : string
}.

(** A finished future: the call and how it ended. *)
Definition future : Type := task * outcome unit.

Record schedule : Type := mkschedule {
  during_submit : list (list nat);
  set_order : list nat;
  after_submit : list nat
}.

Record pool : Type := mkpool {
  waiting : list task;
  finished : list future
}.

Definition run_task (fuel : nat) (env : environment) (t : task) : M unit :=
  retrieve_data fuel env (task_start t) (task_end t) (task_file t).

Definition complete (fuel : nat) (env : environment) (workers : Z) (i : nat)
    (p : pool) (w : world) : pool * world :=
  if bool_decide (Z.of_nat i < workers) then
    match waiting p !! i with
    | Some t =>
      let ow := run_task fuel env t w in
      (mkpool (delete i (waiting p)) (finished p ++ [(t, ow.1)]), ow.2)
    | None => (p, w)
    end
  else (p, w).

Fixpoint complete_picks (fuel : nat) (env : environment) (workers : Z)
    (picks : list nat) (p : pool) (w : world) : pool * world :=
  match picks with
  | [] => (p, w)
  | i :: rest =>
    let pw := complete fuel env workers i p w in
    complete_picks fuel env workers rest pw.1 pw.2
  end.

(** [shutdown(wait=True)]: whatever still waits runs, in submission order. *)
Fixpoint drain (fuel : nat) (env : environment) (ts : list task)
    (done : list future) (w : world) : list future * world :=
  match ts with
  | [] => (done, w)
  | t :: rest =>
    let ow := run_task fuel env t w in
    drain fuel env rest (done ++ [(t, ow.1)]) ow.2
  end.

(** A list taken in the order of the picks; what no pick names keeps its order
    at the end. *)
Fixpoint reorder {A} (picks : list nat) (l : list A) : list A :=
  match picks with
  | [] => l
  | i :: rest =>
    match l !! i with
    | Some x => x :: reorder rest (delete i l)
    | None => reorder rest l
    end
  end.

(** The loop [for future in as_completed(futures): future.result()]. *)
Fixpoint results (examined : list future) : outcome unit :=
  match examined with
  | [] => Return tt
  | (_, Return _) :: rest => results rest
  | (_, Raise e) :: _ => Raise e
  | (_, OutOfFuel) :: _ => OutOfFuel
  end.

Definition never_ends (f : future) : bool :=
  match f.2 with
  | OutOfFuel => true
  | _ => false
  end.

(** ** [retrieve_missing_data] *)

(** The first loop: the list of artifact paths, and a line per interval. *)
Fixpoint list_output_files (output_dir : string) (date_ranges : list date_range)
    (output_files : list string) : M (list string) :=
  match date_ranges with
  | [] => ret output_files
  | (start_date, end_date) :: rest =>
    let output_file := artifact_path output_dir start_date in
    let output_files := output_files ++ [output_file] in
    present <- path_exists output_file ;;
    (if negb present
     then print [Str "File "; Str output_file; Str " is missing. Starting download..."]
     else print [Str "File "; Str output_file; Str " already exists. Skipping download."]) ;;
    list_output_files output_dir rest output_files
  end.

(** The submission loop: an interval is submitted when its artifact path does
    not exist at the moment of the check. *)
Fixpoint submit_all (fuel : nat) (env : environment) (workers : Z)
    (output_dir : string) (date_ranges : list date_range)
    (picks : list (list nat)) (p : pool) (futures : list task) (w : world)
    : pool * list task * world :=
  match date_ranges with
  | [] => (p, futures, w)
  | (start_date, end_date) :: rest =>
    let pw := complete_picks fuel env workers (hd [] picks) p w in
    let p := pw.1 in
    let w := pw.2 in
    let output_file := artifact_path output_dir start_date in
    if bool_decide (is_Some (fs w !! output_file)) then
      submit_all fuel env workers output_dir rest (tl picks) p futures w
    else
      let t := mktask start_date end_date output_file in
      submit_all fuel env workers output_dir rest (tl picks)
        (mkpool (waiting p ++ [t]) (finished p)) (futures ++ [t]) w
  end.

(** What the executor block did: the calls submitted, and the finished
    futures in the order [as_completed] yields them. *)
Record pool_run : Type := mkpool_run {
  futures : list task;
  examined : list future
}.

Definition run_pool (fuel : nat) (env : environment) (sched : schedule)
    (date_ranges : list date_range) (output_dir : string) (workers : Z)
    (w : world) : pool_run * world :=
  let sub := submit_all fuel env workers output_dir date_ranges
               (during_submit sched) (mkpool [] []) [] w in
  let p := sub.1.1 in
  let early := reorder (set_order sched) (finished p) in
  let pw := complete_picks fuel env workers (after_submit sched)
              (mkpool (waiting p) []) sub.2 in
  let late := drain fuel env (waiting pw.1) (finished pw.1) pw.2 in
  (mkpool_run sub.1.2 (early ++ late.1), late.2).

(** The block raises what the first failed [future.result()] raises, once
    [shutdown(wait=True)] has returned; it never returns while a call runs. *)
Definition pool_outcome (r : pool_run) : outcome unit :=
  if existsb never_ends (examined r) then OutOfFuel else results (examined r).

Definition retrieve_missing_data (fuel : nat) (env : environment) (sched : schedule)
    (date_ranges : list date_range) (output_dir : string) (workers : Z)
    : M (list string) :=
  output_files <- list_output_files output_dir date_ranges [] ;;
  (* ThreadPoolExecutor(max_workers=workers) *)
  if workers <=? 0 then raise ValueError
  else
    (fun w =>
       let rw := run_pool fuel env sched date_ranges output_dir workers w in
       (pool_outcome rw.1, rw.2)) ;;
    ret output_files.

(** ** [merge_netcdf_files_xarray]

    A dataset is its samples along the time dimension, each a time coordinate
    and a value. The NetCDF format is the library's: [decode] reads a file's
    bytes ([None] when they are not a dataset), [encode] writes them. *)

Definition dataset : Type := list (Z * Z).

Record netcdf : Type := mknetcdf {
  decode : string -> option dataset;
  encode : dataset -> string
}.

(** [xr.open_dataset(file)]. *)
Definition open_dataset (lib : netcdf) (file : string) : M dataset := fun w =>
  match fs w !! file with
  | None => (Raise (FileNotFoundError file), w)
  | Some bytes =>
    match decode lib bytes with
    | None => (Raise ValueError, w)
    | Some d => (Return d, w)
    end
  end.

(** [[xr.open_dataset(file) for file in output_files]]. *)
Fixpoint open_datasets (lib : netcdf) (output_files : list string) : M (list dataset) :=
  match output_files with
  | [] => ret []
  | file :: rest =>
    d <- open_dataset lib file ;;
    ds <- open_datasets lib rest ;;
    ret (d :: ds)
  end.

(** [xr.concat(datasets, dim='time', data_vars='all', coords='all')]: the
    samples of the datasets one after the other; nothing to concatenate is an
    error. *)
Definition xr_concat (datasets : list dataset) : outcome dataset :=
  match datasets with
  | [] => Raise ValueError
  | _ => Return (concat datasets)
  end.

(** [merged_dataset.to_netcdf(merged_file)]: the write is taken to succeed,
    and to replace the file in one step. A write that fails part way, and
    what it leaves at the path, is not modelled. *)
Definition to_netcdf (lib : netcdf) (d : dataset) (merged_file : string) : M unit :=
  fun w => (Return tt, mkworld (<[merged_file := encode lib d]> (fs w)) (sent w) (stdout w)).

Definition merge_netcdf_files_xarray (lib : netcdf) (output_files : list string)
    (merged_file : string) : M unit :=
  print [Str "Merging files into "; Str merged_file] ;;
  datasets <- open_datasets lib output_files ;;
  merged_dataset <- lift (xr_concat datasets) ;;
  to_netcdf lib merged_dataset merged_file ;;
  print [Str "Merge complete: "; Str merged_file].

(** ** [download_dataset] *)

Definition download_dataset (fuel : nat) (env : environment) (lib : netcdf)
    (sched : schedule) (start_year end_year : Z) (filename : string) (workers : Z)
    : M unit :=
  print [Str "Generating Ranges"] ;;
  date_ranges <- lift (generate_date_ranges fuel start_year end_year) ;;
  print [Str "Ranges generated"] ;;
  print [Ranges date_ranges] ;;
  let output_dir := "data/partial" in
  output_files <- retrieve_missing_data fuel env sched date_ranges output_dir workers ;;
  print [Str "All threads completed. Total time taken: "; Elapsed; Str " seconds"] ;;
  let merged_file := "data/" +:+ filename +:+ ".nc" in
  merge_netcdf_files_xarray lib output_files merged_file ;;
  print [Str "Merging completed. Time taken: "; Elapsed; Str " seconds"] ;;
  print [Str "All done!"].

(** * Notions used in the statements

    What the theorems below are stated with: closed forms, relations between
    worlds, and the archives of the examples. None of them is part of the
    program. *)

(** The calendar *)

(** A date of the proleptic Gregorian calendar; the year has no upper bound
    here. *)
Definition valid_date (dt : datetime) : Prop :=
  1 <= year dt /\ 1 <= month dt <= 12 /\ 1 <= day dt <= days_in_month (year dt) (month dt).

(** The month and day of the [n]-th day (from 0) of a year, as the tail of
    [ord2ymd] computes them. *)
Definition month_day (y : Z) (leapyear : bool) (n : Z) : datetime :=
  let month := Z.shiftr (n + 50) 5 in
  let preceding := table DAYS_BEFORE_MONTH month + b2z ((2 <? month) && leapyear) in
  if n <? preceding then
    let month := month - 1 in
    let preceding :=
      preceding - (table DAYS_IN_MONTH month + b2z ((month =? 2) && leapyear)) in
    mkdatetime y month (n - preceding + 1)
  else mkdatetime y month (n - preceding + 1).

(** What the constructor raises for a year it does not accept. *)
Definition year_error (y : Z) : exn := if fits_int y then ValueError else OverflowError.

(** The cursor after the month [(y, m)]. *)
Definition next_month (y m : Z) : Z * Z := if m =? 12 then (y + 1, 1) else (y, m + 1).

(** The cursor at the first day of the month numbered [i]. *)
Definition cursor (i : Z) : datetime := mkdatetime (i / 12) (i mod 12 + 1) 1.

(** The [n] months from the month numbered [i], and their parts. *)
Definition months_from (i n : Z) : list (Z * Z) := month_of_index <$> seqZ i n.

Definition parts_of (months : list (Z * Z)) : list interval :=
  flat_map (fun ym => month_parts ym.1 ym.2) months.

(** [tiles o l]: the intervals of [l] follow one another from the ordinal [o]
    on, each one non-empty and starting the day after the one before ends. *)
Fixpoint tiles (o : Z) (l : list interval) : Prop :=
  match l with
  | [] => True
  | iv :: rest =>
    toordinal iv.1 = o /\ o <= toordinal iv.2 /\ tiles (toordinal iv.2 + 1) rest
  end.

(** The first ordinal after the intervals of [l], which start at [o]. *)
Fixpoint next_free (o : Z) (l : list interval) : Z :=
  match l with
  | [] => o
  | iv :: rest => next_free (toordinal iv.2 + 1) rest
  end.

(** Changes of the world *)

(** The world [w] with further lines on standard output. *)
Definition with_lines (w : world) (lines : list (list fragment)) : world :=
  mkworld (fs w) (sent w) (stdout w ++ lines).

(** [grows f w w']: from [w] to [w'] requests and output lines were only
    added, no file other than [f] changed, and no file disappeared. *)
Definition grows (f : string) (w w' : world) : Prop :=
  (exists more, sent w' = sent w ++ more)
  /\ (exists more, stdout w' = stdout w ++ more)
  /\ (forall p, p <> f -> fs w' !! p = fs w !! p)
  /\ (forall p, is_Some (fs w !! p) -> is_Some (fs w' !! p)).

(** A computation all of whose runs satisfy [grows f]. *)
Definition growing {A} (f : string) (m : M A) : Prop := forall w, grows f w (m w).2.

(** A computation that leaves the files as they are. *)
Definition fs_const {A} (m : M A) : Prop := forall w, fs (m w).2 = fs w.

(** A computation that has changed no file when it raises [HTTPError]. *)
Definition http_safe {A} (m : M A) : Prop :=
  forall w status u, (m w).1 = Raise (HTTPError status u) -> fs (m w).2 = fs w.

(** How the world moves while calls on the files [files] run: no file
    disappears, no other file changes, and requests are only added. *)
Definition evolves (files : list string) (w w' : world) : Prop :=
  (forall q, is_Some (fs w !! q) -> is_Some (fs w' !! q))
  /\ (forall q, q ∉ files -> fs w' !! q = fs w !! q)
  /\ (exists more, sent w' = sent w ++ more).

(** The search and the poll *)

(** The search request of an interval, under the token the credential source
    gave. *)
Definition search_request (access_token : option string) (start_date end_date : string)
    : Request :=
  mkrequest POST search_url (auth_headers access_token)
    (Some (search_payload start_date end_date)) false.

(** The world once the search request has been sent. *)
Definition searched (env : environment) (start_date end_date : string) (w : world)
    : world :=
  mkworld (fs w)
    (sent w ++ [search_request (get_token env) start_date end_date])
    (stdout w
     ++ [ [Str (if get_token env is Some _
                then "DEDL/DESP Access Token Obtained Successfully"
                else "Failed to Obtain DEDL/DESP Access Token")];
          [Str "Sending STAC search request for "; Str start_date; Str " to ";
           Str end_date; Str " ..."] ]).

(** A search result in which line 80 finds no product: [features] is not in
    it, or has length 0. *)
Definition lacks_features (doc : json) : Prop :=
  match doc with
  | JObj fields =>
    assoc "features" fields = None
    \/ exists features,
         assoc "features" fields = Some features /\ json_len features = Return 0
  | JArr items => existsb (is_str "features") items = false
  | JStr s => is_substring "features" s = false
  | _ => False
  end.

(** A search result on which line 80 raises [TypeError]: a value that [in]
    cannot search (null, a boolean, a number), a list or a string that holds
    ["features"] and cannot be subscripted by it, or an object whose
    [features] has no length. *)
Definition unsized_features (doc : json) : Prop :=
  match doc with
  | JObj fields =>
    exists features,
      assoc "features" fields = Some features /\ json_len features = Raise TypeError
  | JArr items => existsb (is_str "features") items = true
  | JStr s => is_substring "features" s = true
  | _ => True
  end.

(** A product whose download link is [u]. *)
Definition links_to (product : json) (u : string) : Prop :=
  exists assets link,
    json_getitem product "assets" = Return assets
    /\ json_getitem assets "downloadLink" = Return link
    /\ json_getitem link "href" = Return (JStr u).

(** A response without a (non-empty) [Location] header ends the loop. *)
Definition ready (r : Response) : Prop := location r = None \/ location r = Some "".


(** The scheduler *)

(** The artifact paths of the intervals, in their order. *)
Definition paths (output_dir : string) (date_ranges : list date_range) : list string :=
  (fun r => artifact_path output_dir r.1) <$> date_ranges.

(** The call submitted for an interval. *)
Definition task_of (output_dir : string) (r : date_range) : task :=
  mktask r.1 r.2 (artifact_path output_dir r.1).

(** The lines of the first loop. *)
Definition listing (output_dir : string) (w : world) (date_ranges : list date_range)
    : list (list fragment) :=
  (fun r =>
     if bool_decide (is_Some (fs w !! artifact_path output_dir r.1))
     then [Str "File "; Str (artifact_path output_dir r.1);
           Str " already exists. Skipping download."]
     else [Str "File "; Str (artifact_path output_dir r.1);
           Str " is missing. Starting download..."]) <$> date_ranges.

(** The calls [retrieve_missing_data] submits: the executor block runs in the
    world the first loop leaves. *)
Definition executor_run (fuel : nat) (env : environment) (sched : schedule)
    (date_ranges : list date_range) (output_dir : string) (workers : Z) (w : world)
    : pool_run * world :=
  run_pool fuel env sched date_ranges output_dir workers
    (list_output_files output_dir date_ranges [] w).2.

(** What a pool step keeps: the calls waiting or finished are the ones
    submitted. *)
Definition accounts (p : pool) (submitted : list task) : Prop :=
  waiting p ++ (fst <$> finished p) ≡ₚ submitted.

(** The state of the submission loop after the intervals [seen], started in
    the world [w0]: the pool accounts for the calls submitted; files were only
    added, and only at the paths of submitted calls; a call was submitted
    only for an interval of [seen] whose artifact was missing in [w0], and
    (when the paths are distinct) for every such interval. *)
Definition submitting (output_dir : string) (w0 : world) (seen : list date_range)
    (p : pool) (submitted : list task) (w : world) : Prop :=
  accounts p submitted
  /\ evolves (task_file <$> submitted) w0 w
  /\ (forall t, t ∈ submitted ->
        fs w0 !! task_file t = None /\ exists r, r ∈ seen /\ t = task_of output_dir r)
  /\ (NoDup (paths output_dir seen) ->
      forall r, r ∈ seen -> fs w0 !! artifact_path output_dir r.1 = None ->
                task_of output_dir r ∈ submitted).

(** How a finished future ended. *)
Definition succeeded (f : future) : Prop := f.2 = Return tt.
Definition failed (f : future) : Prop := exists e, f.2 = Raise e.

(** The merger *)

(** [file] can be opened and holds the dataset [d]. *)
Definition holds (lib : netcdf) (w : world) (file : string) (d : dataset) : Prop :=
  exists bytes, fs w !! file = Some bytes /\ decode lib bytes = Some d.

(** Archives, schedules and worlds of the examples *)

(** The double quote, for the bodies written out below. *)
Definition dq : string := String (ascii_of_nat 34) EmptyString.

(** A fresh run: no file, nothing sent, nothing printed. *)
Definition world0 : world := mkworld ∅ [] [].

(** A credential source that has a token. *)
Definition user : option string := Some "token".

(** An archive whose catalogue has no product for any interval. *)
Definition empty_catalog : server := fun _ _ =>
  inr (mkresponse 200 ["{" +:+ dq +:+ "features" +:+ dq +:+ ": []}"] None
         (Some (JObj [("features", JArr [])])) None HAbsent).

(** An archive whose search answers with the JSON document [null]. *)
Definition null_catalog : server := fun _ _ =>
  inr (mkresponse 200 ["null"] None (Some JNull) None HAbsent).

(** An archive that answers every request with an internal error. *)
Definition broken_catalog : server := fun _ _ =>
  inr (mkresponse 500 ["Internal Server Error"] None None None HAbsent).

(** An archive with one product, whose order is accepted (202) and must be
    polled at a status location. *)
Definition order_url : string := "https://archive.example/order".
Definition status_url : string := "https://archive.example/status".

(** The search finds this one product. *)
Definition catalog : Response :=
  mkresponse 200 ["{" +:+ dq +:+ "features" +:+ dq +:+ ": [...]}"] None
    (Some (JObj [("features",
                  JArr [JObj [("assets",
                               JObj [("downloadLink",
                                      JObj [("href", JStr order_url)])])]])]))
    None HAbsent.

(** The order is being processed: poll the status location. *)
Definition pending : Response :=
  mkresponse 202 ["{" +:+ dq +:+ "status" +:+ dq +:+ ": running}"] None
    (Some (JObj [("status", JStr "running")])) (Some status_url) HAbsent.

(** The transfer of the data breaks after the first chunk. *)
Definition cut_off : Response :=
  mkresponse 200 ["first chunk of the data"] (Some ChunkedEncodingError) None None
    (HInt 4096).

(** A poll answered with an internal error that still names the status
    location. *)
Definition polled_error : Response :=
  mkresponse 500 ["{" +:+ dq +:+ "status" +:+ dq +:+ ": failed}"] None
    (Some (JObj [("status", JStr "failed")])) (Some status_url) HAbsent.

(** The order is accepted, the first poll is answered with that error, and
    the second with the data. *)
Definition recovering_archive : server := fun n rq =>
  match method rq, n with
  | POST, _ => inr catalog
  | GET, 1%nat => inr pending
  | GET, 2%nat => inr polled_error
  | GET, _ => inr (mkresponse 200 ["data of the interval"] None None None (HInt 20))
  end.

(** The order is accepted, and the data are ready at the first poll. *)
Definition breaking_archive : server := fun n rq =>
  match method rq, n with
  | POST, _ => inr catalog
  | GET, 1%nat => inr pending
  | GET, _ => inr cut_off
  end.

(** An archive that is ready at its fourth answer. *)
Definition ready_at_fourth : server := fun n rq =>
  if (n <? 3)%nat then inr pending
  else inr (mkresponse 200 ["data"] None None None (HInt 4)).

(** An archive whose order is accepted, is still pending at the first poll,
    and is ready at the second. *)
Definition resolving_archive : server := fun n rq =>
  match method rq with
  | POST => inr catalog
  | GET =>
    if (n <? 3)%nat then inr pending
    else inr (mkresponse 200 ["data"] None None None (HInt 4))
  end.


(** An archive whose two orders both fail, each with its own status. *)
Definition first_order_url : string := "https://archive.example/order/1".
Definition second_order_url : string := "https://archive.example/order/2".

(** The search finds one product, to be ordered at [u]. *)
Definition catalog_of (u : string) : Response :=
  mkresponse 200 ["{" +:+ dq +:+ "features" +:+ dq +:+ ": [...]}"] None
    (Some (JObj [("features",
                  JArr [JObj [("assets",
                               JObj [("downloadLink", JObj [("href", JStr u)])])]])]))
    None HAbsent.

Definition failing_orders : server := fun n rq =>
  match method rq with
  | POST => inr (catalog_of (if (n <? 2)%nat then first_order_url else second_order_url))
  | GET =>
    inr (mkresponse (if String.eqb (url rq) first_order_url then 500 else 503)
           ["order failed"] None None None HAbsent)
  end.

(** Two intervals, and the schedule that completes calls as submitted. *)
Definition january_2021 : list date_range :=
  [("2021-01-01", "2021-01-10"); ("2021-01-11", "2021-01-20")].

Definition in_order : schedule := mkschedule [] [] [].

(** A toy NetCDF: one byte per sample, the byte counts the days since the
    last day of 2020, and the value is not stored. *)
Definition epoch : Z := toordinal (mkdatetime 2020 12 31).

(** The codec reads any bytes as a dataset. *)
Definition day_codec : netcdf :=
  mknetcdf
    (fun bytes =>
       Some ((fun c => (epoch + Z.of_nat (nat_of_ascii c), 0))
             <$> list_ascii_of_string bytes))
    (fun d =>
       string_of_list_ascii ((fun s => ascii_of_nat (Z.to_nat (s.1 - epoch))) <$> d)).

(** One sample for each day of January 2021 from [first] to [last]. *)
Definition days_of_january (first last : Z) : dataset :=
  (fun o => (o, 0)) <$> seqZ (toordinal (mkdatetime 2021 1 first)) (last - first + 1).

(** Artifact A ends on 2021-01-10 and artifact B starts on 2021-01-10. *)
Definition overlapping_artifacts : world :=
  mkworld
    (<["data/partial/2021-01-01.nc" := encode day_codec (days_of_january 1 10)]>
       (<["data/partial/2021-01-10.nc" := encode day_codec (days_of_january 10 20)]> ∅))
    [] [].

(** An archive that serves every order at once. *)
Definition serving_archive : server := fun n rq =>
  match method rq with
  | POST => inr catalog
  | GET => inr (mkresponse 200 ["data of the interval"] None None None (HInt 20))
  end.

(** The world a first, successful run over [january_2021] leaves. *)
Definition after_first_run : world :=
  (retrieve_missing_data 5 (mkenvironment user serving_archive) in_order
     january_2021 "data/partial" 2 world0).2.

(** Only the first of two artifacts is on disk. *)
Definition second_artifact_missing : world :=
  mkworld
    (<["data/partial/2021-01-01.nc" := encode day_codec (days_of_january 1 10)]> ∅)
    [] [].

(** Further notions: the requests of a call, the first product, the lines
    of the polling loop, and what the driver keeps *)
(** A request that follows the search: a [GET] without a body, under the
    authorization header [auth]. *)
Definition follow_up (auth : string) (rq : Request) : Prop :=
  method rq = GET /\ authorization rq = auth /\ payload rq = None.

(** A computation that only adds requests, each of them satisfying [P]. *)
Definition requesting {A} (P : Request -> Prop) (m : M A) : Prop :=
  forall w, exists more, sent (m w).2 = sent w ++ more /\ Forall P more.

(** A computation that sends nothing. *)
Definition silent {A} (m : M A) : Prop := forall w, sent (m w).2 = sent w.

(** The search of an interval, sent from the world [w], is answered with a
    result whose first feature is [product]. *)
Definition finds (env : environment) (start_date end_date : string) (w : world)
    (product : json) : Prop :=
  exists r fields others,
    remote env (length (sent w)) (search_request (get_token env) start_date end_date)
    = inr r
    /\ broken r = None /\ status_code r = 200 /\ text r <> ""
    /\ json_doc r = Some (JObj fields)
    /\ assoc "features" fields = Some (JArr (product :: others)).

(** [product["assets"]["downloadLink"]["href"]]. *)
Definition download_link (product : json) : outcome json :=
  let? assets := json_getitem product "assets" in
  let? link := json_getitem assets "downloadLink" in
  json_getitem link "href".

(** A response whose order status, if it has one, is a string. *)
Definition reports_string (r : Response) : Prop :=
  forall doc status,
    response_json r = Return doc -> json_getitem doc "status" = Return status ->
    exists s, status = JStr s.

(** The lines the polling loop may print after the status [old_status], when
    the statuses are strings: each reports a status that is not the one
    before it. *)
Fixpoint status_lines (old_status : json) (lines : list (list fragment)) : Prop :=
  match lines with
  | [] => True
  | line :: rest =>
    exists s,
      line = [Str "order status: "; Doc (JStr s)]
      /\ old_status <> JStr s
      /\ status_lines (JStr s) rest
  end.

(** A product without a download link. *)
Definition bare_catalog : server := fun _ _ =>
  inr (mkresponse 200 ["{" +:+ dq +:+ "features" +:+ dq +:+ ": [...]}"] None
         (Some (JObj [("features", JArr [JObj [("assets", JObj [])]])])) None HAbsent).

(** An archive that accepts the order (202) and names no location to poll. *)
Definition accepting_archive : server := fun n rq =>
  match method rq with
  | POST => inr catalog
  | GET =>
    inr (mkresponse 202 ["{" +:+ dq +:+ "status" +:+ dq +:+ ": queued}"] None
           (Some (JObj [("status", JStr "queued")])) None HAbsent)
  end.

(** A computation that leaves a file that exists at [q] as it is. *)
Definition keeps {A} (q : string) (m : M A) : Prop :=
  forall w, is_Some (fs w !! q) -> fs (m w).2 !! q = fs w !! q.

(** The world in which [download_dataset] starts the retrieval. *)
Definition ranges_printed (w : world) (date_ranges : list date_range) : world :=
  with_lines w [[Str "Generating Ranges"]; [Str "Ranges generated"]; [Ranges date_ranges]].

(** The three artifacts of January 2021 are on disk. *)
Definition january_artifacts : world :=
  mkworld
    (<["data/partial/2021-01-01.nc" := encode day_codec (days_of_january 1 10)]>
       (<["data/partial/2021-01-11.nc" := encode day_codec (days_of_january 11 20)]>
          (<["data/partial/2021-01-21.nc" := encode day_codec (days_of_january 21 31)]> ∅)))
    [] [].

(** * Properties *)

(** ** The calendar *)

Lemma divmod_unique n d q r : 0 <= r < d -> n = d * q + r -> n / d = q /\ n mod d = r.
Proof.
  intros Hr Hn. split.
  - symmetry. apply (Z.div_unique_pos n d q r); assumption.
  - symmetry. apply (Z.mod_unique_pos n d q r); assumption.
Qed.

Ltac divmod q r :=
  match goal with
  | |- context [?n / ?d] => destruct (divmod_unique n d q r) as [-> ->]; [lia | lia |]
  end.

(** Every year is [400 a + 100 b + 4 c + e + 1] for cycle counts in range. *)
Lemma year_split y : 1 <= y ->
  exists a b c e, 0 <= a /\ 0 <= b < 4 /\ 0 <= c < 25 /\ 0 <= e < 4
                  /\ y = 400 * a + 100 * b + 4 * c + e + 1.
Proof.
  intros. exists ((y - 1) / 400), ((y - 1) mod 400 / 100), ((y - 1) mod 100 / 4), ((y - 1) mod 4).
  Z.div_mod_to_equations; lia.
Qed.

Lemma days_before_year_split a b c e :
  0 <= a -> 0 <= b < 4 -> 0 <= c < 25 -> 0 <= e < 4 ->
  days_before_year (400 * a + 100 * b + 4 * c + e + 1)
  = 146097 * a + 36524 * b + 1461 * c + 365 * e.
Proof.
  intros. unfold days_before_year. cbv zeta. Z.div_mod_to_equations; lia.
Qed.

Lemma is_leap_split a b c e :
  0 <= a -> 0 <= b < 4 -> 0 <= c < 25 -> 0 <= e < 4 ->
  is_leap (400 * a + 100 * b + 4 * c + e + 1) = ((e =? 3) && (negb (c =? 24) || (b =? 3))).
Proof.
  intros. unfold is_leap.
  repeat match goal with |- context [?x =? ?y] => destruct (Z.eqb_spec x y) end;
    simpl; try reflexivity; exfalso; Z.div_mod_to_equations; lia.
Qed.

Lemma ord2ymd_split a b c e k :
  0 <= a -> 0 <= b < 4 -> 0 <= c < 25 -> 0 <= e < 4 ->
  0 <= k < 365 + b2z ((e =? 3) && (negb (c =? 24) || (b =? 3))) ->
  ord2ymd (146097 * a + 36524 * b + 1461 * c + 365 * e + k + 1)
  = if k =? 365 then mkdatetime (400 * a + 100 * b + 4 * c + e + 1) 12 31
    else month_day (400 * a + 100 * b + 4 * c + e + 1)
           ((e =? 3) && (negb (c =? 24) || (b =? 3))) k.
Proof.
  intros Ha Hb Hc He Hk. unfold ord2ymd, DI400Y, DI100Y, DI4Y. cbv zeta.
  destruct (Z.eqb_spec k 365) as [->|Hk'].
  - assert (He3 : e = 3) by (destruct (Z.eqb_spec e 3); simpl in Hk; lia). subst e.
    destruct (Z.eqb_spec b 3) as [->|Hb3]; destruct (Z.eqb_spec c 24) as [->|Hc24];
      simpl in Hk; try lia.
    + divmod a 146096. divmod 4 0. divmod 0 0. divmod 0 0. simpl. f_equal. lia.
    + divmod a (36524 * 3 + 1461 * c + 1460). divmod 3 (1461 * c + 1460).
      divmod c 1460. divmod 4 0. simpl. f_equal. lia.
    + divmod a (36524 * b + 1461 * c + 1460). divmod b (1461 * c + 1460).
      divmod c 1460. divmod 4 0. simpl. f_equal. lia.
  - assert (Hk2 : 0 <= k < 365) by (destruct (_ && _); simpl in Hk; lia). clear Hk.
    divmod a (36524 * b + 1461 * c + 365 * e + k).
    divmod b (1461 * c + 365 * e + k).
    divmod c (365 * e + k).
    divmod e k.
    replace (e =? 4) with false by (symmetry; apply Z.eqb_neq; lia).
    replace (b =? 4) with false by (symmetry; apply Z.eqb_neq; lia).
    simpl orb. cbv iota. unfold month_day. cbv zeta.
    replace (a * 400 + 1 + (b * 100 + c * 4 + e)) with (400 * a + 100 * b + 4 * c + e + 1) by lia.
    reflexivity.
Qed.

Ltac is_Zconst v :=
  lazymatch v with
  | Z0 => idtac
  | Zpos ?p => idtac
  | Zneg ?p => idtac
  end.

(** Evaluates the table look-ups and flags whose arguments are numerals. *)
Ltac eval_closed :=
  repeat match goal with
  | |- context [table ?t ?c] =>
    let v := eval vm_compute in (table t c) in
    is_Zconst v; change (table t c) with v
  | |- context [b2z ?b] =>
    let v := eval vm_compute in (b2z b) in
    is_Zconst v; change (b2z b) with v
  | |- context [?x =? ?y] =>
    let v := eval vm_compute in (x =? y) in
    lazymatch v with true => idtac | false => idtac end;
    change (x =? y) with v
  end.

Lemma month_day_correct y leap m d :
  1 <= m <= 12 ->
  1 <= d <= (if (m =? 2) && leap then 29 else table DAYS_IN_MONTH m) ->
  month_day y leap (table DAYS_BEFORE_MONTH m + b2z ((2 <? m) && leap) + d - 1)
  = mkdatetime y m d.
Proof.
  intros Hm Hd.
  assert (Hcases : m = 1 \/ m = 2 \/ m = 3 \/ m = 4 \/ m = 5 \/ m = 6 \/ m = 7
                   \/ m = 8 \/ m = 9 \/ m = 10 \/ m = 11 \/ m = 12) by lia.
  unfold month_day. cbv zeta. rewrite Z.shiftr_div_pow2 by lia.
  change (2 ^ 5) with 32. clear Hm. revert Hd.
  destruct leap;
    repeat (destruct Hcases as [-> | Hcases]); try subst m;
    eval_closed; cbv iota; cbn [andb]; intros Hd;
    match goal with
    | |- context [(?n + 50) / 32] =>
      let q := fresh "q" in
      let Hq := fresh "Hq" in
      remember ((n + 50) / 32) as q eqn:Hq;
      assert (Hq' : 32 * q <= n + 50 < 32 * q + 32)
        by (subst q; Z.div_mod_to_equations; lia);
      clear Hq;
      assert (Hq2 : q = 1 \/ q = 2 \/ q = 3 \/ q = 4 \/ q = 5 \/ q = 6 \/ q = 7
                    \/ q = 8 \/ q = 9 \/ q = 10 \/ q = 11 \/ q = 12) by lia;
      repeat (destruct Hq2 as [-> | Hq2]); try subst q; try (exfalso; lia)
    end;
    eval_closed;
    match goal with
    | |- context [?x <? ?y] => destruct (Z.ltb_spec x y)
    end;
    try (exfalso; lia); f_equal; lia.
Qed.

Lemma day_of_year_bounds leap m d :
  1 <= m <= 12 ->
  1 <= d <= (if (m =? 2) && leap then 29 else table DAYS_IN_MONTH m) ->
  let k := table DAYS_BEFORE_MONTH m + b2z ((2 <? m) && leap) + d - 1 in
  0 <= k < 365 + b2z leap /\ (k = 365 -> m = 12 /\ d = 31).
Proof.
  intros Hm Hd.
  assert (Hcases : m = 1 \/ m = 2 \/ m = 3 \/ m = 4 \/ m = 5 \/ m = 6 \/ m = 7
                   \/ m = 8 \/ m = 9 \/ m = 10 \/ m = 11 \/ m = 12) by lia.
  clear Hm. revert Hd.
  destruct leap;
    repeat (destruct Hcases as [-> | Hcases]); try subst m;
    eval_closed; cbv iota zeta; cbn [andb]; eval_closed; intros Hd; lia.
Qed.

(** [fromordinal] undoes [toordinal]. *)
Lemma ord2ymd_toordinal dt : valid_date dt -> ord2ymd (toordinal dt) = dt.
Proof.
  destruct dt as [y m d]. unfold valid_date, toordinal. simpl.
  intros (Hy & Hm & Hd).
  destruct (year_split y Hy) as (a & b & c & e & Ha & Hb & Hc & He & ->).
  unfold ymd2ord, days_before_month, days_in_month in *.
  rewrite days_before_year_split by assumption.
  rewrite is_leap_split in * by assumption.
  set (leap := (e =? 3) && (negb (c =? 24) || (b =? 3))) in *.
  destruct (day_of_year_bounds leap m d Hm Hd) as [Hk H365].
  match goal with
  | |- ord2ymd ?n = _ =>
    replace n with (146097 * a + 36524 * b + 1461 * c + 365 * e
                    + (table DAYS_BEFORE_MONTH m + b2z ((2 <? m) && leap) + d - 1) + 1)
      by lia
  end.
  rewrite ord2ymd_split by assumption.
  destruct (Z.eqb_spec (table DAYS_BEFORE_MONTH m + b2z ((2 <? m) && leap) + d - 1) 365)
    as [E | _].
  - destruct (H365 E) as [-> ->]. reflexivity.
  - apply month_day_correct; assumption.
Qed.

Lemma days_in_month_bounds y m : 1 <= m <= 12 -> 28 <= days_in_month y m <= 31.
Proof.
  intros Hm. unfold days_in_month.
  assert (Hcases : m = 1 \/ m = 2 \/ m = 3 \/ m = 4 \/ m = 5 \/ m = 6 \/ m = 7
                   \/ m = 8 \/ m = 9 \/ m = 10 \/ m = 11 \/ m = 12) by lia.
  clear Hm.
  destruct (is_leap y);
    repeat (destruct Hcases as [-> | Hcases]); try subst m;
    eval_closed; cbv iota; cbn [andb]; eval_closed; lia.
Qed.

(** The first of a month follows the last day of the month before. *)
Lemma days_before_month_succ y m :
  1 <= m < 12 ->
  days_before_month y (m + 1) = days_before_month y m + days_in_month y m.
Proof.
  intros Hm. unfold days_before_month, days_in_month.
  assert (Hcases : m = 1 \/ m = 2 \/ m = 3 \/ m = 4 \/ m = 5 \/ m = 6 \/ m = 7
                   \/ m = 8 \/ m = 9 \/ m = 10 \/ m = 11) by lia.
  clear Hm.
  destruct (is_leap y);
    repeat (destruct Hcases as [-> | Hcases]); try subst m; reflexivity.
Qed.

Lemma days_before_year_succ y :
  1 <= y -> days_before_year (y + 1) = days_before_year y + 365 + b2z (is_leap y).
Proof.
  intros Hy. unfold days_before_year, is_leap. cbv zeta.
  repeat match goal with |- context [?x =? ?y] => destruct (Z.eqb_spec x y) end;
    simpl; Z.div_mod_to_equations; lia.
Qed.

Lemma days_before_december y : days_before_month y 12 + 31 = 365 + b2z (is_leap y).
Proof. unfold days_before_month. destruct (is_leap y); reflexivity. Qed.

Lemma days_before_january y : days_before_month y 1 = 0.
Proof. unfold days_before_month. destruct (is_leap y); reflexivity. Qed.

Lemma days_before_year_nonneg y : 1 <= y -> 0 <= days_before_year y.
Proof. intros. unfold days_before_year. cbv zeta. Z.div_mod_to_equations; lia. Qed.

Lemma days_before_year_mono y y' :
  1 <= y -> y <= y' -> days_before_year y <= days_before_year y'.
Proof.
  intros. unfold days_before_year. cbv zeta. Z.div_mod_to_equations; lia.
Qed.

Lemma days_before_month_nonneg y m : 1 <= m <= 12 -> 0 <= days_before_month y m.
Proof.
  intros Hm. unfold days_before_month.
  assert (Hcases : m = 1 \/ m = 2 \/ m = 3 \/ m = 4 \/ m = 5 \/ m = 6 \/ m = 7
                   \/ m = 8 \/ m = 9 \/ m = 10 \/ m = 11 \/ m = 12) by lia.
  clear Hm.
  destruct (is_leap y);
    repeat (destruct Hcases as [-> | Hcases]); try subst m; vm_compute; discriminate.
Qed.


Lemma toordinal_bounds dt :
  valid_date dt -> year dt <= MAXYEAR -> 1 <= toordinal dt <= MAXORDINAL.
Proof.
  destruct dt as [y m d]. unfold valid_date, toordinal, ymd2ord, MAXYEAR. simpl.
  intros (Hy & Hm & Hd) Hmax.
  pose proof (days_before_year_nonneg y Hy) as H0.
  pose proof (days_before_month_nonneg y m Hm) as H1.
  pose proof (days_before_year_mono (y + 1) 10000 ltac:(lia) ltac:(lia)) as H2.
  rewrite days_before_year_succ in H2 by assumption.
  change (days_before_year 10000) with 3652059 in H2.
  unfold days_before_month, days_in_month in *.
  destruct (day_of_year_bounds (is_leap y) m d Hm Hd) as [Hk _].
  unfold MAXORDINAL. lia.
Qed.

(** Adding days that stay inside the month only moves the day field. *)
Lemma add_days_in_month y m d n :
  valid_date (mkdatetime y m d) -> y <= MAXYEAR ->
  1 <= d + n <= days_in_month y m ->
  add_days (mkdatetime y m d) n = Return (mkdatetime y m (d + n)).
Proof.
  intros Hv Hmax Hn. unfold add_days. cbv zeta.
  assert (Hv' : valid_date (mkdatetime y m (d + n))).
  { destruct Hv as (? & ? & ?). repeat split; simpl in *; lia. }
  assert (E : toordinal (mkdatetime y m d) + n = toordinal (mkdatetime y m (d + n))).
  { unfold toordinal, ymd2ord. simpl. lia. }
  rewrite E.
  pose proof (toordinal_bounds _ Hv' Hmax) as Hb.
  replace (0 <? toordinal (mkdatetime y m (d + n))) with true
    by (symmetry; apply Z.ltb_lt; lia).
  replace (toordinal (mkdatetime y m (d + n)) <=? MAXORDINAL) with true
    by (symmetry; apply Z.leb_le; lia).
  simpl. f_equal. apply ord2ymd_toordinal. assumption.
Qed.

Lemma new_valid y m d :
  valid_date (mkdatetime y m d) -> y <= MAXYEAR -> new y m d = Return (mkdatetime y m d).
Proof.
  unfold valid_date, new, check_date_fields, MINYEAR. simpl. intros (Hy & Hm & Hd) Hmax.
  pose proof (days_in_month_bounds y m Hm) as Hdim.
  assert (Hfits : fits_int y && fits_int m && fits_int d = true).
  { unfold fits_int, INT_MIN, INT_MAX, MAXYEAR in *.
    rewrite !andb_true_iff, !Z.leb_le. lia. }
  rewrite Hfits. cbn [negb].
  replace (1 <=? y) with true by (symmetry; apply Z.leb_le; lia).
  replace (y <=? MAXYEAR) with true by (symmetry; apply Z.leb_le; lia).
  replace (1 <=? m) with true by (symmetry; apply Z.leb_le; lia).
  replace (m <=? 12) with true by (symmetry; apply Z.leb_le; lia).
  replace (1 <=? d) with true by (symmetry; apply Z.leb_le; lia).
  replace (d <=? days_in_month y m) with true by (symmetry; apply Z.leb_le; lia).
  reflexivity.
Qed.

(** ** One pass of the loop *)

(** The last day of the cursor's month, as the loop computes it. *)
Lemma end_of_month_eq y m :
  1 <= y <= MAXYEAR -> 1 <= m <= 12 ->
  (if m =? 12 then replace (mkdatetime y m 1) None None (Some 31)
   else
     let? first_of_next := replace (mkdatetime y m 1) None (Some (m + 1)) (Some 1) in
     sub_days first_of_next 1)
  = Return (mkdatetime y m (days_in_month y m)).
Proof.
  intros Hy Hm. pose proof (days_in_month_bounds y m Hm) as Hdim.
  destruct (Z.eqb_spec m 12) as [-> | Hne].
  - unfold replace. simpl. rewrite new_valid; [reflexivity | | lia].
    repeat split; simpl; try lia. vm_compute. discriminate.
  - unfold replace. simpl.
    pose proof (days_in_month_bounds y (m + 1) ltac:(lia)) as Hdim'.
    rewrite new_valid; [| repeat split; simpl; lia | lia]. cbn [obind].
    unfold sub_days, add_days. cbv zeta.
    assert (Hv : valid_date (mkdatetime y m (days_in_month y m)))
      by (repeat split; simpl; lia).
    match goal with
    | |- context [toordinal ?a + ?n] =>
      replace (toordinal a + n) with (toordinal (mkdatetime y m (days_in_month y m)))
        by (unfold toordinal, ymd2ord; simpl; rewrite days_before_month_succ by lia; lia)
    end.
    pose proof (toordinal_bounds _ Hv ltac:(simpl; lia)) as Hb.
    replace (0 <? toordinal (mkdatetime y m (days_in_month y m))) with true
      by (symmetry; apply Z.ltb_lt; lia).
    replace (toordinal (mkdatetime y m (days_in_month y m)) <=? MAXORDINAL) with true
      by (symmetry; apply Z.leb_le; lia).
    simpl. f_equal. apply ord2ymd_toordinal. assumption.
Qed.

Lemma generate_loop_eq fuel start_date end_date date_ranges :
  generate_loop (S fuel) start_date end_date date_ranges
  = if negb (Datetime.le start_date end_date) then Return date_ranges
    else
      let? end_of_month :=
        (if month start_date =? 12 then replace start_date None None (Some 31)
         else
           let? first_of_next :=
             replace start_date None (Some (month start_date + 1)) (Some 1) in
           sub_days first_of_next 1) in
      let days_in_month := diff_days end_of_month start_date + 1 in
      let part_size := days_in_month / 3 in
      let? end_part_1 := add_days start_date (part_size - 1) in
      let date_ranges := date_ranges ++ [(strftime start_date, strftime end_part_1)] in
      let? start_part_2 := add_days end_part_1 1 in
      let? end_part_2 := add_days start_part_2 (part_size - 1) in
      let date_ranges := date_ranges ++ [(strftime start_part_2, strftime end_part_2)] in
      let? start_part_3 := add_days end_part_2 1 in
      let date_ranges := date_ranges ++ [(strftime start_part_3, strftime end_of_month)] in
      let? start_date :=
        (if month start_date =? 12
         then replace start_date (Some (year start_date + 1)) (Some 1) (Some 1)
         else replace start_date None (Some (month start_date + 1)) (Some 1)) in
      generate_loop fuel start_date end_date date_ranges.
Proof. reflexivity. Qed.

Lemma generate_loop_step fuel y m end_date acc :
  1 <= y <= MAXYEAR -> 1 <= m <= 12 ->
  Datetime.le (mkdatetime y m 1) end_date = true ->
  (m = 12 -> y < MAXYEAR) ->
  generate_loop (S fuel) (mkdatetime y m 1) end_date acc
  = generate_loop fuel (mkdatetime (next_month y m).1 (next_month y m).2 1) end_date
      (acc ++ (render <$> month_parts y m)).
Proof.
  intros Hy Hm Hle Hdec. rewrite generate_loop_eq, Hle. cbn [negb].
  cbn [month year]. rewrite end_of_month_eq by assumption. cbn [obind].
  pose proof (days_in_month_bounds y m Hm) as Hdim.
  assert (Hd : diff_days (mkdatetime y m (days_in_month y m)) (mkdatetime y m 1) + 1
               = days_in_month y m).
  { unfold diff_days, toordinal, ymd2ord. simpl. lia. }
  cbv zeta. rewrite Hd.
  set (p := days_in_month y m / 3).
  assert (Hp : 9 <= p <= 10) by (subst p; Z.div_mod_to_equations; lia).
  assert (Hp3 : 3 * p <= days_in_month y m) by (subst p; Z.div_mod_to_equations; lia).
  assert (Hv : forall d, 1 <= d <= days_in_month y m -> valid_date (mkdatetime y m d))
    by (intros d ?; repeat split; simpl; lia).
  rewrite (add_days_in_month y m 1 (p - 1)) by (first [apply Hv; lia | lia]). cbn [obind].
  rewrite (add_days_in_month y m (1 + (p - 1)) 1) by (first [apply Hv; lia | lia]). cbn [obind].
  rewrite (add_days_in_month y m (1 + (p - 1) + 1) (p - 1)) by (first [apply Hv; lia | lia]).
  cbn [obind].
  rewrite (add_days_in_month y m (1 + (p - 1) + 1 + (p - 1)) 1) by (first [apply Hv; lia | lia]).
  cbn [obind].
  replace (1 + (p - 1)) with p by lia.
  replace (p + 1 + (p - 1)) with (2 * p) by lia.
  assert (Hnext :
    (if m =? 12 then replace (mkdatetime y m 1) (Some (y + 1)) (Some 1) (Some 1)
     else replace (mkdatetime y m 1) None (Some (m + 1)) (Some 1))
    = Return (mkdatetime (next_month y m).1 (next_month y m).2 1)).
  { unfold next_month, replace. destruct (Z.eqb_spec m 12) as [-> | Hne]; simpl.
    - apply new_valid; [repeat split; simpl; try lia; vm_compute; discriminate|].
      specialize (Hdec eq_refl). lia.
    - pose proof (days_in_month_bounds y (m + 1) ltac:(lia)).
      apply new_valid; [repeat split; simpl; lia | lia]. }
  rewrite Hnext. cbn [obind]. f_equal.
  unfold month_parts. fold p. cbv zeta. simpl fmap. unfold render. simpl.
  rewrite <- !app_assoc. reflexivity.
Qed.

Lemma generate_loop_done fuel start_date end_date acc :
  Datetime.le start_date end_date = false ->
  generate_loop fuel start_date end_date acc = Return acc.
Proof. intros H. destruct fuel; simpl; rewrite H; reflexivity. Qed.

Lemma parts_of_cons ym months :
  parts_of (ym :: months) = month_parts ym.1 ym.2 ++ parts_of months.
Proof. reflexivity. Qed.

Lemma cursor_next i :
  mkdatetime (next_month (i / 12) (i mod 12 + 1)).1 (next_month (i / 12) (i mod 12 + 1)).2 1
  = cursor (i + 1).
Proof.
  unfold next_month, cursor.
  destruct (Z.eqb_spec (i mod 12 + 1) 12) as [E | E]; simpl; f_equal;
    Z.div_mod_to_equations; lia.
Qed.

(** The loop, started at month [i] with [n] months to go before February of
    [end_year], appends the parts of these [n] months. *)
Lemma generate_loop_months (n : nat) : forall fuel i acc end_year,
  1 <= end_year <= MAXYEAR -> 12 <= i -> i + Z.of_nat n = 12 * end_year + 1 ->
  (n <= fuel)%nat ->
  generate_loop fuel (cursor i) (mkdatetime end_year 1 31) acc
  = Return (acc ++ (render <$> parts_of (months_from i (Z.of_nat n)))).
Proof.
  induction n as [| n IH]; intros fuel i acc end_year Hey Hi Hn Hfuel.
  - rewrite generate_loop_done.
    + unfold months_from. rewrite seqZ_nil by lia. simpl. rewrite app_nil_r. reflexivity.
    + unfold Datetime.le, cursor. simpl.
      replace (i / 12) with end_year by (Z.div_mod_to_equations; lia).
      replace (i mod 12 + 1) with 2 by (Z.div_mod_to_equations; lia).
      rewrite Z.ltb_irrefl. simpl. apply andb_false_r.
  - destruct fuel as [| fuel]; [lia |].
    unfold cursor at 1. rewrite generate_loop_step.
    + rewrite cursor_next. rewrite (IH fuel (i + 1) _ end_year) by lia.
      f_equal. rewrite <- app_assoc. f_equal.
      unfold months_from. rewrite (seqZ_cons i) by lia.
      replace (Z.pred (Z.of_nat (S n))) with (Z.of_nat n) by lia.
      replace (Z.succ i) with (i + 1) by lia.
      rewrite fmap_cons, parts_of_cons, fmap_app. reflexivity.
    + Z.div_mod_to_equations; lia.
    + Z.div_mod_to_equations; lia.
    + unfold Datetime.le. simpl.
      destruct (Z.ltb_spec (i / 12) end_year) as [Hlt | Hge]; [reflexivity |].
      replace (i / 12) with end_year by (Z.div_mod_to_equations; lia).
      replace (i mod 12 + 1) with 1 by (Z.div_mod_to_equations; lia).
      rewrite Z.eqb_refl. reflexivity.
    + intros E. Z.div_mod_to_equations; lia.
Qed.

Lemma partition_months start_year end_year :
  partition start_year end_year
  = parts_of (months_from (12 * start_year) (12 * (end_year - start_year) + 1)).
Proof. reflexivity. Qed.

(** What [generate_date_ranges] returns for a range of calendar years. *)
Lemma generate_date_ranges_correct fuel start_year end_year :
  MINYEAR <= start_year -> start_year <= end_year -> end_year <= MAXYEAR ->
  (months_fuel start_year end_year <= fuel)%nat ->
  generate_date_ranges fuel start_year end_year
  = Return (render <$> partition start_year end_year).
Proof.
  unfold MINYEAR. intros Hs Hse He Hfuel. unfold generate_date_ranges.
  rewrite new_valid; [| repeat split; simpl; try lia; vm_compute; discriminate | lia].
  rewrite new_valid; [| repeat split; simpl; try lia; vm_compute; discriminate | lia].
  cbn [obind].
  replace (mkdatetime start_year 1 1) with (cursor (12 * start_year))
    by (unfold cursor; f_equal; Z.div_mod_to_equations; lia).
  unfold months_fuel in Hfuel.
  rewrite (generate_loop_months (Z.to_nat (12 * (end_year - start_year) + 1))) by lia.
  rewrite Z2Nat.id by lia. reflexivity.
Qed.

(** With the years the wrong way round the loop body never runs. *)
Lemma generate_date_ranges_empty fuel start_year end_year :
  MINYEAR <= end_year -> end_year < start_year -> start_year <= MAXYEAR ->
  generate_date_ranges fuel start_year end_year = Return [].
Proof.
  unfold MINYEAR. intros He Hlt Hs. unfold generate_date_ranges.
  rewrite new_valid; [| repeat split; simpl; try lia; vm_compute; discriminate | lia].
  rewrite new_valid; [| repeat split; simpl; try lia; vm_compute; discriminate | lia].
  cbn [obind]. apply generate_loop_done. unfold Datetime.le. simpl.
  replace (start_year <? end_year) with false by (symmetry; apply Z.ltb_ge; lia).
  replace (start_year =? end_year) with false by (symmetry; apply Z.eqb_neq; lia).
  reflexivity.
Qed.

(** ** Intervals that tile the calendar *)

Lemma next_free_app o l1 l2 :
  next_free o (l1 ++ l2) = next_free (next_free o l1) l2.
Proof. revert o. induction l1 as [| iv l1 IH]; intros o; simpl; [reflexivity | apply IH]. Qed.

Lemma tiles_app o l1 l2 :
  tiles o l1 -> tiles (next_free o l1) l2 -> tiles o (l1 ++ l2).
Proof.
  revert o. induction l1 as [| iv l1 IH]; intros o H1 H2; simpl in *; [assumption |].
  destruct H1 as (Ha & Hb & Hc). repeat split; try assumption. apply IH; assumption.
Qed.

Lemma tiles_next_free_le o l : tiles o l -> o <= next_free o l.
Proof.
  revert o. induction l as [| iv l IH]; intros o H; simpl in *; [lia |].
  destruct H as (Ha & Hb & Hc). specialize (IH _ Hc). lia.
Qed.

(** Tiling intervals list every day from [o] up to the next free ordinal
    exactly once, in order. *)
Lemma tiles_days o l :
  tiles o l -> concat (interval_days <$> l) = seqZ o (next_free o l - o).
Proof.
  revert o. induction l as [| iv l IH]; intros o H.
  - simpl. rewrite seqZ_nil by lia. reflexivity.
  - cbn [tiles] in H. rewrite fmap_cons. cbn [concat next_free].
    destruct H as (Ha & Hb & Hc). rewrite (IH _ Hc).
    pose proof (tiles_next_free_le _ _ Hc) as Hle.
    unfold interval_days. rewrite Ha.
    replace (next_free (toordinal iv.2 + 1) l - o)
      with ((toordinal iv.2 - o + 1) + (next_free (toordinal iv.2 + 1) l - (toordinal iv.2 + 1)))
      by lia.
    rewrite (seqZ_app o (toordinal iv.2 - o + 1)
               (next_free (toordinal iv.2 + 1) l - (toordinal iv.2 + 1))) by lia.
    replace (o + (toordinal iv.2 - o + 1)) with (toordinal iv.2 + 1) by lia.
    reflexivity.
Qed.

(** Every interval of a tiling lies between [o] and the next free ordinal. *)
Lemma tiles_bounds o l iv :
  tiles o l -> iv ∈ l ->
  o <= toordinal iv.1 /\ toordinal iv.1 <= toordinal iv.2 /\ toordinal iv.2 < next_free o l.
Proof.
  revert o. induction l as [| x l IH]; intros o H Hin; simpl in *.
  - inversion Hin.
  - destruct H as (Ha & Hb & Hc). pose proof (tiles_next_free_le _ _ Hc) as Hle.
    apply elem_of_cons in Hin as [-> | Hin].
    + lia.
    + specialize (IH _ Hc Hin). lia.
Qed.

(** An interval of a tiling ends before any later one starts. *)
Lemma tiles_ordered o l (i j : nat) a b :
  tiles o l -> (i < j)%nat -> l !! i = Some a -> l !! j = Some b ->
  toordinal a.2 < toordinal b.1.
Proof.
  revert o i j. induction l as [| x l IH]; intros o i j H Hij Hi Hj; simpl in *.
  - discriminate.
  - destruct H as (Ha & Hb & Hc). destruct j as [| j]; [lia |]. simpl in Hj.
    destruct i as [| i]; simpl in Hi.
    + injection Hi as ->.
      assert (Hin : b ∈ l) by (eapply list_elem_of_lookup_2; eassumption).
      pose proof (tiles_bounds _ _ _ Hc Hin). lia.
    + apply (IH _ i j Hc); [lia | assumption | assumption].
Qed.

(** The three parts of a month tile it. *)
Lemma month_parts_tiles y m :
  1 <= y -> 1 <= m <= 12 ->
  tiles (toordinal (mkdatetime y m 1)) (month_parts y m)
  /\ next_free (toordinal (mkdatetime y m 1)) (month_parts y m)
     = toordinal (mkdatetime y m 1) + days_in_month y m.
Proof.
  intros Hy Hm. pose proof (days_in_month_bounds y m Hm) as Hdim.
  unfold month_parts. cbv zeta. set (p := days_in_month y m / 3).
  assert (Hp : 9 <= p <= 10) by (subst p; Z.div_mod_to_equations; lia).
  assert (Hp3 : 3 * p <= days_in_month y m) by (subst p; Z.div_mod_to_equations; lia).
  simpl. repeat split; unfold toordinal, ymd2ord; simpl; lia.
Qed.

Lemma month_parts_valid y m iv :
  1 <= y -> 1 <= m <= 12 -> iv ∈ month_parts y m -> valid_date iv.1 /\ valid_date iv.2.
Proof.
  intros Hy Hm Hin. pose proof (days_in_month_bounds y m Hm) as Hdim.
  unfold month_parts in Hin. cbv zeta in Hin. set (p := days_in_month y m / 3) in *.
  assert (Hp : 9 <= p <= 10) by (subst p; Z.div_mod_to_equations; lia).
  assert (Hp3 : 3 * p <= days_in_month y m) by (subst p; Z.div_mod_to_equations; lia).
  repeat (apply elem_of_cons in Hin as [-> | Hin]); [| | | inversion Hin];
    unfold valid_date; simpl; lia.
Qed.

(** The first day of month [i]: one past the days that precede it. *)
Lemma toordinal_cursor_succ i :
  12 <= i ->
  toordinal (cursor (i + 1))
  = toordinal (cursor i) + days_in_month (i / 12) (i mod 12 + 1).
Proof.
  intros Hi. unfold cursor, toordinal, ymd2ord. simpl.
  destruct (Z.eq_dec (i mod 12) 11) as [E | E].
  - replace ((i + 1) / 12) with (i / 12 + 1) by (Z.div_mod_to_equations; lia).
    replace ((i + 1) mod 12 + 1) with 1 by (Z.div_mod_to_equations; lia).
    replace (i mod 12 + 1) with 12 by lia.
    rewrite days_before_year_succ by (Z.div_mod_to_equations; lia).
    rewrite days_before_january. pose proof (days_before_december (i / 12)).
    change (days_in_month (i / 12) 12) with 31. lia.
  - replace ((i + 1) / 12) with (i / 12) by (Z.div_mod_to_equations; lia).
    replace ((i + 1) mod 12 + 1) with (i mod 12 + 1 + 1) by (Z.div_mod_to_equations; lia).
    rewrite days_before_month_succ by (Z.div_mod_to_equations; lia). lia.
Qed.

Lemma months_tile (n : nat) : forall i,
  12 <= i ->
  tiles (toordinal (cursor i)) (parts_of (months_from i (Z.of_nat n)))
  /\ next_free (toordinal (cursor i)) (parts_of (months_from i (Z.of_nat n)))
     = toordinal (cursor (i + Z.of_nat n)).
Proof.
  induction n as [| n IH]; intros i Hi.
  - unfold months_from. rewrite seqZ_nil by lia.
    change (Z.of_nat 0) with 0. rewrite Z.add_0_r. split; [exact I | reflexivity].
  - unfold months_from. rewrite (seqZ_cons i) by lia.
    replace (Z.pred (Z.of_nat (S n))) with (Z.of_nat n) by lia.
    replace (Z.succ i) with (i + 1) by lia.
    rewrite fmap_cons, parts_of_cons. fold (months_from (i + 1) (Z.of_nat n)).
    destruct (month_parts_tiles (i / 12) (i mod 12 + 1)) as [Ht Hn];
      [Z.div_mod_to_equations; lia | Z.div_mod_to_equations; lia |].
    fold (cursor i) in Ht, Hn.
    destruct (IH (i + 1) ltac:(lia)) as [Ht' Hn'].
    rewrite toordinal_cursor_succ in Ht', Hn' by assumption.
    change (month_of_index i).1 with (i / 12).
    change (month_of_index i).2 with (i mod 12 + 1).
    split.
    + apply tiles_app; [assumption |]. rewrite Hn. assumption.
    + rewrite next_free_app, Hn, Hn'. do 2 f_equal. lia.
Qed.

Lemma parts_of_valid months iv :
  Forall (fun ym => 1 <= ym.1 /\ 1 <= ym.2 <= 12) months ->
  iv ∈ parts_of months -> valid_date iv.1 /\ valid_date iv.2.
Proof.
  induction 1 as [| ym months [Hy Hm] _ IH]; intros Hin.
  - inversion Hin.
  - rewrite parts_of_cons in Hin. apply elem_of_app in Hin as [Hin | Hin].
    + eapply month_parts_valid; eassumption.
    + apply IH; assumption.
Qed.

Lemma months_from_valid i n :
  12 <= i -> Forall (fun ym => 1 <= ym.1 /\ 1 <= ym.2 <= 12) (months_from i n).
Proof.
  intros Hi. unfold months_from. apply Forall_fmap, Forall_seqZ.
  intros j Hj. unfold month_of_index. simpl. Z.div_mod_to_equations; lia.
Qed.



Lemma partition_tiles start_year end_year :
  1 <= start_year -> start_year <= end_year ->
  tiles (toordinal (mkdatetime start_year 1 1)) (partition start_year end_year)
  /\ next_free (toordinal (mkdatetime start_year 1 1)) (partition start_year end_year)
     = toordinal (mkdatetime end_year 1 31) + 1.
Proof.
  intros Hs Hse. rewrite partition_months.
  destruct (months_tile (Z.to_nat (12 * (end_year - start_year) + 1)) (12 * start_year)
              ltac:(lia)) as [Ht Hn].
  rewrite Z2Nat.id in Ht, Hn by lia.
  replace (cursor (12 * start_year)) with (mkdatetime start_year 1 1) in Ht, Hn
    by (unfold cursor; f_equal; Z.div_mod_to_equations; lia).
  split; [assumption |]. rewrite Hn.
  replace (cursor (12 * start_year + (12 * (end_year - start_year) + 1)))
    with (mkdatetime end_year 2 1)
    by (unfold cursor; f_equal; Z.div_mod_to_equations; lia).
  unfold toordinal, ymd2ord. simpl.
  change 2 with (1 + 1) at 1. rewrite days_before_month_succ by lia.
  change (days_in_month end_year 1) with 31. lia.
Qed.

Lemma partition_valid start_year end_year iv :
  1 <= start_year -> iv ∈ partition start_year end_year ->
  valid_date iv.1 /\ valid_date iv.2.
Proof.
  intros Hs. rewrite partition_months. apply parts_of_valid, months_from_valid. lia.
Qed.


Lemma partition_head start_year end_year :
  start_year <= end_year ->
  exists rest,
    partition start_year end_year
    = (mkdatetime start_year 1 1, mkdatetime start_year 1 10) :: rest.
Proof.
  intros Hse. rewrite partition_months. unfold months_from.
  rewrite seqZ_cons by lia. rewrite fmap_cons, parts_of_cons.
  unfold month_of_index. simpl.
  replace (12 * start_year / 12) with start_year by (Z.div_mod_to_equations; lia).
  replace ((12 * start_year) mod 12 + 1) with 1 by (Z.div_mod_to_equations; lia).
  eexists. reflexivity.
Qed.


(** C1: for calendar years [start_year <= end_year], [generate_date_ranges]
    returns, rendered as strings, the three parts
    [[1, p]], [[p + 1, 2 p]], [[2 p + 1, days_in_month]] with
    [p = days_in_month // 3] of every month from January of [start_year] to
    January of [end_year]; these intervals are non-empty, each ends before any
    later one starts, and their days are exactly the days from January 1st of
    [start_year] to January 31st of [end_year], each once and in order. A
    month of 31 days is cut into [[1, 10]], [[11, 20]], [[21, 31]]. *)
Theorem generate_date_ranges_tiles_months fuel start_year end_year :
  MINYEAR <= start_year -> start_year <= end_year -> end_year <= MAXYEAR ->
  (months_fuel start_year end_year <= fuel)%nat ->
  let ivs := flat_map (fun ym => month_parts ym.1 ym.2)
               (covered_months start_year end_year) in
  generate_date_ranges fuel start_year end_year = Return (render <$> ivs)
  /\ (forall iv, iv ∈ ivs ->
        valid_date iv.1 /\ valid_date iv.2 /\ toordinal iv.1 <= toordinal iv.2)
  /\ (forall (i j : nat) a b, (i < j)%nat -> ivs !! i = Some a -> ivs !! j = Some b ->
        toordinal a.2 < toordinal b.1)
  /\ concat (interval_days <$> ivs)
     = seqZ (toordinal (mkdatetime start_year 1 1))
         (toordinal (mkdatetime end_year 1 31) - toordinal (mkdatetime start_year 1 1) + 1)
  /\ (forall y m, days_in_month y m = 31 ->
        month_parts y m
        = [ (mkdatetime y m 1, mkdatetime y m 10);
            (mkdatetime y m 11, mkdatetime y m 20);
            (mkdatetime y m 21, mkdatetime y m 31) ]).
Proof.
  intros Hs Hse He Hfuel. cbv zeta. fold (partition start_year end_year).
  unfold MINYEAR in Hs.
  destruct (partition_tiles start_year end_year Hs Hse) as [Ht Hn].
  split; [apply generate_date_ranges_correct; assumption |].
  split; [| split; [| split]].
  - intros iv Hin. destruct (partition_valid _ _ _ Hs Hin) as [Hv1 Hv2].
    pose proof (tiles_bounds _ _ _ Ht Hin). tauto.
  - intros i j a b. apply tiles_ordered with (1 := Ht).
  - rewrite (tiles_days _ _ Ht), Hn. f_equal. lia.
  - intros y m E. unfold month_parts. rewrite E. reflexivity.
Qed.

Lemma generate_date_ranges_tiles_months_witness :
  generate_date_ranges 13 2020 2021
  = Return (render <$> flat_map (fun ym => month_parts ym.1 ym.2) (covered_months 2020 2021))
  /\ length (covered_months 2020 2021) = 13%nat.
Proof.
  split; [| reflexivity].
  apply (generate_date_ranges_tiles_months 13 2020 2021);
    [vm_compute; discriminate | lia | vm_compute; discriminate | vm_compute; lia].
Defined.



(** C10: for calendar years with [start_year > end_year] the result is the
    empty list, whatever the fuel. *)
Theorem generate_date_ranges_reversed_years fuel start_year end_year :
  MINYEAR <= end_year -> end_year < start_year -> start_year <= MAXYEAR ->
  generate_date_ranges fuel start_year end_year = Return [].
Proof. apply generate_date_ranges_empty. Qed.

Lemma generate_date_ranges_reversed_years_witness :
  generate_date_ranges 0 2022 2021 = Return [].
Proof.
  apply (generate_date_ranges_reversed_years 0 2022 2021);
    [vm_compute; discriminate | lia | vm_compute; discriminate].
Defined.

(** ** How a computation may change the world *)

Lemma grows_refl f w : grows f w w.
Proof.
  repeat split; try (exists []; rewrite app_nil_r; reflexivity); auto.
Qed.

Lemma grows_trans f w1 w2 w3 : grows f w1 w2 -> grows f w2 w3 -> grows f w1 w3.
Proof.
  intros ([s1 Hs1] & [o1 Ho1] & Hf1 & He1) ([s2 Hs2] & [o2 Ho2] & Hf2 & He2).
  repeat split.
  - exists (s1 ++ s2). rewrite Hs2, Hs1, app_assoc. reflexivity.
  - exists (o1 ++ o2). rewrite Ho2, Ho1, app_assoc. reflexivity.
  - intros p Hp. rewrite Hf2, Hf1 by assumption. reflexivity.
  - intros p Hp. apply He2, He1, Hp.
Qed.

Lemma growing_ret {A} f (a : A) : growing f (ret a).
Proof. intros w. apply grows_refl. Qed.

Lemma growing_raise {A} f e : growing f (@raise A e).
Proof. intros w. apply grows_refl. Qed.

Lemma growing_out_of_fuel {A} f : growing f (@out_of_fuel A).
Proof. intros w. apply grows_refl. Qed.

Lemma growing_lift {A} f (o : outcome A) : growing f (lift o).
Proof. intros w. apply grows_refl. Qed.

Lemma growing_bind {A B} f (m : M A) (k : A -> M B) :
  growing f m -> (forall a, growing f (k a)) -> growing f (bind m k).
Proof.
  intros Hm Hk w. unfold bind. specialize (Hm w).
  destruct (m w) as [[a | e |] w']; simpl in *; try assumption.
  eapply grows_trans; [exact Hm | apply Hk].
Qed.

Lemma growing_print f line : growing f (print line).
Proof.
  intros w. repeat split; simpl; auto.
  - exists []. rewrite app_nil_r. reflexivity.
  - exists [line]. reflexivity.
Qed.

Lemma growing_requests_send f srv rq : growing f (requests_send srv rq).
Proof.
  intros w. unfold requests_send.
  destruct (String.eqb (url rq) ""); [apply grows_refl |].
  assert (H : grows f w (mkworld (fs w) (sent w ++ [rq]) (stdout w))).
  { repeat split; simpl; auto.
    - exists [rq]. reflexivity.
    - exists []. rewrite app_nil_r. reflexivity. }
  destruct (srv (length (sent w)) rq) as [t | r]; [exact H |].
  destruct (stream rq), (broken r); exact H.
Qed.

Lemma growing_open_wb f : growing f (open_wb f).
Proof.
  intros w. repeat split; simpl.
  - exists []. rewrite app_nil_r. reflexivity.
  - exists []. rewrite app_nil_r. reflexivity.
  - intros p Hp. apply lookup_insert_ne. congruence.
  - intros p Hp. destruct (decide (f = p)) as [-> | Hne].
    + rewrite lookup_insert_eq. eauto.
    + rewrite lookup_insert_ne by assumption. assumption.
Qed.

Lemma growing_write f data : growing f (write f data).
Proof.
  intros w. repeat split; simpl.
  - exists []. rewrite app_nil_r. reflexivity.
  - exists []. rewrite app_nil_r. reflexivity.
  - intros p Hp. apply lookup_insert_ne. congruence.
  - intros p Hp. destruct (decide (f = p)) as [-> | Hne].
    + rewrite lookup_insert_eq. eauto.
    + rewrite lookup_insert_ne by assumption. assumption.
Qed.

Lemma growing_write_chunks f data : growing f (write_chunks f data).
Proof.
  induction data as [| chunk rest IH]; simpl.
  - apply growing_ret.
  - apply growing_bind; [apply growing_write | intros _; exact IH].
Qed.

Lemma growing_raise_for_status f u r : growing f (raise_for_status u r).
Proof.
  unfold raise_for_status. destruct (_ && _); [apply growing_raise | apply growing_ret].
Qed.

Create HintDb growing.
#[local] Hint Resolve growing_ret growing_raise growing_out_of_fuel growing_lift
  growing_print growing_requests_send growing_open_wb growing_write
  growing_write_chunks growing_raise_for_status : growing.

Ltac growing_step :=
  repeat first
    [ apply growing_bind; [| intros ? ]
    | progress eauto with growing
    | match goal with
      | |- growing _ (if ?c then _ else _) => destruct c
      | |- growing _ (match ?x with _ => _ end) => destruct x
      end ].

Lemma growing_poll f srv auth : forall fuel u r old_status,
  growing f (poll fuel srv auth u r old_status).
Proof.
  induction fuel as [| fuel IH]; intros u r old_status; simpl.
  - destruct (location r) as [next |]; [| apply growing_ret].
    destruct (String.eqb next ""); [apply growing_ret | apply growing_out_of_fuel].
  - destruct (location r) as [next |]; [| apply growing_ret].
    destruct (String.eqb next ""); [apply growing_ret |].
    unfold requests_get. growing_step.
Qed.

Lemma growing_save_response u r f : growing f (save_response u r f).
Proof. unfold save_response, iter_content_to. growing_step. Qed.

Lemma growing_download_product fuel srv auth product f :
  growing f (download_product fuel srv auth product f).
Proof.
  unfold download_product, requests_get.
  do 4 (apply growing_bind; [apply growing_lift | intros ?]).
  apply growing_bind; [apply growing_requests_send | intros r].
  apply growing_bind.
  { destruct (_ =? _); [apply growing_ret |]. destruct (negb _); eauto with growing. }
  intros _. apply growing_bind; [apply growing_print | intros _].
  apply growing_bind; [apply growing_raise_for_status | intros _].
  apply growing_bind.
  { destruct (String.eqb _ _); [apply growing_poll | apply growing_ret]. }
  intros polled. apply growing_save_response.
Qed.

Lemma growing_select_product fuel srv auth r start_date output_file :
  growing output_file (select_product fuel srv auth r start_date output_file).
Proof.
  unfold select_product.
  destruct (negb _); [growing_step |].
  destruct (String.eqb _ _); [growing_step |].
  destruct (json_doc r) as [doc |]; [| growing_step].
  apply growing_bind; [apply growing_lift | intros has].
  apply growing_bind; [destruct (negb has); growing_step | intros no_match].
  destruct no_match; [apply growing_print |].
  apply growing_bind; [apply growing_lift | intros features].
  apply growing_bind; [apply growing_lift | intros product].
  apply growing_download_product.
Qed.

(** [retrieve_data] only adds requests and output, touches no file but its
    [output_file], and removes none. *)
Lemma growing_retrieve_data fuel env start_date end_date output_file :
  growing output_file (retrieve_data fuel env start_date end_date output_file).
Proof.
  unfold retrieve_data, requests_post.
  apply growing_bind; [destruct (get_token env); apply growing_print | intros _].
  apply growing_bind; [apply growing_print | intros _].
  apply growing_bind; [apply growing_requests_send | intros r].
  apply growing_select_product.
Qed.

(** ** The search step *)

(** [retrieve_data] sends the search request whatever the token, then goes
    on with the answer. *)
Lemma retrieve_data_search fuel env start_date end_date output_file w :
  retrieve_data fuel env start_date end_date output_file w
  = match remote env (length (sent w)) (search_request (get_token env) start_date end_date) with
    | inl t => (Raise (RequestException t), searched env start_date end_date w)
    | inr r =>
      match broken r with
      | Some t => (Raise (RequestException t), searched env start_date end_date w)
      | None =>
        select_product fuel (remote env) (auth_headers (get_token env)) r
          start_date output_file (searched env start_date end_date w)
      end
    end.
Proof.
  unfold retrieve_data, requests_post, requests_send, bind, print, searched, search_request.
  destruct (get_token env) as [token |]; cbn [url stream fs sent stdout];
    change (String.eqb search_url "") with false; cbv iota;
    rewrite <- !app_assoc; cbn [app];
    (destruct (remote env _ _) as [t | r]; [reflexivity |]);
    destruct (broken r); reflexivity.
Qed.

(** C5: with no token ([get_token] answers [None]) [retrieve_data] does not
    stop: it reports the failure on standard output and then sends the search
    request, authorised as [Bearer None]. *)
Theorem retrieve_data_without_token fuel srv start_date end_date output_file w :
  exists more lines,
    sent (retrieve_data fuel (mkenvironment None srv) start_date end_date output_file w).2
    = sent w
      ++ mkrequest POST search_url "Bearer None"
           (Some (search_payload start_date end_date)) false :: more
    /\ stdout (retrieve_data fuel (mkenvironment None srv) start_date end_date output_file w).2
       = stdout w ++ [Str "Failed to Obtain DEDL/DESP Access Token"] :: lines.
Proof.
  rewrite retrieve_data_search. cbn [get_token remote].
  set (w1 := searched _ _ _ w).
  assert (H1 : sent w1 = sent w ++ [search_request None start_date end_date])
    by reflexivity.
  assert (H2 : exists l, stdout w1
                         = stdout w ++ [Str "Failed to Obtain DEDL/DESP Access Token"] :: l)
    by (eexists; reflexivity).
  destruct H2 as [l H2].
  assert (Hend : forall w', grows output_file w1 w' ->
    exists more lines,
      sent w' = sent w ++ mkrequest POST search_url "Bearer None"
                            (Some (search_payload start_date end_date)) false :: more
      /\ stdout w' = stdout w ++ [Str "Failed to Obtain DEDL/DESP Access Token"] :: lines).
  { intros w' ([s Hs] & [o Ho] & _). exists s, (l ++ o). split.
    - rewrite Hs, H1, <- app_assoc. reflexivity.
    - rewrite Ho, H2, <- app_assoc. reflexivity. }
  destruct (srv _ _) as [t | r]; [apply Hend, grows_refl |].
  destruct (broken r); [apply Hend, grows_refl |].
  apply Hend, growing_select_product.
Qed.

(** The first request of [download_product] goes to the product's link. *)
Lemma download_product_first_request fuel srv auth product output_file u w :
  links_to product u -> u <> "" ->
  exists more,
    sent (download_product fuel srv auth product output_file w).2
    = sent w ++ mkrequest GET u auth None false :: more.
Proof.
  intros (assets & link & Ha & Hl & Hh) Hu.
  unfold download_product. unfold bind at 1, lift at 1. rewrite Ha.
  unfold bind at 1, lift at 1. rewrite Hl.
  unfold bind at 1, lift at 1. rewrite Hh.
  unfold bind at 1, lift at 1. cbn [as_url].
  unfold bind at 1. unfold requests_get at 1, requests_send. cbn [url stream].
  replace (String.eqb u "") with false by (symmetry; apply String.eqb_neq; exact Hu).
  set (w1 := mkworld (fs w) (sent w ++ [mkrequest GET u auth None false]) (stdout w)).
  assert (Hend : forall w', grows output_file w1 w' ->
            exists more, sent w' = sent w ++ mkrequest GET u auth None false :: more).
  { intros w' ([s Hs] & _). exists s. rewrite Hs. subst w1. simpl.
    rewrite <- app_assoc. reflexivity. }
  destruct (srv _ _) as [t | r]; [apply Hend, grows_refl |].
  destruct (broken r) as [t |]; [apply Hend, grows_refl |].
  apply Hend.
  match goal with
  | |- grows _ _ (?m w1).2 =>
    assert (Hg : growing output_file m); [| apply Hg]
  end.
  apply growing_bind.
  { destruct (_ =? _); [apply growing_ret |]. destruct (negb _); eauto with growing. }
  intros _. apply growing_bind; [apply growing_print | intros _].
  apply growing_bind; [apply growing_raise_for_status | intros _].
  apply growing_bind.
  { destruct (String.eqb _ _); [apply growing_poll | apply growing_ret]. }
  intros polled. apply growing_save_response.
Qed.

(** The request that follows, if one is sent, is the [GET] of the link. *)
Lemma download_product_next_request fuel srv auth product output_file u w :
  links_to product u ->
  exists more,
    sent (download_product fuel srv auth product output_file w).2 = sent w ++ more
    /\ (more = [] \/ exists rest, more = mkrequest GET u auth None false :: rest).
Proof.
  intros Hl. destruct (String.eqb_spec u "") as [-> | Hu].
  - destruct Hl as (assets & link & Ha & Hl & Hh). exists [].
    split; [| left; reflexivity].
    unfold download_product, bind, lift. rewrite Ha, Hl, Hh. cbn [as_url].
    rewrite app_nil_r. reflexivity.
  - destruct (download_product_first_request fuel srv auth product output_file u w Hl Hu)
      as [rest Hrest].
    eexists. split; [exact Hrest | right; eexists; reflexivity].
Qed.

(** C6, as the code has it: a search that is answered with a status other
    than 200, with an empty body, with a body that is not JSON, or with a
    result in which [features] is absent or has length 0 does not fail:
    [retrieve_data] prints what happened and returns, having sent the search
    request only and changed no file. A result that line 80 cannot examine
    (null, a number, a boolean, or an object whose [features] has no length)
    raises [TypeError] there, outside the [try]. When the result lists
    features, the first of them is the product, and the request that follows
    the search, if one is sent, is the [GET] of its download link. *)
Theorem retrieve_data_search_outcomes fuel env start_date end_date output_file w r :
  remote env (length (sent w)) (search_request (get_token env) start_date end_date) = inr r ->
  broken r = None ->
  let w1 := searched env start_date end_date w in
  let run := retrieve_data fuel env start_date end_date output_file w in
  (status_code r <> 200 ->
     run = (Return tt, with_lines w1 [[Str "Error: "; Num (status_code r)]; [Str (text r)]]))
  /\ (status_code r = 200 -> text r = "" ->
        run = (Return tt, with_lines w1 [[Str "Empty response received."]]))
  /\ (status_code r = 200 -> text r <> "" -> json_doc r = None ->
        run = (Return tt,
               with_lines w1 [[Str "Failed to decode JSON: "];
                              [Str "Response text: "; Str (text r)]]))
  /\ (forall doc,
        status_code r = 200 -> text r <> "" -> json_doc r = Some doc ->
        lacks_features doc ->
        run = (Return tt,
               with_lines w1 [[Str "No matching products found for "; Str start_date;
                               Str "."]]))
  /\ (forall doc,
        status_code r = 200 -> text r <> "" -> json_doc r = Some doc ->
        unsized_features doc ->
        run = (Raise TypeError, w1))
  /\ (forall fields product others,
        status_code r = 200 -> text r <> "" -> json_doc r = Some (JObj fields) ->
        assoc "features" fields = Some (JArr (product :: others)) ->
        run = download_product fuel (remote env) (auth_headers (get_token env))
                product output_file w1
        /\ forall u, links_to product u ->
             exists more,
               sent run.2 = sent w1 ++ more
               /\ (more = []
                   \/ exists rest,
                        more
                        = mkrequest GET u (auth_headers (get_token env)) None false
                          :: rest)).
Proof.
  intros Hr Hb w1 run. subst run. rewrite retrieve_data_search, Hr, Hb. fold w1.
  unfold select_product.
  split; [| split; [| split; [| split; [| split]]]].
  - intros Hs. replace (status_code r =? 200) with false
      by (symmetry; apply Z.eqb_neq; exact Hs).
    unfold with_lines, bind, print. simpl. rewrite <- app_assoc. reflexivity.
  - intros Hs Ht. rewrite Hs, Ht. reflexivity.
  - intros Hs Ht Hj. rewrite Hs, Hj.
    replace (String.eqb (text r) "") with false
      by (symmetry; apply String.eqb_neq; exact Ht).
    unfold with_lines, bind, print. simpl. rewrite <- app_assoc. reflexivity.
  - intros doc Hs Ht Hj Hl. rewrite Hs, Hj.
    replace (String.eqb (text r) "") with false
      by (symmetry; apply String.eqb_neq; exact Ht).
    cbn [Z.eqb Pos.eqb negb]. unfold bind, lift, json_contains, json_getitem.
    destruct doc as [| b | n | l | s | items | fields]; cbn [lacks_features] in Hl;
      try contradiction.
    + rewrite Hl. reflexivity.
    + rewrite Hl. reflexivity.
    + destruct Hl as [Hl | (features & Hl & Hlen)]; rewrite Hl.
      * rewrite bool_decide_eq_false_2 by (intros [x Hx]; discriminate). reflexivity.
      * rewrite bool_decide_eq_true_2 by eauto. cbn [negb]. rewrite Hlen. reflexivity.
  - intros doc Hs Ht Hj Hu. rewrite Hs, Hj.
    replace (String.eqb (text r) "") with false
      by (symmetry; apply String.eqb_neq; exact Ht).
    cbn [Z.eqb Pos.eqb negb]. unfold bind, lift, json_contains, json_getitem.
    destruct doc as [| b | n | l | s | items | fields]; cbn [unsized_features] in Hu;
      try reflexivity.
    + rewrite Hu. reflexivity.
    + rewrite Hu. reflexivity.
    + destruct Hu as (features & Hu & Hlen). rewrite Hu.
      rewrite bool_decide_eq_true_2 by eauto. cbn [negb]. rewrite Hlen. reflexivity.
  - intros fields product others Hs Ht Hj Hf. rewrite Hs, Hj.
    replace (String.eqb (text r) "") with false
      by (symmetry; apply String.eqb_neq; exact Ht).
    cbn [Z.eqb Pos.eqb negb]. unfold bind at 1, lift at 1, json_contains. rewrite Hf.
    rewrite bool_decide_eq_true_2 by eauto.
    split.
    + unfold bind, lift, json_getitem, json_len, json_first, ret. rewrite Hf. reflexivity.
    + intros u Hl.
      unfold bind, lift, json_getitem, json_len, json_first, ret. rewrite Hf. simpl.
      apply download_product_next_request. exact Hl.
Qed.

(** C6, counterexample: a search with no result, and a search answered with
    status 500, both end [retrieve_data] normally; no error is raised. *)
Lemma search_failures_return :
  (retrieve_data 0 (mkenvironment user empty_catalog)
     "2021-01-01" "2021-01-10" "data/partial/2021-01-01.nc" world0).1 = Return tt
  /\ (retrieve_data 0 (mkenvironment user broken_catalog)
        "2021-01-01" "2021-01-10" "data/partial/2021-01-01.nc" world0).1 = Return tt.
Proof. split; vm_compute; reflexivity. Qed.

(** The catalogue with no feature. *)
Lemma retrieve_data_search_outcomes_witness :
  retrieve_data 0 (mkenvironment user empty_catalog)
    "2021-01-01" "2021-01-10" "data/partial/2021-01-01.nc" world0
  = (Return tt,
     with_lines
       (searched (mkenvironment user empty_catalog) "2021-01-01" "2021-01-10" world0)
       [[Str "No matching products found for "; Str "2021-01-01"; Str "."]]).
Proof.
  refine (proj1 (proj2 (proj2 (proj2
    (retrieve_data_search_outcomes 0 (mkenvironment user empty_catalog)
       "2021-01-01" "2021-01-10" "data/partial/2021-01-01.nc" world0 _
       eq_refl eq_refl)))) (JObj [("features", JArr [])]) eq_refl _ eq_refl _).
  - vm_compute. discriminate.
  - right. exists (JArr []). split; reflexivity.
Defined.

(** A search answered with the document [null] raises [TypeError]. *)
Lemma null_search_result_raises :
  retrieve_data 0 (mkenvironment user null_catalog)
    "2021-01-01" "2021-01-10" "data/partial/2021-01-01.nc" world0
  = (Raise TypeError,
     searched (mkenvironment user null_catalog) "2021-01-01" "2021-01-10" world0).
Proof. vm_compute. reflexivity. Qed.

(** ** Saving the response *)

Lemma fs_const_bind {A B} (m : M A) (k : A -> M B) :
  fs_const m -> (forall a, fs_const (k a)) -> fs_const (bind m k).
Proof.
  intros Hm Hk w. unfold bind. specialize (Hm w).
  destruct (m w) as [[a | e |] w']; simpl in *; try assumption.
  rewrite Hk. assumption.
Qed.

Lemma fs_const_print line : fs_const (print line).
Proof. intros w. reflexivity. Qed.

Lemma fs_const_ret {A} (a : A) : fs_const (ret a).
Proof. intros w. reflexivity. Qed.

Lemma fs_const_lift {A} (o : outcome A) : fs_const (lift o).
Proof. intros w. reflexivity. Qed.

Lemma fs_const_raise_for_status u r : fs_const (raise_for_status u r).
Proof. intros w. unfold raise_for_status. destruct (_ && _); reflexivity. Qed.

Lemma fs_const_requests_send srv rq : fs_const (requests_send srv rq).
Proof.
  intros w. unfold requests_send. destruct (String.eqb _ _); [reflexivity |].
  destruct (srv _ _) as [t | r]; [reflexivity |].
  destruct (stream rq), (broken r); reflexivity.
Qed.

Lemma fs_const_poll srv auth : forall fuel u r old_status,
  fs_const (poll fuel srv auth u r old_status).
Proof.
  induction fuel as [| fuel IH]; intros u r old_status; simpl;
    (destruct (location r) as [next |]; [| apply fs_const_ret]);
    (destruct (String.eqb next ""); [apply fs_const_ret |]).
  - intros w. reflexivity.
  - apply fs_const_bind; [apply fs_const_lift | intros doc].
    apply fs_const_bind; [apply fs_const_lift | intros status].
    apply fs_const_bind.
    { destruct (negb _); [| apply fs_const_ret].
      apply fs_const_bind; [apply fs_const_print | intros _; apply fs_const_ret]. }
    intros old. apply fs_const_bind; [apply fs_const_requests_send | intros r'].
    apply IH.
Qed.

Lemma http_safe_bind {A B} (m : M A) (k : A -> M B) :
  fs_const m -> (forall a, http_safe (k a)) -> http_safe (bind m k).
Proof.
  intros Hm Hk w status u. unfold bind. specialize (Hm w).
  destruct (m w) as [[a | e |] w']; simpl in *; intros H; try assumption.
  rewrite (Hk a w' status u H). assumption.
Qed.

Lemma http_safe_const {A} (m : M A) : fs_const m -> http_safe m.
Proof. intros Hm w status u _. apply Hm. Qed.

Lemma write_chunks_returns f data w : (write_chunks f data w).1 = Return tt.
Proof.
  revert w. induction data as [| chunk rest IH]; intros w; simpl; [reflexivity |].
  unfold bind, write. simpl. apply IH.
Qed.

Lemma string_app_assoc (a b c : string) : (a +:+ b) +:+ c = a +:+ (b +:+ c).
Proof.
  induction a as [| x a IH]; [reflexivity |].
  change (String x ((a +:+ b) +:+ c) = String x (a +:+ (b +:+ c))). f_equal. exact IH.
Qed.

Lemma string_app_empty_r (a : string) : a +:+ "" = a.
Proof.
  induction a as [| x a IH]; [reflexivity |].
  change (String x (a +:+ "") = String x a). f_equal. exact IH.
Qed.

Lemma string_concat_cons chunk rest :
  String.concat "" (chunk :: rest) = chunk +:+ String.concat "" rest.
Proof. destruct rest; [symmetry; apply string_app_empty_r | reflexivity]. Qed.

Lemma write_chunks_content f data : forall w written,
  fs w !! f = Some written ->
  fs (write_chunks f data w).2 !! f = Some (written +:+ String.concat "" data).
Proof.
  induction data as [| chunk rest IH]; intros w written Hw.
  - simpl. rewrite string_app_empty_r. assumption.
  - rewrite string_concat_cons, <- string_app_assoc.
    cbn [write_chunks]. unfold bind, write. cbn [fst snd fs sent stdout].
    apply IH. cbn [fs]. rewrite Hw. apply lookup_insert_eq.
Qed.

(** Writing the body to the file just opened: the file holds what arrived,
    and the step fails only if the transfer broke. *)
Lemma iter_content_to_spec f r w :
  fs w !! f = Some "" ->
  (iter_content_to f r w).1
  = match broken r with
    | Some t => Raise (RequestException t)
    | None => Return tt
    end
  /\ fs (iter_content_to f r w).2 !! f = Some (text r).
Proof.
  intros Hw. unfold iter_content_to, bind, raise, ret.
  pose proof (write_chunks_returns f (chunks r) w) as Hret.
  pose proof (write_chunks_content f (chunks r) w "" Hw) as Hfs.
  destruct (write_chunks f (chunks r) w) as [o w2]. simpl in Hret, Hfs. subst o.
  destruct (broken r); split; first [reflexivity | exact Hfs].
Qed.

Lemma save_response_error u r f w :
  400 <= status_code r < 600 ->
  (save_response u r f w).1
  = match broken r with
    | Some t => Raise (RequestException t)
    | None => Raise (HTTPError (status_code r) u)
    end
  /\ fs (save_response u r f w).2 = fs w.
Proof.
  intros Hs. unfold save_response, raise_for_status, response_text.
  replace ((400 <=? status_code r) && (status_code r <? 600)) with true
    by (symmetry; apply andb_true_iff; split; [apply Z.leb_le | apply Z.ltb_lt]; lia).
  replace (negb ((status_code r =? HTTP_SUCCESS_CODE) || (status_code r =? HTTP_ACCEPTED_CODE)))
    with true
    by (symmetry; apply negb_true_iff, orb_false_iff; unfold HTTP_SUCCESS_CODE, HTTP_ACCEPTED_CODE;
        split; apply Z.eqb_neq; lia).
  destruct (broken r); split; reflexivity.
Qed.

Lemma save_response_written u r f w :
  status_code r = 200 \/ status_code r = 202 -> content_length r <> HMalformed ->
  (save_response u r f w).1
  = match broken r with
    | Some t => Raise (RequestException t)
    | None => Return tt
    end
  /\ fs (save_response u r f w).2 !! f = Some (text r).
Proof.
  intros Hs Hc.
  assert (Hsize : exists n, total_size_of r = Return n).
  { unfold total_size_of. destruct (content_length r); eauto. congruence. }
  destruct Hsize as [n Hn].
  assert (E : exists w3,
    fs w3 !! f = Some ""
    /\ save_response u r f w
       = bind (iter_content_to f r) (fun _ => print [Str "Download completed."]) w3).
  { unfold save_response, raise_for_status. rewrite Hn.
    destruct Hs as [-> | ->]; eexists; (split; [| reflexivity]); apply lookup_insert_eq. }
  destruct E as (w3 & Hw3 & ->).
  destruct (iter_content_to_spec f r w3 Hw3) as [Ho Hf].
  unfold bind.
  destruct (iter_content_to f r w3) as [o w4]. simpl in Ho, Hf. subst o.
  destruct (broken r); split; first [reflexivity | exact Hf].
Qed.

Lemma http_safe_save_response u r f : http_safe (save_response u r f).
Proof.
  unfold save_response.
  apply http_safe_bind.
  { destruct (negb _); [| apply fs_const_ret].
    apply fs_const_bind; [apply fs_const_lift | intros body; apply fs_const_print]. }
  intros _. apply http_safe_bind; [apply fs_const_raise_for_status | intros _].
  apply http_safe_bind; [apply fs_const_lift | intros n].
  apply http_safe_bind; [apply fs_const_print | intros _].
  intros w status u' H. exfalso. revert H.
  unfold bind at 1, open_wb at 1.
  set (w3 := mkworld _ _ _).
  destruct (iter_content_to_spec f r w3 (lookup_insert_eq _ _ _)) as [Ho _].
  unfold bind. destruct (iter_content_to f r w3) as [o w4]. simpl in Ho. subst o.
  destruct (broken r); simpl; discriminate.
Qed.

Lemma http_safe_download_product fuel srv auth product f :
  http_safe (download_product fuel srv auth product f).
Proof.
  unfold download_product, requests_get.
  do 4 (apply http_safe_bind; [apply fs_const_lift | intros ?]).
  apply http_safe_bind; [apply fs_const_requests_send | intros r].
  apply http_safe_bind.
  { destruct (_ =? _); [apply fs_const_ret |].
    destruct (negb _); [apply fs_const_print | apply fs_const_ret]. }
  intros _. apply http_safe_bind; [apply fs_const_print | intros _].
  apply http_safe_bind; [apply fs_const_raise_for_status | intros _].
  apply http_safe_bind.
  { destruct (String.eqb _ _); [apply fs_const_poll | apply fs_const_ret]. }
  intros polled. apply http_safe_save_response.
Qed.

Lemma http_safe_select_product fuel srv auth r start_date f :
  http_safe (select_product fuel srv auth r start_date f).
Proof.
  unfold select_product.
  destruct (negb _).
  { apply http_safe_const, fs_const_bind; [apply fs_const_print | intros _].
    apply fs_const_print. }
  destruct (String.eqb _ _); [apply http_safe_const, fs_const_print |].
  destruct (json_doc r) as [doc |].
  2: { apply http_safe_const, fs_const_bind; [apply fs_const_print | intros _].
       apply fs_const_print. }
  apply http_safe_bind; [apply fs_const_lift | intros has].
  apply http_safe_bind.
  { destruct (negb has); [apply fs_const_ret |].
    apply fs_const_bind; [apply fs_const_lift | intros features].
    apply fs_const_bind; [apply fs_const_lift | intros n]. apply fs_const_ret. }
  intros no_match. destruct no_match; [apply http_safe_const, fs_const_print |].
  apply http_safe_bind; [apply fs_const_lift | intros features].
  apply http_safe_bind; [apply fs_const_lift | intros product].
  apply http_safe_download_product.
Qed.

Lemma http_safe_retrieve_data fuel env start_date end_date f :
  http_safe (retrieve_data fuel env start_date end_date f).
Proof.
  unfold retrieve_data, requests_post.
  apply http_safe_bind; [destruct (get_token env); apply fs_const_print | intros _].
  apply http_safe_bind; [apply fs_const_print | intros _].
  apply http_safe_bind; [apply fs_const_requests_send | intros r].
  apply http_safe_select_product.
Qed.

(** C8, as the code has it: when [raise_for_status] raises [HTTPError] the
    artifact file has not been opened and no file has changed; a response to
    save with a status in 400-599 raises (the [HTTPError], or the error of
    reading its body) and changes no file. The body is written straight to
    the artifact path: [retrieve_data] never changes another path, and once
    the response to save has status 200 or 202 and a [content-length] that
    is absent or an integer, the artifact path holds the chunks that
    arrived, whether the transfer completed or broke. With a
    [content-length] that is not an integer, [int] raises [ValueError]
    before the file is opened, and nothing has changed. *)
Theorem retrieve_data_writes_in_place fuel env start_date end_date output_file w :
  let run := retrieve_data fuel env start_date end_date output_file w in
  (forall status u, run.1 = Raise (HTTPError status u) -> fs run.2 = fs w)
  /\ (forall p, p <> output_file -> fs run.2 !! p = fs w !! p)
  /\ (forall u r w1, 400 <= status_code r < 600 ->
        (save_response u r output_file w1).1
        = match broken r with
          | Some t => Raise (RequestException t)
          | None => Raise (HTTPError (status_code r) u)
          end
        /\ fs (save_response u r output_file w1).2 = fs w1)
  /\ (forall u r w1,
        status_code r = 200 \/ status_code r = 202 -> content_length r <> HMalformed ->
        (save_response u r output_file w1).1
        = match broken r with
          | Some t => Raise (RequestException t)
          | None => Return tt
          end
        /\ fs (save_response u r output_file w1).2 !! output_file = Some (text r))
  /\ (forall u r w1,
        status_code r = 200 \/ status_code r = 202 -> content_length r = HMalformed ->
        save_response u r output_file w1 = (Raise ValueError, w1)).
Proof.
  cbv zeta. split; [| split; [| split; [| split]]].
  - intros status u. apply http_safe_retrieve_data.
  - intros p Hp.
    destruct (growing_retrieve_data fuel env start_date end_date output_file w)
      as (_ & _ & Hframe & _).
    apply Hframe, Hp.
  - intros u r w1. apply save_response_error.
  - intros u r w1. apply save_response_written.
  - intros u r w1 Hs Hc. unfold save_response, raise_for_status, total_size_of.
    rewrite Hc. destruct Hs as [-> | ->]; reflexivity.
Qed.

Lemma retrieve_data_writes_in_place_witness :
  fs (retrieve_data 5 (mkenvironment user failing_orders)
        "2021-01-01" "2021-01-10" "data/partial/2021-01-01.nc" world0).2
  = fs world0.
Proof.
  refine (proj1 (retrieve_data_writes_in_place 5 (mkenvironment user failing_orders)
                   "2021-01-01" "2021-01-10" "data/partial/2021-01-01.nc" world0)
            500 first_order_url _).
  vm_compute. reflexivity.
Defined.

(** C8, counterexample: an error status does not always fail the download,
    and no temporary path protects the artifact. A poll answered with status
    500 that still names a [Location] is not examined: the loop goes on, and
    the call returns normally with what the next answer holds. And when the
    transfer breaks, [retrieve_data] fails and the artifact path holds the
    part of the body that arrived; the resume check then finds the path and
    takes the interval for done. *)
Lemma broken_transfer_leaves_partial_file :
  status_code polled_error = 500
  /\ recovering_archive 2%nat (mkrequest GET status_url (auth_headers user) None true)
     = inr polled_error
  /\ (retrieve_data 5 (mkenvironment user recovering_archive)
        "2021-01-01" "2021-01-10" "data/partial/2021-01-01.nc" world0).1 = Return tt
  /\ url <$> sent (retrieve_data 5 (mkenvironment user recovering_archive)
                     "2021-01-01" "2021-01-10" "data/partial/2021-01-01.nc" world0).2
     = [search_url; order_url; status_url; status_url]
  /\ (retrieve_data 5 (mkenvironment user breaking_archive)
        "2021-01-01" "2021-01-10" "data/partial/2021-01-01.nc" world0).1
     = Raise (RequestException ChunkedEncodingError)
  /\ fs (retrieve_data 5 (mkenvironment user breaking_archive)
           "2021-01-01" "2021-01-10" "data/partial/2021-01-01.nc" world0).2
     !! "data/partial/2021-01-01.nc" = Some "first chunk of the data"
  /\ (path_exists "data/partial/2021-01-01.nc"
        (retrieve_data 5 (mkenvironment user breaking_archive)
           "2021-01-01" "2021-01-10" "data/partial/2021-01-01.nc" world0).2).1
     = Return true.
Proof. repeat split; vm_compute; reflexivity. Qed.

(** ** The polling loop *)


Lemma bind_out_of_fuel {A B} (m : M A) (k : A -> M B) w :
  (m w).1 = OutOfFuel -> (bind m k w).1 = OutOfFuel.
Proof. unfold bind. destruct (m w) as [[a | e |] w']; simpl; congruence. Qed.

Lemma poll_ready fuel srv auth u r old_status w :
  ready r -> poll fuel srv auth u r old_status w = (Return (u, r), w).
Proof. intros [H | H]; destruct fuel; simpl; rewrite H; reflexivity. Qed.












(** That run: the order is requested, polled twice at the status location,
    and the data of the second poll are saved; with fuel for one poll only
    the loop is cut short. *)
Lemma resolving_order_is_polled :
  retrieve_data 4 (mkenvironment user resolving_archive)
    "2021-01-01" "2021-01-10" "data/partial/2021-01-01.nc" world0
  = retrieve_data 2 (mkenvironment user resolving_archive)
      "2021-01-01" "2021-01-10" "data/partial/2021-01-01.nc" world0
  /\ (retrieve_data 2 (mkenvironment user resolving_archive)
        "2021-01-01" "2021-01-10" "data/partial/2021-01-01.nc" world0).1 = Return tt
  /\ url <$> sent (retrieve_data 2 (mkenvironment user resolving_archive)
                     "2021-01-01" "2021-01-10" "data/partial/2021-01-01.nc" world0).2
     = [search_url; order_url; status_url; status_url]
  /\ fs (retrieve_data 2 (mkenvironment user resolving_archive)
           "2021-01-01" "2021-01-10" "data/partial/2021-01-01.nc" world0).2
     !! "data/partial/2021-01-01.nc" = Some "data"
  /\ (retrieve_data 1 (mkenvironment user resolving_archive)
        "2021-01-01" "2021-01-10" "data/partial/2021-01-01.nc" world0).1 = OutOfFuel.
Proof. repeat split; vm_compute; reflexivity. Qed.



(** ** The merger *)

(** Opening the inputs changes nothing; it yields their datasets in list
    order, or raises at the first input that is missing or unreadable. *)
Lemma open_datasets_spec lib files : forall w,
  (open_datasets lib files w).2 = w
  /\ match (open_datasets lib files w).1 with
     | Return datasets => Forall2 (holds lib w) files datasets
     | Raise e =>
       exists file, file ∈ files /\ forall d, ~ holds lib w file d
     | OutOfFuel => False
     end.
Proof.
  induction files as [| file rest IH]; intros w; simpl.
  - split; [reflexivity | constructor].
  - unfold bind at 1 3, open_dataset.
    destruct (fs w !! file) as [bytes |] eqn:Hfile.
    2: { split; [reflexivity |]. exists file. split; [left |].
         intros d (bytes & Hb & _). congruence. }
    destruct (decode lib bytes) as [d |] eqn:Hdec.
    2: { split; [reflexivity |]. exists file. split; [left |].
         intros d (bytes' & Hb & Hd). congruence. }
    destruct (IH w) as [Hw Hres]. unfold bind, ret.
    destruct (open_datasets lib rest w) as [[ds | e |] w']; simpl in *; subst w'.
    + split; [reflexivity |]. constructor; [exists bytes; split; assumption | exact Hres].
    + split; [reflexivity |]. destruct Hres as (file' & Hin & Hno).
      exists file'. split; [right; exact Hin | exact Hno].
    + contradiction.
Qed.

Lemma holds_functional lib w file d1 d2 : holds lib w file d1 -> holds lib w file d2 -> d1 = d2.
Proof. intros (b1 & H1 & E1) (b2 & H2 & E2). congruence. Qed.

Lemma Forall2_holds_functional lib w files ds1 : forall ds2,
  Forall2 (holds lib w) files ds1 -> Forall2 (holds lib w) files ds2 -> ds1 = ds2.
Proof.
  intros ds2 H1. revert ds2. induction H1 as [| file d1 files ds1 Hd1 _ IH]; intros ds2 H2.
  - inversion H2. reflexivity.
  - inversion H2 as [| ? d2 ? ds2' Hd2 Hrest]; subst.
    f_equal; [eapply holds_functional; eassumption | apply IH, Hrest].
Qed.

(** The run of the merger, by what opening the inputs gives. *)
Lemma merge_netcdf_files_xarray_eq lib output_files merged_file w :
  let w1 := mkworld (fs w) (sent w)
              (stdout w ++ [[Str "Merging files into "; Str merged_file]]) in
  merge_netcdf_files_xarray lib output_files merged_file w
  = match (open_datasets lib output_files w1).1 with
    | Return [] => (Raise ValueError, w1)
    | Return datasets =>
      (Return tt,
       mkworld (<[merged_file := encode lib (concat datasets)]> (fs w)) (sent w)
         (stdout w1 ++ [[Str "Merge complete: "; Str merged_file]]))
    | Raise e => (Raise e, w1)
    | OutOfFuel => (OutOfFuel, w1)
    end.
Proof.
  cbv zeta. unfold merge_netcdf_files_xarray, bind, print, lift, to_netcdf.
  set (w1 := mkworld (fs w) (sent w) (stdout w ++ [_])).
  destruct (open_datasets_spec lib output_files w1) as [Hw _].
  destruct (open_datasets lib output_files w1) as [[ds | e |] w2]; simpl in Hw; subst w2;
    try reflexivity.
  destruct ds; reflexivity.
Qed.

(** C4, as the code has it: the merge aborts, writing nothing, when an input
    is missing or is not a dataset; when every input can be opened it
    succeeds and writes their samples in list order, whatever their time
    coordinates. No order of the time coordinates is checked. *)
Theorem merge_concatenates_in_list_order lib output_files merged_file w :
  let run := merge_netcdf_files_xarray lib output_files merged_file w in
  (forall file, file ∈ output_files -> (forall d, ~ holds lib w file d) ->
     (exists e, run.1 = Raise e) /\ fs run.2 = fs w)
  /\ (forall datasets,
        Forall2 (holds lib w) output_files datasets -> output_files <> [] ->
        run.1 = Return tt
        /\ fs run.2 = <[merged_file := encode lib (concat datasets)]> (fs w)).
Proof.
  cbv zeta. rewrite merge_netcdf_files_xarray_eq. cbv zeta.
  set (w1 := mkworld (fs w) (sent w) (stdout w ++ [_])).
  assert (Hholds : forall file d, holds lib w1 file d <-> holds lib w file d)
    by (intros; reflexivity).
  destruct (open_datasets_spec lib output_files w1) as [_ Hres].
  destruct ((open_datasets lib output_files w1).1) as [ds | e |]; [| | contradiction].
  - split.
    + intros file Hin Hno. exfalso.
      destruct (proj1 (list_elem_of_lookup _ _) Hin) as [i Hi].
      destruct (Forall2_lookup_l _ _ _ _ _ Hres Hi) as (d & _ & Hd).
      apply (Hno d), Hholds, Hd.
    + intros datasets Hall Hne.
      assert (ds = datasets) as -> by (eapply Forall2_holds_functional; eassumption).
      destruct datasets as [| d0 rest].
      { inversion Hall. subst. contradiction. }
      split; reflexivity.
  - split.
    + intros _ _ _. split; [eexists; reflexivity | reflexivity].
    + intros datasets Hall _. exfalso. destruct Hres as (file & Hin & Hno).
      destruct (proj1 (list_elem_of_lookup _ _) Hin) as [i Hi].
      destruct (Forall2_lookup_l _ _ _ _ _ Hall Hi) as (d & _ & Hd).
      apply (Hno d), Hholds, Hd.
Qed.

Lemma merge_concatenates_in_list_order_witness :
  (exists e,
     (merge_netcdf_files_xarray day_codec
        ["data/partial/2021-01-01.nc"; "data/partial/2021-01-11.nc"] "data/SST.nc"
        second_artifact_missing).1 = Raise e)
  /\ fs (merge_netcdf_files_xarray day_codec
           ["data/partial/2021-01-01.nc"; "data/partial/2021-01-11.nc"] "data/SST.nc"
           second_artifact_missing).2
     = fs second_artifact_missing.
Proof.
  refine (proj1 (merge_concatenates_in_list_order day_codec
                   ["data/partial/2021-01-01.nc"; "data/partial/2021-01-11.nc"]
                   "data/SST.nc" second_artifact_missing)
            "data/partial/2021-01-11.nc" _ _).
  - right. left.
  - intros d (bytes & Hbytes & _). vm_compute in Hbytes. discriminate.
Defined.

(** C4, counterexample: two artifacts whose time coordinates overlap are
    merged without complaint, and the merged file holds 2021-01-10 twice. *)
Lemma overlapping_artifacts_are_merged :
  (merge_netcdf_files_xarray day_codec
     ["data/partial/2021-01-01.nc"; "data/partial/2021-01-10.nc"] "data/SST.nc"
     overlapping_artifacts).1 = Return tt
  /\ (fs (merge_netcdf_files_xarray day_codec
            ["data/partial/2021-01-01.nc"; "data/partial/2021-01-10.nc"] "data/SST.nc"
            overlapping_artifacts).2 !! "data/SST.nc"
      ≫= decode day_codec)
     = Some (days_of_january 1 10 ++ days_of_january 10 20)
  /\ last (days_of_january 1 10) = Some (toordinal (mkdatetime 2021 1 10), 0)
  /\ head (days_of_january 10 20) = Some (toordinal (mkdatetime 2021 1 10), 0).
Proof. repeat split; vm_compute; reflexivity. Qed.

(** ** The scheduler *)

Lemma list_output_files_spec output_dir date_ranges : forall output_files w,
  list_output_files output_dir date_ranges output_files w
  = (Return (output_files ++ paths output_dir date_ranges),
     with_lines w (listing output_dir w date_ranges)).
Proof.
  induction date_ranges as [| [start_date end_date] rest IH]; intros output_files w.
  - simpl. unfold ret, with_lines. rewrite !app_nil_r. destruct w; reflexivity.
  - cbn [list_output_files]. unfold bind at 1, path_exists at 1.
    unfold paths, listing. rewrite !fmap_cons. cbn [fst snd].
    destruct (bool_decide (is_Some (fs w !! artifact_path output_dir start_date)));
      cbn [negb]; unfold bind at 1, print at 1; rewrite IH;
      unfold with_lines, paths, listing; cbn [fs sent stdout];
      rewrite <- ?app_assoc; reflexivity.
Qed.

Lemma evolves_refl files w : evolves files w w.
Proof. repeat split; auto. exists []. rewrite app_nil_r. reflexivity. Qed.

Lemma evolves_trans files w1 w2 w3 :
  evolves files w1 w2 -> evolves files w2 w3 -> evolves files w1 w3.
Proof.
  intros (He1 & Hf1 & [s1 Hs1]) (He2 & Hf2 & [s2 Hs2]). repeat split.
  - intros q Hq. apply He2, He1, Hq.
  - intros q Hq. rewrite Hf2, Hf1 by assumption. reflexivity.
  - exists (s1 ++ s2). rewrite Hs2, Hs1, app_assoc. reflexivity.
Qed.

Lemma evolves_weaken files files' w w' :
  (forall q, q ∈ files -> q ∈ files') -> evolves files w w' -> evolves files' w w'.
Proof.
  intros Hsub (He & Hf & Hs). repeat split; try assumption.
  intros q Hq. apply Hf. intros Hin. apply Hq, Hsub, Hin.
Qed.

Lemma run_task_evolves fuel env t files w :
  task_file t ∈ files -> evolves files w (run_task fuel env t w).2.
Proof.
  intros Hin.
  destruct (growing_retrieve_data fuel env (task_start t) (task_end t) (task_file t) w)
    as (Hs & _ & Hf & He).
  repeat split; try assumption.
  intros q Hq. apply Hf. intros ->. contradiction.
Qed.

Lemma complete_spec fuel env workers i p w submitted files :
  accounts p submitted -> (forall t, t ∈ waiting p -> task_file t ∈ files) ->
  accounts (complete fuel env workers i p w).1 submitted
  /\ evolves files w (complete fuel env workers i p w).2
  /\ (forall t, t ∈ waiting (complete fuel env workers i p w).1 -> t ∈ waiting p).
Proof.
  intros Hacc Hfiles. unfold complete.
  destruct (bool_decide (Z.of_nat i < workers)); [| split; [| split]; auto using evolves_refl].
  destruct (waiting p !! i) as [t |] eqn:Hi; [| split; [| split]; auto using evolves_refl].
  cbn [fst snd waiting finished]. split; [| split].
  - unfold accounts in *. cbn [waiting finished]. rewrite <- Hacc.
    rewrite fmap_app. cbn [fmap list_fmap fst].
    transitivity (t :: delete i (waiting p) ++ (fst <$> finished p)).
    + rewrite app_assoc, <- Permutation_cons_append. reflexivity.
    + rewrite app_comm_cons. apply Permutation_app_tail.
      symmetry. apply delete_Permutation, Hi.
  - apply run_task_evolves, Hfiles. eapply list_elem_of_lookup_2, Hi.
  - intros t' Hin. eapply list_elem_of_delete_inv, Hin.
Qed.

Lemma complete_picks_spec fuel env workers picks : forall p w submitted files,
  accounts p submitted -> (forall t, t ∈ waiting p -> task_file t ∈ files) ->
  accounts (complete_picks fuel env workers picks p w).1 submitted
  /\ evolves files w (complete_picks fuel env workers picks p w).2
  /\ (forall t, t ∈ waiting (complete_picks fuel env workers picks p w).1 -> t ∈ waiting p).
Proof.
  induction picks as [| i rest IH]; intros p w submitted files Hacc Hfiles.
  - simpl. split; [| split]; auto using evolves_refl.
  - cbn [complete_picks].
    destruct (complete_spec fuel env workers i p w submitted files Hacc Hfiles)
      as (Hacc1 & Hev1 & Hsub1).
    destruct (IH (complete fuel env workers i p w).1 (complete fuel env workers i p w).2
                submitted files Hacc1 (fun t Hin => Hfiles t (Hsub1 t Hin)))
      as (Hacc2 & Hev2 & Hsub2).
    split; [exact Hacc2 | split].
    + eapply evolves_trans; eassumption.
    + intros t Hin. apply Hsub1, Hsub2, Hin.
Qed.

Lemma drain_spec fuel env ts : forall done w files,
  (forall t, t ∈ ts -> task_file t ∈ files) ->
  fst <$> (drain fuel env ts done w).1 = (fst <$> done) ++ ts
  /\ evolves files w (drain fuel env ts done w).2.
Proof.
  induction ts as [| t rest IH]; intros done w files Hfiles.
  - simpl. rewrite app_nil_r. split; [reflexivity | apply evolves_refl].
  - cbn [drain].
    destruct (IH (done ++ [(t, (run_task fuel env t w).1)]) (run_task fuel env t w).2 files)
      as [Hfst Hev].
    { intros t' Hin. apply Hfiles. right. exact Hin. }
    split.
    + rewrite Hfst, fmap_app. cbn [fmap list_fmap fst]. rewrite <- app_assoc. reflexivity.
    + eapply evolves_trans; [| exact Hev]. apply run_task_evolves, Hfiles. left.
Qed.

Lemma reorder_Permutation {A} picks : forall l : list A, reorder picks l ≡ₚ l.
Proof.
  induction picks as [| i rest IH]; intros l; simpl; [reflexivity |].
  destruct (l !! i) as [x |] eqn:Hi; [| apply IH].
  rewrite IH. symmetry. apply delete_Permutation, Hi.
Qed.

Lemma submitting_waiting_files output_dir w0 seen p submitted w :
  submitting output_dir w0 seen p submitted w ->
  forall t, t ∈ waiting p -> task_file t ∈ task_file <$> submitted.
Proof.
  intros (Hacc & _) t Hin. apply list_elem_of_fmap_2.
  unfold accounts in Hacc. rewrite <- Hacc. apply elem_of_app. left. exact Hin.
Qed.

Lemma submit_all_spec fuel env workers output_dir w0 date_ranges :
  forall seen picks p submitted w,
    submitting output_dir w0 seen p submitted w ->
    submitting output_dir w0 (seen ++ date_ranges)
      (submit_all fuel env workers output_dir date_ranges picks p submitted w).1.1
      (submit_all fuel env workers output_dir date_ranges picks p submitted w).1.2
      (submit_all fuel env workers output_dir date_ranges picks p submitted w).2.
Proof.
  induction date_ranges as [| [start_date end_date] rest IH];
    intros seen picks p submitted w Hinv.
  - simpl. rewrite app_nil_r. exact Hinv.
  - cbn [submit_all].
    pose proof (submitting_waiting_files _ _ _ _ _ _ Hinv) as Hfiles.
    destruct Hinv as (Hacc & Hev & Hsub & Hall).
    destruct (complete_picks_spec fuel env workers (hd [] picks) p w submitted
                (task_file <$> submitted) Hacc Hfiles) as (Hacc1 & Hev1 & _).
    set (pw := complete_picks fuel env workers (hd [] picks) p w) in *.
    cbn zeta.
    assert (Hev2 : evolves (task_file <$> submitted) w0 pw.2)
      by (eapply evolves_trans; eassumption).
    rewrite (@cons_middle date_range (start_date, end_date) seen rest).
    rewrite (assoc_L (++)).
    destruct (bool_decide (is_Some (fs pw.2 !! artifact_path output_dir start_date)))
      eqn:Hex.
    + apply IH. split; [exact Hacc1 | split; [exact Hev2 | split]].
      * intros t Hin. destruct (Hsub t Hin) as (Hnone & r & Hr & Ht).
        split; [exact Hnone |]. exists r. split; [| exact Ht].
        apply elem_of_app. left. exact Hr.
      * intros Hnodup r Hr Hnone.
        unfold paths in Hnodup. rewrite fmap_app in Hnodup.
        apply NoDup_app in Hnodup as (Hnd1 & Hdisj & _).
        apply elem_of_app in Hr as [Hr | Hr]; [apply Hall; assumption |].
        apply list_elem_of_singleton in Hr. subst r. cbn [fst] in Hnone. exfalso.
        apply bool_decide_eq_true_1 in Hex.
        destruct Hev2 as (_ & Hframe & _).
        destruct (decide (artifact_path output_dir start_date ∈ task_file <$> submitted))
          as [Hin | Hnotin].
        -- apply list_elem_of_fmap in Hin as (t & Ht & Hin).
           destruct (Hsub t Hin) as (_ & r & Hr & ->). cbn [task_file task_of] in Ht.
           apply (Hdisj (artifact_path output_dir start_date)).
           ++ rewrite Ht. apply list_elem_of_fmap_2 with (f := fun r => artifact_path output_dir r.1).
              exact Hr.
           ++ left.
        -- rewrite (Hframe _ Hnotin), Hnone in Hex. destruct Hex as [x Hx]. discriminate.
    + apply bool_decide_eq_false_1 in Hex.
      set (t := mktask start_date end_date (artifact_path output_dir start_date)).
      apply IH. split; [| split; [| split]].
      * unfold accounts in *. cbn [waiting finished]. rewrite <- Hacc1.
        rewrite <- !app_assoc. apply Permutation_app_head.
        rewrite <- Permutation_cons_append. apply Permutation_middle.
      * eapply evolves_weaken; [| exact Hev2].
        intros q Hq. rewrite fmap_app. apply elem_of_app. left. exact Hq.
      * intros t' Hin. apply elem_of_app in Hin as [Hin | Hin].
        -- destruct (Hsub t' Hin) as (Hnone & r & Hr & Ht).
           split; [exact Hnone |]. exists r. split; [| exact Ht].
           apply elem_of_app. left. exact Hr.
        -- apply list_elem_of_singleton in Hin. subst t'. split.
           ++ destruct (fs w0 !! task_file t) eqn:E; [| reflexivity]. exfalso.
              apply Hex. destruct Hev2 as (Hmono & _). apply Hmono. eexists. exact E.
           ++ exists (start_date, end_date). split; [| reflexivity].
              apply elem_of_app. right. left.
      * intros Hnodup r Hr Hnone.
        unfold paths in Hnodup. rewrite fmap_app in Hnodup.
        apply NoDup_app in Hnodup as (Hnd1 & _ & _).
        apply elem_of_app. apply elem_of_app in Hr as [Hr | Hr].
        -- left. apply Hall; assumption.
        -- right. apply list_elem_of_singleton in Hr. subst r. left.
Qed.

Lemma run_pool_submitting fuel env sched date_ranges output_dir workers w :
  let sub := submit_all fuel env workers output_dir date_ranges
               (during_submit sched) (mkpool [] []) [] w in
  futures (run_pool fuel env sched date_ranges output_dir workers w).1 = sub.1.2
  /\ submitting output_dir w date_ranges sub.1.1 sub.1.2 sub.2.
Proof.
  cbv zeta. split; [reflexivity |].
  apply (submit_all_spec fuel env workers output_dir w date_ranges [] _ _ [] w).
  split; [unfold accounts; reflexivity | split; [apply evolves_refl | split]].
  - intros t Hin. inversion Hin.
  - intros _ r Hr. inversion Hr.
Qed.

Lemma retrieve_missing_data_eq fuel env sched date_ranges output_dir workers w :
  0 < workers ->
  retrieve_missing_data fuel env sched date_ranges output_dir workers w
  = match pool_outcome (executor_run fuel env sched date_ranges output_dir workers w).1 with
    | Return _ =>
      (Return (paths output_dir date_ranges),
       (executor_run fuel env sched date_ranges output_dir workers w).2)
    | Raise e => (Raise e, (executor_run fuel env sched date_ranges output_dir workers w).2)
    | OutOfFuel => (OutOfFuel, (executor_run fuel env sched date_ranges output_dir workers w).2)
    end.
Proof.
  intros Hw. unfold retrieve_missing_data, executor_run. unfold bind at 1.
  rewrite list_output_files_spec. cbn [fst snd app].
  replace (workers <=? 0) with false by (symmetry; apply Z.leb_gt; exact Hw).
  unfold bind, ret.
  destruct (pool_outcome _) as [[] | e |]; reflexivity.
Qed.

Lemma complete_picks_idle fuel env workers picks : forall p w,
  waiting p = [] -> complete_picks fuel env workers picks p w = (p, w).
Proof.
  induction picks as [| i rest IH]; intros p w Hp; [reflexivity |].
  cbn [complete_picks]. unfold complete. rewrite Hp.
  destruct (bool_decide _); cbn [lookup list_lookup fst snd];
    try rewrite lookup_nil; apply IH; exact Hp.
Qed.

Lemma submit_all_idle fuel env workers output_dir date_ranges : forall picks p submitted w,
  waiting p = [] ->
  Forall (fun r => is_Some (fs w !! artifact_path output_dir r.1)) date_ranges ->
  submit_all fuel env workers output_dir date_ranges picks p submitted w = (p, submitted, w).
Proof.
  induction date_ranges as [| [start_date end_date] rest IH];
    intros picks p submitted w Hp Hall; [reflexivity |].
  cbn [submit_all]. rewrite complete_picks_idle by exact Hp. cbn [fst snd].
  inversion Hall as [| ? ? Hhere Hrest]; subst. cbn [fst] in Hhere.
  rewrite bool_decide_eq_true_2 by exact Hhere. apply IH; assumption.
Qed.

Lemma reorder_nil {A} picks : reorder picks (@nil A) = [].
Proof. induction picks as [| i rest IH]; [reflexivity | exact IH]. Qed.

Lemma run_pool_idle fuel env sched date_ranges output_dir workers w :
  Forall (fun r => is_Some (fs w !! artifact_path output_dir r.1)) date_ranges ->
  run_pool fuel env sched date_ranges output_dir workers w = (mkpool_run [] [], w).
Proof.
  intros Hall. unfold run_pool. rewrite submit_all_idle by (try reflexivity; exact Hall).
  cbn [fst snd waiting finished].
  rewrite reorder_nil, complete_picks_idle by reflexivity. reflexivity.
Qed.

(** C7: a call is submitted only for an interval whose artifact path does not
    exist when the run starts, and (the paths being distinct) for every such
    interval; nothing but the existence of the path is looked at. When every
    artifact exists nothing is submitted: the run returns the paths, sends no
    request and changes no file. So a second run over what the first one left
    submits no call for an artifact that is there. *)
Theorem resume_skips_existing_artifacts fuel env sched date_ranges output_dir workers w :
  let submitted := futures (executor_run fuel env sched date_ranges output_dir workers w).1 in
  (forall t, t ∈ submitted ->
     fs w !! task_file t = None /\ exists r, r ∈ date_ranges /\ t = task_of output_dir r)
  /\ (NoDup (paths output_dir date_ranges) ->
      forall r, r ∈ date_ranges -> fs w !! artifact_path output_dir r.1 = None ->
                task_of output_dir r ∈ submitted)
  /\ (0 < workers ->
      Forall (fun r => is_Some (fs w !! artifact_path output_dir r.1)) date_ranges ->
      submitted = []
      /\ retrieve_missing_data fuel env sched date_ranges output_dir workers w
         = (Return (paths output_dir date_ranges),
            with_lines w (listing output_dir w date_ranges)))
  /\ (forall fuel' env' sched' workers' t,
        let w1 := (retrieve_missing_data fuel env sched date_ranges output_dir workers w).2 in
        t ∈ futures (executor_run fuel' env' sched' date_ranges output_dir workers' w1).1 ->
        fs w1 !! task_file t = None).
Proof.
  assert (Hsub : forall fuel env sched workers w t,
    t ∈ futures (executor_run fuel env sched date_ranges output_dir workers w).1 ->
    fs w !! task_file t = None /\ exists r, r ∈ date_ranges /\ t = task_of output_dir r).
  { clear. intros fuel env sched workers w t. unfold executor_run.
    rewrite list_output_files_spec. cbn [snd].
    destruct (run_pool_submitting fuel env sched date_ranges output_dir workers
                (with_lines w (listing output_dir w date_ranges))) as [-> Hinv].
    destruct Hinv as (_ & _ & H & _). exact (H t). }
  cbv zeta. split; [apply Hsub | split; [| split]].
  - unfold executor_run. rewrite list_output_files_spec. cbn [snd].
    destruct (run_pool_submitting fuel env sched date_ranges output_dir workers
                (with_lines w (listing output_dir w date_ranges))) as [-> Hinv].
    destruct Hinv as (_ & _ & _ & H). exact H.
  - intros Hw Hall.
    assert (E : executor_run fuel env sched date_ranges output_dir workers w
                = (mkpool_run [] [], with_lines w (listing output_dir w date_ranges))).
    { unfold executor_run. rewrite list_output_files_spec. cbn [snd].
      apply run_pool_idle. exact Hall. }
    rewrite retrieve_missing_data_eq by exact Hw. rewrite E. split; reflexivity.
  - intros fuel' env' sched' workers' t Hin. apply (Hsub _ _ _ _ _ _ Hin).
Qed.

Lemma resume_skips_existing_artifacts_witness :
  length (sent after_first_run) = 4%nat
  /\ retrieve_missing_data 5 (mkenvironment user serving_archive) in_order
       january_2021 "data/partial" 2 after_first_run
     = (Return (paths "data/partial" january_2021),
        with_lines after_first_run (listing "data/partial" after_first_run january_2021)).
Proof.
  split; [vm_compute; reflexivity |].
  refine (proj2 (proj1 (proj2 (proj2
    (resume_skips_existing_artifacts 5 (mkenvironment user serving_archive) in_order
       january_2021 "data/partial" 2 after_first_run))) _ _)).
  - reflexivity.
  - repeat constructor; vm_compute; eexists; reflexivity.
Defined.

(** ** What the executor block reports *)

Lemma results_raise examined e :
  results examined = Raise e ->
  exists before t after,
    examined = before ++ (t, Raise e) :: after /\ Forall succeeded before.
Proof.
  induction examined as [| [t o] rest IH]; simpl; intros H; [discriminate |].
  destruct o as [[] | e' |]; [| | discriminate].
  - destruct (IH H) as (before & t' & after & -> & Hb).
    exists ((t, Return tt) :: before), t', after. split; [reflexivity |].
    constructor; [reflexivity | exact Hb].
  - injection H as ->. exists [], t, rest. split; [reflexivity | constructor].
Qed.

Lemma results_return examined : Forall succeeded examined -> results examined = Return tt.
Proof.
  induction 1 as [| [t o] rest Ho _ IH]; [reflexivity |].
  unfold succeeded in Ho. simpl in Ho. subst o. exact IH.
Qed.

Lemma results_failed examined :
  Exists failed examined -> existsb never_ends examined = false ->
  exists e, results examined = Raise e.
Proof.
  induction examined as [| [t o] rest IH]; intros Hex Hnever; [inversion Hex |].
  simpl in Hnever. apply orb_false_iff in Hnever as [Hhere Hrest].
  destruct o as [[] | e |]; [| eexists; reflexivity | discriminate].
  simpl. apply IH; [| exact Hrest].
  inversion Hex as [? ? [e He] | ? ? H]; subst; [discriminate | exact H].
Qed.

Lemma existsb_never_ends_succeeded examined :
  Forall succeeded examined -> existsb never_ends examined = false.
Proof.
  induction 1 as [| [t o] rest Ho _ IH]; [reflexivity |].
  unfold succeeded in Ho. simpl in Ho. subst o. exact IH.
Qed.

(** Every call submitted is among the finished futures that [as_completed]
    yields, once. *)
Lemma run_pool_examined fuel env sched date_ranges output_dir workers w :
  fst <$> examined (run_pool fuel env sched date_ranges output_dir workers w).1
  ≡ₚ futures (run_pool fuel env sched date_ranges output_dir workers w).1.
Proof.
  destruct (run_pool_submitting fuel env sched date_ranges output_dir workers w)
    as [Hfut Hinv].
  cbv zeta in Hinv. rewrite Hfut. destruct Hinv as (Hacc & _).
  unfold run_pool. cbn [examined fst snd].
  set (sub := submit_all _ _ _ _ _ _ _ _ _) in *.
  set (p := sub.1.1) in *.
  set (pw := complete_picks _ _ _ _ _ _).
  destruct (complete_picks_spec fuel env workers (after_submit sched)
              (mkpool (waiting p) []) sub.2 (waiting p) (task_file <$> waiting p))
    as (Hacc2 & _ & _).
  { unfold accounts. cbn [waiting finished]. rewrite app_nil_r. reflexivity. }
  { intros t Hin. apply list_elem_of_fmap_2. exact Hin. }
  fold pw in Hacc2.
  destruct (drain_spec fuel env (waiting pw.1) (finished pw.1) pw.2
              (task_file <$> waiting pw.1)) as [Hfst _].
  { intros t Hin. apply list_elem_of_fmap_2. exact Hin. }
  rewrite fmap_app, Hfst. unfold accounts in Hacc, Hacc2.
  rewrite reorder_Permutation.
  rewrite (Permutation_app_comm (fst <$> finished pw.1)), Hacc2.
  rewrite Permutation_app_comm. exact Hacc.
Qed.

(** C2, as the code has it: every call submitted runs to its end whatever
    the others do, and the world the caller is left with is the one after all
    of them. If one of them raised, the caller gets the exception of the
    first failed future that [as_completed] yields, and of that one only; the
    paths are returned when all succeeded. *)
Theorem failure_propagates_after_all_tasks
    fuel env sched date_ranges output_dir workers w :
  0 < workers ->
  let run := executor_run fuel env sched date_ranges output_dir workers w in
  let result := retrieve_missing_data fuel env sched date_ranges output_dir workers w in
  fst <$> examined run.1 ≡ₚ futures run.1
  /\ result.2 = run.2
  /\ (forall e, result.1 = Raise e ->
        exists before t after,
          examined run.1 = before ++ (t, Raise e) :: after /\ Forall succeeded before)
  /\ (Exists failed (examined run.1) -> existsb never_ends (examined run.1) = false ->
        exists e, result.1 = Raise e)
  /\ (Forall succeeded (examined run.1) -> result.1 = Return (paths output_dir date_ranges)).
Proof.
  intros Hw. cbv zeta. rewrite retrieve_missing_data_eq by exact Hw.
  set (run := executor_run fuel env sched date_ranges output_dir workers w).
  split; [apply run_pool_examined |]. unfold pool_outcome.
  split; [| split; [| split]].
  - destruct (existsb never_ends (examined run.1)); [reflexivity |].
    destruct (results (examined run.1)) as [[] | e |]; reflexivity.
  - intros e. destruct (existsb never_ends (examined run.1)); [discriminate |].
    destruct (results (examined run.1)) as [[] | e' |] eqn:Hres; try discriminate.
    intros H. injection H as ->. apply results_raise, Hres.
  - intros Hex Hnever. rewrite Hnever.
    destruct (results_failed _ Hex Hnever) as [e ->]. exists e. reflexivity.
  - intros Hall. rewrite (existsb_never_ends_succeeded _ Hall), (results_return _ Hall).
    reflexivity.
Qed.

Lemma failure_propagates_after_all_tasks_witness :
  fst <$> examined (executor_run 5 (mkenvironment user failing_orders) in_order
                      january_2021 "data/partial" 1 world0).1
  ≡ₚ futures (executor_run 5 (mkenvironment user failing_orders) in_order
                january_2021 "data/partial" 1 world0).1.
Proof.
  refine (proj1 (failure_propagates_after_all_tasks 5 (mkenvironment user failing_orders)
                   in_order january_2021 "data/partial" 1 world0 _)).
  reflexivity.
Defined.

(** C2, counterexample: both intervals fail, and the caller gets the error of
    the first one alone, which says nothing of the second. And when the
    archive has no product for any interval, no call raises: the run returns
    the paths although no artifact was retrieved. *)
Lemma only_first_failure_is_reported :
  (retrieve_missing_data 5 (mkenvironment user failing_orders) in_order
     january_2021 "data/partial" 1 world0).1
  = Raise (HTTPError 500 first_order_url)
  /\ examined (executor_run 5 (mkenvironment user failing_orders) in_order
                 january_2021 "data/partial" 1 world0).1
     = [ (mktask "2021-01-01" "2021-01-10" "data/partial/2021-01-01.nc",
          Raise (HTTPError 500 first_order_url));
         (mktask "2021-01-11" "2021-01-20" "data/partial/2021-01-11.nc",
          Raise (HTTPError 503 second_order_url)) ]
  /\ (retrieve_missing_data 5 (mkenvironment user empty_catalog) in_order
        january_2021 "data/partial" 1 world0).1
     = Return ["data/partial/2021-01-01.nc"; "data/partial/2021-01-11.nc"]
  /\ fs (retrieve_missing_data 5 (mkenvironment user empty_catalog) in_order
           january_2021 "data/partial" 1 world0).2 = ∅.
Proof. repeat split; vm_compute; reflexivity. Qed.

(** * Further properties

    What the code shows beyond the statements above: the errors and the
    edges of each function, what a call sends and what it leaves alone, and
    how the functions compose in the driver. *)

(** ** Years out of range, and the shape of the intervals *)

Lemma new_rejects y m d :
  ~ (MINYEAR <= y <= MAXYEAR) -> fits_int m = true -> fits_int d = true ->
  new y m d = Raise (year_error y).
Proof.
  intros H Hm Hd. unfold new, year_error. rewrite Hm, Hd.
  destruct (fits_int y); [| reflexivity]. cbn [andb negb]. unfold check_date_fields.
  destruct (MINYEAR <=? y) eqn:Hlo; [| reflexivity].
  destruct (y <=? MAXYEAR) eqn:Hhi; [| reflexivity].
  apply Z.leb_le in Hlo, Hhi. lia.
Qed.

(** X1: a year outside [MINYEAR..MAXYEAR] (1 to 9999) makes
    [generate_date_ranges] raise when it builds its boundary dates, and no
    interval is produced: a start year out of range raises whatever the end
    year is, and an end year out of range raises once the start year is
    accepted. The error is [ValueError], or [OverflowError] when the year
    does not fit a C int. *)
Theorem generate_date_ranges_rejects_years fuel start_year end_year :
  (~ (MINYEAR <= start_year <= MAXYEAR) ->
   generate_date_ranges fuel start_year end_year = Raise (year_error start_year))
  /\ (MINYEAR <= start_year <= MAXYEAR -> ~ (MINYEAR <= end_year <= MAXYEAR) ->
      generate_date_ranges fuel start_year end_year = Raise (year_error end_year)).
Proof.
  split.
  - intros H. unfold generate_date_ranges.
    rewrite (new_rejects _ 1 1 H) by reflexivity. reflexivity.
  - intros [Hlo Hhi] H. unfold generate_date_ranges, MINYEAR in *.
    rewrite new_valid; [| repeat split; simpl; try lia; vm_compute; discriminate | exact Hhi].
    cbn [obind]. rewrite (new_rejects _ 1 31 H) by reflexivity. reflexivity.
Qed.

(** The year 10000 as the end is refused with [ValueError], the year 2^31 as
    the start with [OverflowError]. *)
Lemma generate_date_ranges_rejects_years_witness :
  generate_date_ranges 12 2021 10000 = Raise ValueError
  /\ generate_date_ranges 12 2147483648 2021 = Raise OverflowError.
Proof.
  split.
  - apply (proj2 (generate_date_ranges_rejects_years 12 2021 10000));
      unfold MINYEAR, MAXYEAR; lia.
  - apply (proj1 (generate_date_ranges_rejects_years 12 2147483648 2021)).
    unfold MINYEAR, MAXYEAR. lia.
Defined.

Lemma partition_elem start_year end_year iv :
  start_year <= end_year -> iv ∈ partition start_year end_year ->
  exists y m, start_year <= y <= end_year /\ 1 <= m <= 12 /\ iv ∈ month_parts y m.
Proof.
  intros Hse Hin. unfold partition, covered_months in Hin.
  apply list_elem_of_In, in_flat_map in Hin as ([y m] & Hym & Hiv).
  apply list_elem_of_In, list_elem_of_fmap in Hym as (i & Hi & Hseq).
  apply elem_of_seqZ in Hseq. unfold month_of_index in Hi. injection Hi as -> ->.
  exists (i / 12), (i mod 12 + 1). split; [| split].
  - Z.div_mod_to_equations; lia.
  - Z.div_mod_to_equations; lia.
  - apply list_elem_of_In. exact Hiv.
Qed.

Lemma month_parts_shape y m iv :
  1 <= m <= 12 -> iv ∈ month_parts y m ->
  year iv.1 = y /\ year iv.2 = y /\ month iv.1 = m /\ month iv.2 = m
  /\ 9 <= diff_days iv.2 iv.1 + 1 <= 11.
Proof.
  intros Hm Hin. pose proof (days_in_month_bounds y m Hm) as Hdim.
  unfold month_parts in Hin. cbv zeta in Hin. set (p := days_in_month y m / 3) in *.
  assert (Hp : 3 * p <= days_in_month y m < 3 * p + 3)
    by (subst p; Z.div_mod_to_equations; lia).
  repeat (apply elem_of_cons in Hin as [-> | Hin]); [| | | inversion Hin];
    unfold diff_days, toordinal, ymd2ord; simpl; lia.
Qed.

Lemma parts_of_length months : length (parts_of months) = (3 * length months)%nat.
Proof.
  induction months as [| ym months IH]; [reflexivity |].
  rewrite parts_of_cons, length_app, IH. simpl. lia.
Qed.

(** X2: for years in range and in order, [generate_date_ranges] returns three
    intervals for each of the [12 * (end_year - start_year) + 1] months it
    covers; each interval lies within one month of a year between the two,
    and spans 9, 10 or 11 days. *)
Theorem generate_date_ranges_interval_shape fuel start_year end_year :
  MINYEAR <= start_year -> start_year <= end_year -> end_year <= MAXYEAR ->
  (months_fuel start_year end_year <= fuel)%nat ->
  generate_date_ranges fuel start_year end_year
  = Return (render <$> partition start_year end_year)
  /\ Z.of_nat (length (partition start_year end_year))
     = 3 * (12 * (end_year - start_year) + 1)
  /\ Forall (fun iv : interval =>
               start_year <= year iv.1 <= end_year
               /\ year iv.2 = year iv.1 /\ month iv.2 = month iv.1
               /\ 9 <= diff_days iv.2 iv.1 + 1 <= 11)
       (partition start_year end_year).
Proof.
  intros Hs Hse He Hfuel. split; [| split].
  - apply generate_date_ranges_correct; assumption.
  - rewrite partition_months, parts_of_length. unfold months_from.
    rewrite length_fmap, length_seqZ. lia.
  - apply Forall_forall. intros iv Hin.
    destruct (partition_elem _ _ _ Hse Hin) as (y & m & Hy & Hm & Hiv).
    destruct (month_parts_shape y m iv Hm Hiv) as (-> & -> & -> & -> & Hd).
    repeat split; lia.
Qed.

(** The thirteen months from January 2020 to January 2021. *)
Lemma generate_date_ranges_interval_shape_witness :
  generate_date_ranges 13 2020 2021 = Return (render <$> partition 2020 2021)
  /\ Z.of_nat (length (partition 2020 2021)) = 3 * (12 * (2021 - 2020) + 1)
  /\ Forall (fun iv : interval =>
               2020 <= year iv.1 <= 2021
               /\ year iv.2 = year iv.1 /\ month iv.2 = month iv.1
               /\ 9 <= diff_days iv.2 iv.1 + 1 <= 11)
       (partition 2020 2021).
Proof.
  apply generate_date_ranges_interval_shape; unfold MINYEAR, MAXYEAR; try lia.
  vm_compute. lia.
Defined.

(** ** Rendered dates and artifact paths *)

Lemma digit_inj a b : digit a = digit b -> a mod 10 = b mod 10.
Proof.
  unfold digit. intros H. apply (f_equal nat_of_ascii) in H.
  pose proof (Z.mod_pos_bound a 10 ltac:(lia)).
  pose proof (Z.mod_pos_bound b 10 ltac:(lia)).
  rewrite !nat_ascii_embedding in H by lia. lia.
Qed.

Lemma digit_not_slash n : Ascii.eqb "/" (digit n) = false.
Proof.
  unfold digit. pose proof (Z.mod_pos_bound n 10 ltac:(lia)) as Hk.
  set (k := n mod 10) in *.
  assert (H : k = 0 \/ k = 1 \/ k = 2 \/ k = 3 \/ k = 4 \/ k = 5 \/ k = 6 \/ k = 7
              \/ k = 8 \/ k = 9) by lia.
  repeat (destruct H as [-> | H]); try subst k; try rewrite H; reflexivity.
Qed.

Lemma strftime_eq dt :
  strftime dt
  = String (digit (year dt / 10 / 10 / 10))
      (String (digit (year dt / 10 / 10))
         (String (digit (year dt / 10))
            (String (digit (year dt))
               (String "-"
                  (String (digit (month dt / 10))
                     (String (digit (month dt))
                        (String "-"
                           (String (digit (day dt / 10))
                              (String (digit (day dt)) "")))))))))%char.
Proof. reflexivity. Qed.

Lemma four_digits a b :
  0 <= a < 10000 -> 0 <= b < 10000 ->
  (a / 10 / 10 / 10) mod 10 = (b / 10 / 10 / 10) mod 10 ->
  (a / 10 / 10) mod 10 = (b / 10 / 10) mod 10 ->
  (a / 10) mod 10 = (b / 10) mod 10 -> a mod 10 = b mod 10 -> a = b.
Proof. intros. Z.div_mod_to_equations. lia. Qed.

Lemma two_digits a b :
  0 <= a < 100 -> 0 <= b < 100 ->
  (a / 10) mod 10 = (b / 10) mod 10 -> a mod 10 = b mod 10 -> a = b.
Proof. intros. Z.div_mod_to_equations. lia. Qed.

Lemma string_app_inv_head (p a b : string) : p +:+ a = p +:+ b -> a = b.
Proof.
  induction p as [| c p IH]; intros H; [exact H |].
  apply IH. change (String c (p +:+ a) = String c (p +:+ b)) in H. congruence.
Qed.

Lemma artifact_path_strftime output_dir dt :
  artifact_path output_dir (strftime dt)
  = (if String.eqb output_dir "" || ends_with_slash output_dir
     then output_dir else output_dir +:+ "/") +:+ strftime dt +:+ ".nc".
Proof.
  unfold artifact_path, os_path_join.
  assert (E : is_prefix "/" (strftime dt +:+ ".nc") = false).
  { rewrite strftime_eq.
    change (Ascii.eqb "/" (digit (year dt / 10 / 10 / 10)) && true = false).
    rewrite digit_not_slash. reflexivity. }
  rewrite E. destruct (_ || _); [reflexivity |].
  rewrite !string_app_assoc. reflexivity.
Qed.

Lemma artifact_path_inj output_dir a b :
  valid_date a -> year a <= MAXYEAR -> valid_date b -> year b <= MAXYEAR ->
  artifact_path output_dir (strftime a) = artifact_path output_dir (strftime b) -> a = b.
Proof.
  unfold MAXYEAR. intros (Hya & Hma & Hda) Hya' (Hyb & Hmb & Hdb) Hyb' H.
  rewrite !artifact_path_strftime in H. apply string_app_inv_head in H.
  rewrite !strftime_eq in H.
  pose proof (days_in_month_bounds (year a) (month a) Hma) as Hdima.
  pose proof (days_in_month_bounds (year b) (month b) Hmb) as Hdimb.
  injection H as E1 E2 E3 E4 E5 E6 E7 E8.
  apply digit_inj in E1, E2, E3, E4, E5, E6, E7, E8.
  destruct a as [ya ma da], b as [yb mb db]. simpl in *.
  f_equal; [apply four_digits | apply two_digits | apply two_digits]; try assumption; lia.
Qed.

Lemma tiles_NoDup o l : tiles o l -> NoDup l.
Proof.
  intros Ht. apply NoDup_alt. intros i j x Hi Hj.
  destruct (Nat.lt_trichotomy i j) as [Hlt | [Heq | Hgt]]; [| exact Heq |].
  - pose proof (tiles_ordered o l i j x x Ht Hlt Hi Hj) as Hord.
    pose proof (tiles_bounds o l x Ht ltac:(eapply list_elem_of_lookup_2; eassumption)). lia.
  - pose proof (tiles_ordered o l j i x x Ht Hgt Hj Hi) as Hord.
    pose proof (tiles_bounds o l x Ht ltac:(eapply list_elem_of_lookup_2; eassumption)). lia.
Qed.

Lemma tiles_start_inj o l a b :
  tiles o l -> a ∈ l -> b ∈ l -> a.1 = b.1 -> a = b.
Proof.
  intros Ht Ha Hb Heq.
  pose proof (tiles_bounds o l a Ht Ha) as Hba.
  pose proof (tiles_bounds o l b Ht Hb) as Hbb.
  apply list_elem_of_lookup in Ha as [i Hi]. apply list_elem_of_lookup in Hb as [j Hj].
  destruct (Nat.lt_trichotomy i j) as [Hlt | [-> | Hgt]]; [| congruence |].
  - pose proof (tiles_ordered o l i j a b Ht Hlt Hi Hj). rewrite Heq in *. lia.
  - pose proof (tiles_ordered o l j i b a Ht Hgt Hj Hi). rewrite Heq in *. lia.
Qed.

(** X3: the intervals [generate_date_ranges] returns have distinct artifact
    paths under any output directory: the rendered start dates differ, and
    [os.path.join] keeps the directory since no rendered date starts with a
    slash. So no two intervals of a run share a file. *)
Theorem generated_artifact_paths_distinct fuel start_year end_year output_dir :
  MINYEAR <= start_year -> start_year <= end_year -> end_year <= MAXYEAR ->
  (months_fuel start_year end_year <= fuel)%nat ->
  exists date_ranges,
    generate_date_ranges fuel start_year end_year = Return date_ranges
    /\ NoDup (paths output_dir date_ranges).
Proof.
  intros Hs Hse He Hfuel. exists (render <$> partition start_year end_year).
  split; [apply generate_date_ranges_correct; assumption |].
  unfold MINYEAR in Hs.
  destruct (partition_tiles start_year end_year Hs Hse) as [Ht _].
  unfold paths. rewrite <- list_fmap_compose.
  apply NoDup_fmap_2_strong; [| eapply tiles_NoDup; exact Ht].
  intros a b Ha Hb Heq. unfold compose, render in Heq. cbn [fst] in Heq.
  apply (tiles_start_inj _ _ a b Ht Ha Hb).
  destruct (partition_valid _ _ a Hs Ha) as [Hva _].
  destruct (partition_valid _ _ b Hs Hb) as [Hvb _].
  destruct (partition_elem _ _ a Hse Ha) as (y & m & Hy & Hm & Hiv).
  destruct (month_parts_shape y m a Hm Hiv) as (Hyear & _).
  destruct (partition_elem _ _ b Hse Hb) as (y' & m' & Hy' & Hm' & Hiv').
  destruct (month_parts_shape y' m' b Hm' Hiv') as (Hyear' & _).
  apply (artifact_path_inj output_dir); try assumption; lia.
Qed.

(** The three intervals of January 2021 under [data/partial]. *)
Lemma generated_artifact_paths_distinct_witness :
  exists date_ranges,
    generate_date_ranges 1 2021 2021 = Return date_ranges
    /\ NoDup (paths "data/partial" date_ranges).
Proof.
  apply generated_artifact_paths_distinct; unfold MINYEAR, MAXYEAR; try lia.
  vm_compute. lia.
Defined.

(** ** The requests of [retrieve_data] *)

Lemma silent_requesting {A} P (m : M A) : silent m -> requesting P m.
Proof. intros H w. exists []. rewrite app_nil_r. split; [apply H | constructor]. Qed.

Lemma silent_bind {A B} (m : M A) (k : A -> M B) :
  silent m -> (forall a, silent (k a)) -> silent (bind m k).
Proof.
  intros Hm Hk w. specialize (Hm w). unfold bind.
  destruct (m w) as [[a | e |] w1]; simpl in *; try exact Hm.
  rewrite Hk. exact Hm.
Qed.

Lemma silent_ret {A} (a : A) : silent (ret a).
Proof. intros w. reflexivity. Qed.

Lemma silent_lift {A} (o : outcome A) : silent (lift o).
Proof. intros w. reflexivity. Qed.

Lemma silent_print line : silent (print line).
Proof. intros w. reflexivity. Qed.

Lemma silent_raise_for_status u r : silent (raise_for_status u r).
Proof. intros w. unfold raise_for_status. destruct (_ && _); reflexivity. Qed.

Lemma silent_write_chunks f data : silent (write_chunks f data).
Proof.
  induction data as [| chunk rest IH]; [apply silent_ret |].
  simpl. apply silent_bind; [intros w; reflexivity | intros _; exact IH].
Qed.

Lemma silent_save_response u r f : silent (save_response u r f).
Proof.
  unfold save_response, iter_content_to.
  apply silent_bind.
  { destruct (negb _); [| apply silent_ret].
    apply silent_bind; [apply silent_lift | intros; apply silent_print]. }
  intros _. apply silent_bind; [apply silent_raise_for_status | intros _].
  apply silent_bind; [apply silent_lift | intros n].
  apply silent_bind; [apply silent_print | intros _].
  apply silent_bind; [intros w; reflexivity | intros _].
  apply silent_bind; [| intros _; apply silent_print].
  apply silent_bind; [apply silent_write_chunks | intros _].
  destruct (broken r); intros w; reflexivity.
Qed.

Lemma requesting_bind {A B} P (m : M A) (k : A -> M B) :
  requesting P m -> (forall a, requesting P (k a)) -> requesting P (bind m k).
Proof.
  intros Hm Hk w. destruct (Hm w) as (s1 & Hs1 & HP1). unfold bind.
  destruct (m w) as [[a | e |] w1]; simpl in *; eauto.
  destruct (Hk a w1) as (s2 & Hs2 & HP2).
  exists (s1 ++ s2). rewrite Hs2, Hs1, app_assoc. split; [reflexivity |].
  apply Forall_app. split; assumption.
Qed.

Lemma requesting_requests_send (P : Request -> Prop) srv rq :
  P rq -> requesting P (requests_send srv rq).
Proof.
  intros HP w. unfold requests_send.
  destruct (String.eqb _ _).
  { exists []. rewrite app_nil_r. split; [reflexivity | constructor]. }
  exists [rq]. split; [| repeat constructor; exact HP].
  destruct (srv _ _) as [t | r]; [reflexivity |].
  destruct (stream rq), (broken r); reflexivity.
Qed.

Lemma follow_up_get u auth streamed : follow_up auth (mkrequest GET u auth None streamed).
Proof. repeat split. Qed.

Lemma requesting_poll srv auth : forall fuel u r old_status,
  requesting (follow_up auth) (poll fuel srv auth u r old_status).
Proof.
  induction fuel as [| fuel IH]; intros u r old_status; simpl;
    destruct (location r) as [next |]; try (apply silent_requesting, silent_ret);
    destruct (String.eqb next ""); try (apply silent_requesting, silent_ret).
  - apply silent_requesting. intros w. reflexivity.
  - apply requesting_bind; [apply silent_requesting, silent_lift | intros doc].
    apply requesting_bind; [apply silent_requesting, silent_lift | intros status].
    apply requesting_bind.
    { apply silent_requesting. destruct (negb _); [| apply silent_ret].
      apply silent_bind; [apply silent_print | intros; apply silent_ret]. }
    intros old. apply requesting_bind; [| intros r'; apply IH].
    apply requesting_requests_send, follow_up_get.
Qed.

Lemma requesting_download_product fuel srv auth product f :
  requesting (follow_up auth) (download_product fuel srv auth product f).
Proof.
  unfold download_product.
  apply requesting_bind; [apply silent_requesting, silent_lift | intros assets].
  apply requesting_bind; [apply silent_requesting, silent_lift | intros link].
  apply requesting_bind; [apply silent_requesting, silent_lift | intros href].
  apply requesting_bind; [apply silent_requesting, silent_lift | intros u].
  apply requesting_bind; [apply requesting_requests_send, follow_up_get | intros r].
  apply requesting_bind.
  { apply silent_requesting. destruct (_ =? _); [apply silent_ret |].
    destruct (negb _); [apply silent_print | apply silent_ret]. }
  intros _. apply requesting_bind; [apply silent_requesting, silent_print | intros _].
  apply requesting_bind; [apply silent_requesting, silent_raise_for_status | intros _].
  apply requesting_bind.
  { destruct (String.eqb _ _); [apply requesting_poll | apply silent_requesting, silent_ret]. }
  intros polled. apply silent_requesting, silent_save_response.
Qed.

Lemma requesting_select_product fuel srv auth r start_date f :
  requesting (follow_up auth) (select_product fuel srv auth r start_date f).
Proof.
  unfold select_product.
  destruct (negb _).
  { apply silent_requesting, silent_bind; [apply silent_print | intros; apply silent_print]. }
  destruct (String.eqb _ _); [apply silent_requesting, silent_print |].
  destruct (json_doc r) as [doc |].
  2: { apply silent_requesting, silent_bind; [apply silent_print | intros; apply silent_print]. }
  apply requesting_bind; [apply silent_requesting, silent_lift | intros has].
  apply requesting_bind.
  { apply silent_requesting. destruct (negb has); [apply silent_ret |].
    apply silent_bind; [apply silent_lift | intros features].
    apply silent_bind; [apply silent_lift | intros n; apply silent_ret]. }
  intros [|]; [apply silent_requesting, silent_print |].
  apply requesting_bind; [apply silent_requesting, silent_lift | intros features].
  apply requesting_bind; [apply silent_requesting, silent_lift | intros product].
  apply requesting_download_product.
Qed.

(** X4: whatever the archive answers, a call of [retrieve_data] first sends
    the search request of its interval, and every request it sends after
    that is a [GET] without a body that carries the same [Authorization]
    header, to whatever URL the archive named. Requests already sent are
    kept. *)
Theorem retrieve_data_requests fuel env start_date end_date output_file w :
  exists more,
    sent (retrieve_data fuel env start_date end_date output_file w).2
    = sent w ++ search_request (get_token env) start_date end_date :: more
    /\ Forall (follow_up (auth_headers (get_token env))) more.
Proof.
  rewrite retrieve_data_search.
  assert (Hnone : exists more : list Request,
            sent (searched env start_date end_date w)
            = sent w ++ search_request (get_token env) start_date end_date :: more
            /\ Forall (follow_up (auth_headers (get_token env))) more).
  { exists []. split; [reflexivity | constructor]. }
  destruct (remote env _ _) as [t | r]; [exact Hnone |].
  destruct (broken r); [exact Hnone |].
  destruct (requesting_select_product fuel (remote env) (auth_headers (get_token env)) r
              start_date output_file (searched env start_date end_date w))
    as (more & Hs & HP).
  exists more. split; [| exact HP]. rewrite Hs. unfold searched. cbn [sent].
  rewrite <- app_assoc. reflexivity.
Qed.

(** ** The first product *)

Lemma retrieve_data_first_product fuel env start_date end_date output_file w product :
  finds env start_date end_date w product ->
  retrieve_data fuel env start_date end_date output_file w
  = download_product fuel (remote env) (auth_headers (get_token env)) product output_file
      (searched env start_date end_date w).
Proof.
  intros (r & fields & others & Hr & Hb & Hs & Ht & Hj & Hf).
  rewrite retrieve_data_search, Hr, Hb. unfold select_product. rewrite Hs, Hj.
  replace (String.eqb (text r) "") with false
    by (symmetry; apply String.eqb_neq; exact Ht).
  cbn [Z.eqb Pos.eqb negb]. unfold bind at 1, lift at 1, json_contains. rewrite Hf.
  rewrite bool_decide_eq_true_2 by eauto.
  unfold bind, lift, json_getitem, json_len, json_first, ret. rewrite Hf. reflexivity.
Qed.

Lemma download_product_no_link fuel srv auth product f e w :
  download_link product = Raise e ->
  download_product fuel srv auth product f w = (Raise e, w).
Proof.
  unfold download_link, download_product, bind, lift. intros H.
  destruct (json_getitem product "assets") as [assets | e1 |]; simpl in H;
    [| congruence | discriminate].
  destruct (json_getitem assets "downloadLink") as [link | e2 |]; simpl in H;
    [| congruence | discriminate].
  rewrite H. reflexivity.
Qed.

(** X5: when the first feature of the search result has no
    [assets.downloadLink.href] (the lookup raises, a [KeyError] for a missing
    key or a [TypeError] for a value that is not an object), [retrieve_data]
    raises that error once the search is done: no download request is sent
    and no file is changed. *)
Theorem retrieve_data_without_link fuel env start_date end_date output_file w product e :
  finds env start_date end_date w product -> download_link product = Raise e ->
  retrieve_data fuel env start_date end_date output_file w
  = (Raise e, searched env start_date end_date w).
Proof.
  intros Hf Hl. rewrite (retrieve_data_first_product _ _ _ _ _ _ _ Hf).
  apply download_product_no_link, Hl.
Qed.

(** A product whose assets are empty: [KeyError] on [downloadLink]. *)
Lemma retrieve_data_without_link_witness :
  retrieve_data 0 (mkenvironment user bare_catalog)
    "2021-01-01" "2021-01-10" "data/partial/2021-01-01.nc" world0
  = (Raise (KeyError "downloadLink"),
     searched (mkenvironment user bare_catalog) "2021-01-01" "2021-01-10" world0).
Proof.
  apply (retrieve_data_without_link 0 (mkenvironment user bare_catalog)
           "2021-01-01" "2021-01-10" "data/partial/2021-01-01.nc" world0
           (JObj [("assets", JObj [])])).
  - eexists _, _, []. repeat split; try reflexivity. vm_compute. discriminate.
  - reflexivity.
Defined.

(** ** A response that is saved at once *)

Lemma save_response_files u r f w :
  status_code r = 200 \/ status_code r = 202 -> content_length r <> HMalformed ->
  fs (save_response u r f w).2 = <[f := text r]> (fs w).
Proof.
  intros Hs Hc. apply map_eq. intros p.
  destruct (decide (p = f)) as [-> | Hp].
  - rewrite lookup_insert_eq. apply save_response_written; assumption.
  - rewrite lookup_insert_ne by congruence.
    destruct (growing_save_response u r f w) as (_ & _ & Hframe & _).
    apply Hframe, Hp.
Qed.

Lemma download_product_served fuel srv auth product f u d w :
  links_to product u -> u <> "" ->
  srv (length (sent w)) (mkrequest GET u auth None false) = inr d ->
  broken d = None ->
  status_code d = 200 \/ (status_code d = 202 /\ ready d) ->
  download_product fuel srv auth product f w
  = save_response u d f
      (mkworld (fs w) (sent w ++ [mkrequest GET u auth None false])
         (stdout w ++ [[Str u]])).
Proof.
  intros (assets & link & Ha & Hl & Hh) Hu Hd Hb Hst.
  unfold download_product. unfold bind at 1, lift at 1. rewrite Ha.
  unfold bind at 1, lift at 1. rewrite Hl.
  unfold bind at 1, lift at 1. rewrite Hh.
  unfold bind at 1, lift at 1. cbn [as_url].
  unfold bind at 1. unfold requests_get at 1, requests_send. cbn [url stream].
  replace (String.eqb u "") with false by (symmetry; apply String.eqb_neq; exact Hu).
  rewrite Hd, Hb.
  destruct Hst as [Hs | [Hs Hready]]; rewrite Hs.
  - change (200 =? HTTP_SUCCESS_CODE) with true. cbv iota.
    replace (String.eqb u "") with false by (symmetry; apply String.eqb_neq; exact Hu).
    unfold bind, ret, print, raise_for_status. rewrite Hs. reflexivity.
  - change (202 =? HTTP_SUCCESS_CODE) with false.
    change (202 =? HTTP_ACCEPTED_CODE) with true. cbv iota. cbn [negb].
    change (String.eqb "" "") with true. cbv iota.
    unfold bind at 1, ret at 1. unfold bind at 1, print at 1.
    unfold bind at 1, raise_for_status at 1. rewrite Hs.
    change ((400 <=? 202) && (202 <? 600)) with false. cbv iota. unfold ret at 1.
    unfold bind at 1. rewrite poll_ready by exact Hready. reflexivity.
Qed.

(** X6: the direct download. When the download link answers with status 200,
    a complete body and a readable length, [retrieve_data] does not poll,
    whether or not the answer has a [Location] header: it returns after
    exactly two requests (the search and the [GET] of the link), and the
    files are those of the start with the whole body at the artifact path. *)
Theorem retrieve_data_direct_download
    fuel env start_date end_date output_file w product u d :
  finds env start_date end_date w product ->
  links_to product u -> u <> "" ->
  remote env (S (length (sent w)))
    (mkrequest GET u (auth_headers (get_token env)) None false) = inr d ->
  broken d = None -> status_code d = 200 -> content_length d <> HMalformed ->
  let run := retrieve_data fuel env start_date end_date output_file w in
  run.1 = Return tt
  /\ fs run.2 = <[output_file := text d]> (fs w)
  /\ sent run.2
     = sent w ++ [ search_request (get_token env) start_date end_date;
                   mkrequest GET u (auth_headers (get_token env)) None false ].
Proof.
  intros Hf Hl Hu Hd Hb Hs Hc run. subst run.
  rewrite (retrieve_data_first_product _ _ _ _ _ _ _ Hf).
  rewrite (download_product_served _ _ _ _ _ u d _ Hl Hu); try assumption.
  2: { unfold searched. cbn [sent]. rewrite length_app. cbn [length].
       rewrite Nat.add_1_r. exact Hd. }
  2: { left. exact Hs. }
  split; [| split].
  - destruct (save_response_written u d output_file
                (mkworld (fs (searched env start_date end_date w))
                   (sent (searched env start_date end_date w)
                    ++ [mkrequest GET u (auth_headers (get_token env)) None false])
                   (stdout (searched env start_date end_date w) ++ [[Str u]])))
      as [Ho _]; [left; exact Hs | exact Hc |].
    rewrite Ho, Hb. reflexivity.
  - rewrite save_response_files by (first [left; exact Hs | exact Hc]). reflexivity.
  - rewrite silent_save_response. unfold searched. cbn [sent].
    rewrite <- app_assoc. reflexivity.
Qed.

(** An archive that serves the order at once. *)
Lemma retrieve_data_direct_download_witness :
  (retrieve_data 0 (mkenvironment user serving_archive)
     "2021-01-01" "2021-01-10" "data/partial/2021-01-01.nc" world0).1 = Return tt
  /\ fs (retrieve_data 0 (mkenvironment user serving_archive)
           "2021-01-01" "2021-01-10" "data/partial/2021-01-01.nc" world0).2
     = <["data/partial/2021-01-01.nc" := "data of the interval"]> (fs world0)
  /\ sent (retrieve_data 0 (mkenvironment user serving_archive)
             "2021-01-01" "2021-01-10" "data/partial/2021-01-01.nc" world0).2
     = sent world0 ++ [ search_request user "2021-01-01" "2021-01-10";
                        mkrequest GET order_url (auth_headers user) None false ].
Proof.
  apply (retrieve_data_direct_download 0 (mkenvironment user serving_archive)
           "2021-01-01" "2021-01-10" "data/partial/2021-01-01.nc" world0
           (JObj [("assets", JObj [("downloadLink", JObj [("href", JStr order_url)])])])
           order_url
           (mkresponse 200 ["data of the interval"] None None None (HInt 20))).
  - eexists _, _, []. repeat split; try reflexivity. vm_compute. discriminate.
  - eexists _, _. repeat split; reflexivity.
  - discriminate.
  - reflexivity.
  - reflexivity.
  - reflexivity.
  - discriminate.
Defined.

(** X7: an order that is accepted (status 202) without a [Location] header
    to poll is not waited for: the loop does not run, and the body of the 202
    answer itself is written to the artifact path; the call returns normally
    after the search and the one [GET]. *)
Theorem retrieve_data_accepted_without_location
    fuel env start_date end_date output_file w product u d :
  finds env start_date end_date w product ->
  links_to product u -> u <> "" ->
  remote env (S (length (sent w)))
    (mkrequest GET u (auth_headers (get_token env)) None false) = inr d ->
  broken d = None -> status_code d = 202 -> ready d -> content_length d <> HMalformed ->
  let run := retrieve_data fuel env start_date end_date output_file w in
  run.1 = Return tt
  /\ fs run.2 = <[output_file := text d]> (fs w)
  /\ sent run.2
     = sent w ++ [ search_request (get_token env) start_date end_date;
                   mkrequest GET u (auth_headers (get_token env)) None false ].
Proof.
  intros Hf Hl Hu Hd Hb Hs Hready Hc run. subst run.
  rewrite (retrieve_data_first_product _ _ _ _ _ _ _ Hf).
  rewrite (download_product_served _ _ _ _ _ u d _ Hl Hu); try assumption.
  2: { unfold searched. cbn [sent]. rewrite length_app. cbn [length].
       rewrite Nat.add_1_r. exact Hd. }
  2: { right. split; assumption. }
  split; [| split].
  - destruct (save_response_written u d output_file
                (mkworld (fs (searched env start_date end_date w))
                   (sent (searched env start_date end_date w)
                    ++ [mkrequest GET u (auth_headers (get_token env)) None false])
                   (stdout (searched env start_date end_date w) ++ [[Str u]])))
      as [Ho _]; [right; exact Hs | exact Hc |].
    rewrite Ho, Hb. reflexivity.
  - rewrite save_response_files by (first [right; exact Hs | exact Hc]). reflexivity.
  - rewrite silent_save_response. unfold searched. cbn [sent].
    rewrite <- app_assoc. reflexivity.
Qed.

(** The status document of the order ends up in the artifact. *)
Lemma retrieve_data_accepted_without_location_witness :
  (retrieve_data 0 (mkenvironment user accepting_archive)
     "2021-01-01" "2021-01-10" "data/partial/2021-01-01.nc" world0).1 = Return tt
  /\ fs (retrieve_data 0 (mkenvironment user accepting_archive)
           "2021-01-01" "2021-01-10" "data/partial/2021-01-01.nc" world0).2
     = <["data/partial/2021-01-01.nc" := "{" +:+ dq +:+ "status" +:+ dq +:+ ": queued}"]>
         (fs world0)
  /\ sent (retrieve_data 0 (mkenvironment user accepting_archive)
             "2021-01-01" "2021-01-10" "data/partial/2021-01-01.nc" world0).2
     = sent world0 ++ [ search_request user "2021-01-01" "2021-01-10";
                        mkrequest GET order_url (auth_headers user) None false ].
Proof.
  apply (retrieve_data_accepted_without_location 0 (mkenvironment user accepting_archive)
           "2021-01-01" "2021-01-10" "data/partial/2021-01-01.nc" world0
           (JObj [("assets", JObj [("downloadLink", JObj [("href", JStr order_url)])])])
           order_url
           (mkresponse 202 ["{" +:+ dq +:+ "status" +:+ dq +:+ ": queued}"] None
              (Some (JObj [("status", JStr "queued")])) None HAbsent)).
  - eexists _, _, []. repeat split; try reflexivity. vm_compute. discriminate.
  - eexists _, _. repeat split; reflexivity.
  - discriminate.
  - reflexivity.
  - reflexivity.
  - reflexivity.
  - left. reflexivity.
  - discriminate.
Defined.

(** X8: a [content-length] header that is not an integer makes the step that
    saves a 200 or 202 response raise [ValueError] at [int(...)], before the
    file is opened: nothing is printed, written or sent. *)
Theorem save_response_unreadable_length u r f w :
  status_code r = 200 \/ status_code r = 202 -> content_length r = HMalformed ->
  save_response u r f w = (Raise ValueError, w).
Proof.
  intros Hs Hc. unfold save_response, raise_for_status, total_size_of. rewrite Hc.
  destruct Hs as [-> | ->]; reflexivity.
Qed.

Lemma save_response_unreadable_length_witness :
  save_response order_url (mkresponse 200 ["data"] None None None HMalformed)
    "data/partial/2021-01-01.nc" world0
  = (Raise ValueError, world0).
Proof. apply save_response_unreadable_length; [left |]; reflexivity. Defined.

(** ** What the polling loop prints and hands over *)

Lemma json_eqb_string old s : json_eqb old (JStr s) = true <-> old = JStr s.
Proof.
  destruct old; simpl; try (split; [discriminate | intros H; discriminate H]).
  rewrite String.eqb_eq. split; congruence.
Qed.

(** X9: when the order statuses the archive reports are strings, the polling
    loop prints nothing but order-status lines, and a status only when it is
    not the one reported before (from the value of [old_status] the loop
    starts with): two lines in a row never report the same status. *)
Theorem poll_reports_status_changes srv auth :
  (forall n rq r, srv n rq = inr r -> reports_string r) ->
  forall fuel u r old_status w,
    reports_string r ->
    exists lines,
      stdout (poll fuel srv auth u r old_status w).2 = stdout w ++ lines
      /\ status_lines old_status lines.
Proof.
  intros Hsrv.
  assert (Hnone : forall old_status w,
            exists lines, stdout w = stdout w ++ lines /\ status_lines old_status lines).
  { intros old_status w. exists []. rewrite app_nil_r. split; [reflexivity | exact I]. }
  induction fuel as [| fuel IH]; intros u r old_status w Hr; simpl;
    destruct (location r) as [next |]; try apply Hnone;
    destruct (String.eqb next "") eqn:Hnext; try apply Hnone.
  assert (Hout : forall w0,
            stdout (requests_get srv next auth true w0).2 = stdout w0
            /\ forall r' w1, requests_get srv next auth true w0 = (Return r', w1) ->
                  reports_string r').
  { intros w0. unfold requests_get, requests_send. cbn [url stream]. rewrite Hnext.
    destruct (srv _ _) as [t | r'] eqn:Hsent; split; try reflexivity.
    - intros ? ? H. discriminate H.
    - intros r1 w1 H. injection H as <- _. eapply Hsrv, Hsent. }
  unfold bind, lift.
  destruct (response_json r) as [doc | e |] eqn:Hdoc; try apply Hnone.
  destruct (json_getitem doc "status") as [status | e |] eqn:Hstatus; try apply Hnone.
  destruct (Hr doc status Hdoc Hstatus) as [s ->].
  destruct (json_eqb old_status (JStr s)) eqn:Heq; cbn [negb]; unfold ret, print.
  - destruct (Hout w) as [Hsame Hnext'].
    destruct (requests_get srv next auth true w) as [[r' | e |] w1]; simpl in Hsame;
      try (exists []; rewrite app_nil_r; split; [exact Hsame | exact I]).
    destruct (IH next r' old_status w1 (Hnext' r' w1 eq_refl)) as (lines & Hl & Hst).
    exists lines. rewrite Hl, Hsame. split; [reflexivity | exact Hst].
  - assert (Hne : old_status <> JStr s).
    { intros Hold. apply json_eqb_string in Hold. congruence. }
    set (w0 := mkworld (fs w) (sent w) (stdout w ++ [[Str "order status: "; Doc (JStr s)]])).
    destruct (Hout w0) as [Hsame Hnext'].
    destruct (requests_get srv next auth true w0) as [[r' | e |] w1]; simpl in Hsame.
    + destruct (IH next r' (JStr s) w1 (Hnext' r' w1 eq_refl)) as (lines & Hl & Hst).
      exists ([Str "order status: "; Doc (JStr s)] :: lines).
      rewrite Hl, Hsame. subst w0. cbn [stdout]. rewrite <- app_assoc.
      split; [reflexivity |]. exists s. auto.
    + exists [[Str "order status: "; Doc (JStr s)]]. simpl. rewrite Hsame.
      split; [reflexivity |]. exists s. repeat split; auto.
    + exists [[Str "order status: "; Doc (JStr s)]]. simpl. rewrite Hsame.
      split; [reflexivity |]. exists s. repeat split; auto.
Qed.

(** Four polls of an order that is running, then ready: its status is
    printed once. *)
Lemma poll_reports_status_changes_witness :
  exists lines,
    stdout (poll 4 ready_at_fourth "Bearer token" order_url pending (JStr "") world0).2
    = stdout world0 ++ lines
    /\ status_lines (JStr "") lines.
Proof.
  apply poll_reports_status_changes.
  - intros n rq r. unfold ready_at_fourth.
    destruct (n <? 3)%nat; intros H; injection H as <-; intros doc status Hdoc Hstatus.
    + injection Hdoc as <-. injection Hstatus as <-. eexists. reflexivity.
    + discriminate Hdoc.
  - intros doc status Hdoc Hstatus.
    injection Hdoc as <-. injection Hstatus as <-. eexists. reflexivity.
Defined.

(** X10: when the polling loop ends, the response it hands over has no
    (non-empty) [Location]; it is either the response the loop started with,
    no request having been sent, or the archive's answer to the last request
    sent, a streamed [GET] of the URL handed over with it. *)
Theorem poll_returns_last_answer srv auth : forall fuel u r old_status w u' r' w',
  poll fuel srv auth u r old_status w = (Return (u', r'), w') ->
  ready r'
  /\ ((u', r', w') = (u, r, w)
      \/ exists more,
           sent w' = sent w ++ more ++ [mkrequest GET u' auth None true]
           /\ srv (length (sent w ++ more)) (mkrequest GET u' auth None true) = inr r').
Proof.
  induction fuel as [| fuel IH]; intros u r old_status w u' r' w' H; simpl in H;
    destruct (location r) as [next |] eqn:Hloc;
    try (injection H as <- <- <-; split; [left; exact Hloc | left; reflexivity]);
    destruct (String.eqb next "") eqn:Hnext;
    try (apply String.eqb_eq in Hnext; subst next; injection H as <- <- <-;
         split; [right; exact Hloc | left; reflexivity]);
    [discriminate |].
  unfold bind, lift in H.
  destruct (response_json r) as [doc | e |]; try discriminate.
  destruct (json_getitem doc "status") as [status | e |]; try discriminate.
  assert (Hstep : forall old (w0 : world),
            sent w0 = sent w ->
            match requests_get srv next auth true w0 with
            | (Return a, w1) => poll fuel srv auth next a old w1
            | (Raise e, w1) => (Raise e, w1)
            | (OutOfFuel, w1) => (OutOfFuel, w1)
            end = (Return (u', r'), w') ->
            ready r'
            /\ ((u', r', w') = (u, r, w)
                \/ exists more,
                     sent w' = sent w ++ more ++ [mkrequest GET u' auth None true]
                     /\ srv (length (sent w ++ more)) (mkrequest GET u' auth None true)
                        = inr r')).
  { intros old w0 Hw0 Hrun. unfold requests_get, requests_send in Hrun.
    cbn [url stream] in Hrun. rewrite Hnext, Hw0 in Hrun.
    destruct (srv (length (sent w)) (mkrequest GET next auth None true)) as [t | r1] eqn:Hsrv;
      [discriminate |].
    apply IH in Hrun as [Hready [Heq | (more & Hs & Hr)]]; (split; [exact Hready | right]).
    - injection Heq as -> -> ->. exists []. cbn [sent]. rewrite !app_nil_r.
      split; [reflexivity | exact Hsrv].
    - cbn [sent] in Hs, Hr. exists (mkrequest GET next auth None true :: more).
      rewrite Hs, <- !app_assoc. split; [reflexivity |].
      rewrite <- app_assoc in Hr. exact Hr. }
  destruct (negb (json_eqb old_status status)); unfold ret, print in H;
    eapply Hstep; try exact H; reflexivity.
Qed.

(** Four polls of the status location, the last one answered with the data. *)
Lemma poll_returns_last_answer_witness :
  ready (mkresponse 200 ["data"] None None None (HInt 4))
  /\ ((status_url, mkresponse 200 ["data"] None None None (HInt 4),
       mkworld ∅ (replicate 4 (mkrequest GET status_url "Bearer token" None true))
         [[Str "order status: "; Doc (JStr "running")]])
      = (order_url, pending, world0)
      \/ exists more,
           sent (mkworld ∅ (replicate 4 (mkrequest GET status_url "Bearer token" None true))
                   [[Str "order status: "; Doc (JStr "running")]])
           = sent world0 ++ more ++ [mkrequest GET status_url "Bearer token" None true]
           /\ ready_at_fourth (length (sent world0 ++ more))
                (mkrequest GET status_url "Bearer token" None true)
              = inr (mkresponse 200 ["data"] None None None (HInt 4))).
Proof.
  apply (poll_returns_last_answer ready_at_fourth "Bearer token" 4 order_url pending
           (JStr "") world0).
  vm_compute. reflexivity.
Defined.

(** ** What the scheduler leaves alone, and what it returns *)

Lemma run_pool_evolves fuel env sched date_ranges output_dir workers w :
  let run := run_pool fuel env sched date_ranges output_dir workers w in
  evolves (task_file <$> futures run.1) w run.2
  /\ forall t, t ∈ futures run.1 ->
       fs w !! task_file t = None
       /\ exists r, r ∈ date_ranges /\ t = task_of output_dir r.
Proof.
  cbv zeta.
  destruct (run_pool_submitting fuel env sched date_ranges output_dir workers w)
    as [Hfut Hinv].
  cbv zeta in Hinv. rewrite Hfut.
  pose proof (submitting_waiting_files _ _ _ _ _ _ Hinv) as Hfiles.
  destruct Hinv as (_ & Hev & Hsub & _). split; [| exact Hsub].
  unfold run_pool. cbn [fst snd].
  set (sub := submit_all _ _ _ _ _ _ _ _ _) in *.
  set (p := sub.1.1) in *.
  set (pw := complete_picks _ _ _ _ _ _).
  destruct (complete_picks_spec fuel env workers (after_submit sched)
              (mkpool (waiting p) []) sub.2 (waiting p) (task_file <$> sub.1.2))
    as (_ & Hev2 & Hsub2).
  { unfold accounts. cbn [waiting finished]. rewrite app_nil_r. reflexivity. }
  { exact Hfiles. }
  fold pw in Hev2, Hsub2.
  destruct (drain_spec fuel env (waiting pw.1) (finished pw.1) pw.2
              (task_file <$> sub.1.2)) as [_ Hev3].
  { intros t Hin. apply Hfiles, Hsub2, Hin. }
  eapply evolves_trans; [exact Hev |]. eapply evolves_trans; eassumption.
Qed.

Lemma retrieve_missing_data_world fuel env sched date_ranges output_dir workers w :
  let w1 := with_lines w (listing output_dir w date_ranges) in
  (retrieve_missing_data fuel env sched date_ranges output_dir workers w).2
  = if workers <=? 0 then w1
    else (run_pool fuel env sched date_ranges output_dir workers w1).2.
Proof.
  cbv zeta. unfold retrieve_missing_data. unfold bind at 1.
  rewrite list_output_files_spec. destruct (workers <=? 0); [reflexivity |].
  unfold bind, ret. destruct (pool_outcome _) as [[] | e |]; reflexivity.
Qed.

(** X11: under any schedule and with any number of workers,
    [retrieve_missing_data] leaves every file that exists when it starts as
    it is, and changes no path other than the artifact paths of its
    intervals: an artifact that is present is never overwritten or removed. *)
Theorem retrieve_missing_data_keeps_files
    fuel env sched date_ranges output_dir workers w :
  let w' := (retrieve_missing_data fuel env sched date_ranges output_dir workers w).2 in
  (forall q, is_Some (fs w !! q) -> fs w' !! q = fs w !! q)
  /\ (forall q, q ∉ paths output_dir date_ranges -> fs w' !! q = fs w !! q).
Proof.
  cbv zeta. rewrite retrieve_missing_data_world.
  destruct (workers <=? 0); [split; reflexivity |].
  set (w1 := with_lines w (listing output_dir w date_ranges)).
  destruct (run_pool_evolves fuel env sched date_ranges output_dir workers w1)
    as [(_ & Hframe & _) Hsub].
  change (fs w) with (fs w1).
  split; intros q Hq; apply Hframe; intros Hin;
    apply list_elem_of_fmap in Hin as (t & -> & Ht);
    destruct (Hsub t Ht) as (Hnone & r & Hr & ->).
  - rewrite Hnone in Hq. destruct Hq as [x Hx]. discriminate.
  - apply Hq. unfold paths. apply list_elem_of_fmap. exists r. split; [reflexivity | exact Hr].
Qed.

(** X12: when [retrieve_missing_data] returns, it returns the artifact paths
    of all the intervals in the order of the intervals, whichever calls were
    submitted and in whatever order they completed; and it returns only with
    a positive number of workers. *)
Theorem retrieve_missing_data_returns_paths
    fuel env sched date_ranges output_dir workers w output_files :
  (retrieve_missing_data fuel env sched date_ranges output_dir workers w).1
  = Return output_files ->
  output_files = paths output_dir date_ranges /\ 0 < workers.
Proof.
  unfold retrieve_missing_data. unfold bind at 1. rewrite list_output_files_spec.
  cbn [app]. destruct (workers <=? 0) eqn:Hw; [discriminate |].
  apply Z.leb_gt in Hw. unfold bind, ret.
  destruct (pool_outcome _) as [[] | e |]; simpl; intros H; [| discriminate..].
  split; [congruence | exact Hw].
Qed.

(** The first call completes while the second is being submitted. *)
Lemma retrieve_missing_data_returns_paths_witness :
  ["data/partial/2021-01-01.nc"; "data/partial/2021-01-11.nc"]
  = paths "data/partial" january_2021 /\ 0 < 2.
Proof.
  apply (retrieve_missing_data_returns_paths 5 (mkenvironment user serving_archive)
           (mkschedule [[]; [0%nat]] [] []) january_2021 "data/partial" 2 world0).
  vm_compute. reflexivity.
Defined.

(** ** What the merger leaves alone *)

(** X13: [merge_netcdf_files_xarray] sends no request and changes no path
    other than the merged file; with no input file it raises [ValueError],
    the concatenation having nothing to concatenate. *)
Theorem merge_netcdf_files_xarray_frame lib output_files merged_file w :
  let run := merge_netcdf_files_xarray lib output_files merged_file w in
  sent run.2 = sent w
  /\ (forall p, p <> merged_file -> fs run.2 !! p = fs w !! p)
  /\ (output_files = [] -> run.1 = Raise ValueError).
Proof.
  cbv zeta. rewrite merge_netcdf_files_xarray_eq. cbv zeta.
  split; [| split].
  - destruct (open_datasets _ _ _).1 as [[| d ds] | e |]; reflexivity.
  - intros p Hp.
    destruct (open_datasets _ _ _).1 as [[| d ds] | e |]; try reflexivity.
    cbn [snd fs]. apply lookup_insert_ne. congruence.
  - intros ->. reflexivity.
Qed.

(** ** The driver *)

Lemma download_dataset_eq fuel env lib sched start_year end_year filename workers w
    date_ranges :
  generate_date_ranges fuel start_year end_year = Return date_ranges ->
  download_dataset fuel env lib sched start_year end_year filename workers w
  = bind (retrieve_missing_data fuel env sched date_ranges "data/partial" workers)
      (fun output_files =>
         print [Str "All threads completed. Total time taken: "; Elapsed; Str " seconds"] ;;
         merge_netcdf_files_xarray lib output_files ("data/" +:+ filename +:+ ".nc") ;;
         print [Str "Merging completed. Time taken: "; Elapsed; Str " seconds"] ;;
         print [Str "All done!"])
      (ranges_printed w date_ranges).
Proof.
  intros Hg. unfold download_dataset. unfold bind at 1, print at 1.
  unfold bind at 1, lift at 1. rewrite Hg.
  unfold bind at 1, print at 1. unfold bind at 1, print at 1.
  unfold ranges_printed, with_lines. cbn [fs sent stdout].
  rewrite <- !app_assoc. reflexivity.
Qed.

(** X14: with a number of workers that is zero or negative, [download_dataset]
    raises [ValueError] when the pool is created, after the intervals were
    generated and the artifacts listed: it has printed the ranges and one
    line per artifact, and has sent no request, changed no file and merged
    nothing. *)
Theorem download_dataset_without_workers
    fuel env lib sched start_year end_year filename workers w date_ranges :
  generate_date_ranges fuel start_year end_year = Return date_ranges ->
  workers <= 0 ->
  download_dataset fuel env lib sched start_year end_year filename workers w
  = (Raise ValueError,
     with_lines (ranges_printed w date_ranges) (listing "data/partial" w date_ranges)).
Proof.
  intros Hg Hw. rewrite (download_dataset_eq _ _ _ _ _ _ _ _ _ _ Hg).
  unfold bind at 1. unfold retrieve_missing_data. unfold bind at 1.
  rewrite list_output_files_spec.
  replace (workers <=? 0) with true by (symmetry; apply Z.leb_le; exact Hw).
  reflexivity.
Qed.

(** The year 2021 with no worker. *)
Lemma download_dataset_without_workers_witness :
  download_dataset 1 (mkenvironment user serving_archive) day_codec in_order
    2021 2021 "SST" 0 world0
  = (Raise ValueError,
     with_lines
       (ranges_printed world0
          [("2021-01-01", "2021-01-10"); ("2021-01-11", "2021-01-20");
           ("2021-01-21", "2021-01-31")])
       (listing "data/partial" world0
          [("2021-01-01", "2021-01-10"); ("2021-01-11", "2021-01-20");
           ("2021-01-21", "2021-01-31")])).
Proof.
  apply download_dataset_without_workers; [vm_compute; reflexivity | lia].
Defined.

Lemma retrieve_missing_data_idle fuel env sched date_ranges output_dir workers w :
  0 < workers ->
  Forall (fun r => is_Some (fs w !! artifact_path output_dir r.1)) date_ranges ->
  retrieve_missing_data fuel env sched date_ranges output_dir workers w
  = (Return (paths output_dir date_ranges),
     with_lines w (listing output_dir w date_ranges)).
Proof.
  intros Hw Hall. rewrite retrieve_missing_data_eq by exact Hw.
  unfold executor_run. rewrite list_output_files_spec. cbn [snd].
  rewrite run_pool_idle by exact Hall. reflexivity.
Qed.

Lemma Forall2_holds_present lib w output_dir date_ranges datasets :
  Forall2 (holds lib w) (paths output_dir date_ranges) datasets ->
  Forall (fun r : date_range => is_Some (fs w !! artifact_path output_dir r.1)) date_ranges.
Proof.
  revert datasets. induction date_ranges as [| r rest IH]; intros datasets H;
    [constructor |].
  unfold paths in H. rewrite fmap_cons in H.
  inversion H as [| ? d ? ds (bytes & Hb & _) Hrest]; subst.
  constructor; [eauto | eapply IH, Hrest].
Qed.

(** X15: with the years the wrong way round, [download_dataset] does not
    return: there is no interval, nothing is retrieved, and the merge of no
    file raises [ValueError]. No request is sent and no file is written. *)
Theorem download_dataset_reversed_years
    fuel env lib sched start_year end_year filename workers w :
  MINYEAR <= end_year -> end_year < start_year -> start_year <= MAXYEAR -> 0 < workers ->
  let run := download_dataset fuel env lib sched start_year end_year filename workers w in
  run.1 = Raise ValueError /\ fs run.2 = fs w /\ sent run.2 = sent w.
Proof.
  intros He Hlt Hs Hw run.
  assert (E : exists w', run = (Raise ValueError, w') /\ fs w' = fs w /\ sent w' = sent w).
  { subst run.
    rewrite (download_dataset_eq _ _ _ _ _ _ _ _ _ []
               (generate_date_ranges_empty _ _ _ He Hlt Hs)).
    unfold bind at 1. rewrite retrieve_missing_data_idle by (first [exact Hw | constructor]).
    unfold bind at 1, print at 1. unfold bind at 1.
    rewrite merge_netcdf_files_xarray_eq. eexists. repeat split; reflexivity. }
  destruct E as (w' & -> & Hfs & Hsent). auto.
Qed.

(** From 2022 to 2021. *)
Lemma download_dataset_reversed_years_witness :
  (download_dataset 0 (mkenvironment user serving_archive) day_codec in_order
     2022 2021 "SST" 2 world0).1 = Raise ValueError
  /\ fs (download_dataset 0 (mkenvironment user serving_archive) day_codec in_order
           2022 2021 "SST" 2 world0).2 = fs world0
  /\ sent (download_dataset 0 (mkenvironment user serving_archive) day_codec in_order
             2022 2021 "SST" 2 world0).2 = sent world0.
Proof.
  apply download_dataset_reversed_years; unfold MINYEAR, MAXYEAR; lia.
Defined.

(** X16: the driver end to end, on a complete set of artifacts. When every
    artifact of the intervals from [start_year] to [end_year] is on disk and
    is a dataset, [download_dataset] returns without sending any request, and
    the only change to the files is the merged file [data/<filename>.nc],
    which holds the datasets of the artifacts concatenated in the order of
    the intervals. *)
Theorem download_dataset_merges_present_artifacts
    fuel env lib sched start_year end_year filename workers w datasets :
  MINYEAR <= start_year -> start_year <= end_year -> end_year <= MAXYEAR ->
  (months_fuel start_year end_year <= fuel)%nat -> 0 < workers ->
  Forall2 (holds lib w)
    (paths "data/partial" (render <$> partition start_year end_year)) datasets ->
  let run := download_dataset fuel env lib sched start_year end_year filename workers w in
  run.1 = Return tt
  /\ fs run.2 = <["data/" +:+ filename +:+ ".nc" := encode lib (concat datasets)]> (fs w)
  /\ sent run.2 = sent w.
Proof.
  intros Hs Hse He Hfuel Hw Hall run.
  assert (E : exists w',
            run = (Return tt, w')
            /\ fs w' = <["data/" +:+ filename +:+ ".nc" := encode lib (concat datasets)]> (fs w)
            /\ sent w' = sent w);
    [| destruct E as (w' & -> & Hfs & Hsent); auto].
  subst run.
  rewrite (download_dataset_eq _ _ _ _ _ _ _ _ _ _
             (generate_date_ranges_correct _ _ _ Hs Hse He Hfuel)).
  set (date_ranges := render <$> partition start_year end_year) in *.
  unfold bind at 1.
  rewrite retrieve_missing_data_idle
    by (first [exact Hw | eapply (Forall2_holds_present lib w); exact Hall]).
  unfold bind at 1, print at 1. unfold bind at 1.
  rewrite merge_netcdf_files_xarray_eq. cbv zeta.
  match goal with
  | |- context [open_datasets lib ?files ?w5] =>
    destruct (open_datasets_spec lib files w5) as [_ Hopen];
    assert (Hall5 : Forall2 (holds lib w5) files datasets)
      by (eapply Forall2_impl; [exact Hall | intros file d Hd; exact Hd]);
    destruct (open_datasets lib files w5).1 as [ds | e |]
  end.
  - rewrite (Forall2_holds_functional _ _ _ _ _ Hopen Hall5).
    destruct datasets as [| d rest].
    { exfalso. apply Forall2_nil_inv_r in Hall.
      destruct (partition_head start_year end_year Hse) as [tl Htl].
      subst date_ranges. rewrite Htl in Hall. discriminate. }
    unfold bind, print. eexists. repeat split; reflexivity.
  - exfalso. destruct Hopen as (file & Hin & Hno).
    destruct (proj1 (list_elem_of_lookup _ _) Hin) as [i Hi].
    destruct (Forall2_lookup_l _ _ _ _ _ Hall5 Hi) as (d & _ & Hd).
    exact (Hno d Hd).
  - contradiction.
Qed.

(** January 2021, its three artifacts on disk, and an archive that would
    have nothing to serve. *)
Lemma download_dataset_merges_present_artifacts_witness :
  (download_dataset 1 (mkenvironment user empty_catalog) day_codec in_order
     2021 2021 "SST" 2 january_artifacts).1 = Return tt
  /\ fs (download_dataset 1 (mkenvironment user empty_catalog) day_codec in_order
           2021 2021 "SST" 2 january_artifacts).2
     = <["data/" +:+ "SST" +:+ ".nc"
         := encode day_codec
              (concat [days_of_january 1 10; days_of_january 11 20;
                       days_of_january 21 31])]> (fs january_artifacts)
  /\ sent (download_dataset 1 (mkenvironment user empty_catalog) day_codec in_order
             2021 2021 "SST" 2 january_artifacts).2 = sent january_artifacts.
Proof.
  apply download_dataset_merges_present_artifacts;
    unfold MINYEAR, MAXYEAR; try lia; [vm_compute; lia |].
  assert (E : paths "data/partial" (render <$> partition 2021 2021)
              = ["data/partial/2021-01-01.nc"; "data/partial/2021-01-11.nc";
                 "data/partial/2021-01-21.nc"]) by (vm_compute; reflexivity).
  rewrite E.
  constructor;
    [exists (encode day_codec (days_of_january 1 10)); split; vm_compute; reflexivity |].
  constructor;
    [exists (encode day_codec (days_of_january 11 20)); split; vm_compute; reflexivity |].
  constructor;
    [exists (encode day_codec (days_of_january 21 31)); split; vm_compute; reflexivity |].
  constructor.
Defined.

(** Files that exist are kept by each step of the driver. *)
Lemma keeps_bind {A B} q (m : M A) (k : A -> M B) :
  keeps q m -> (forall a, keeps q (k a)) -> keeps q (bind m k).
Proof.
  intros Hm Hk w Hq. specialize (Hm w Hq). unfold bind.
  destruct (m w) as [[a | e |] w1]; simpl in *; try exact Hm.
  rewrite Hk by (rewrite Hm; exact Hq). exact Hm.
Qed.

Lemma keeps_print q line : keeps q (print line).
Proof. intros w _. reflexivity. Qed.

Lemma keeps_lift {A} q (o : outcome A) : keeps q (lift o).
Proof. intros w _. reflexivity. Qed.

Lemma keeps_retrieve_missing_data fuel env sched date_ranges output_dir workers q :
  keeps q (retrieve_missing_data fuel env sched date_ranges output_dir workers).
Proof.
  intros w Hq. rewrite retrieve_missing_data_world.
  destruct (workers <=? 0); [reflexivity |].
  set (w1 := with_lines w (listing output_dir w date_ranges)).
  destruct (run_pool_evolves fuel env sched date_ranges output_dir workers w1)
    as [(_ & Hframe & _) Hsub].
  change (fs w) with (fs w1). apply Hframe. intros Hin.
  apply list_elem_of_fmap in Hin as (t & -> & Ht).
  destruct (Hsub t Ht) as (Hnone & _).
  change (fs w1) with (fs w) in Hnone. rewrite Hnone in Hq.
  destruct Hq as [x Hx]. discriminate.
Qed.

Lemma keeps_merge_netcdf_files_xarray lib output_files merged_file q :
  q <> merged_file -> keeps q (merge_netcdf_files_xarray lib output_files merged_file).
Proof.
  intros Hq w _. rewrite merge_netcdf_files_xarray_eq. cbv zeta.
  destruct (open_datasets _ _ _).1 as [[| d ds] | e |]; try reflexivity.
  cbn [snd fs]. apply lookup_insert_ne. congruence.
Qed.

(** X17: whatever happens in a run of [download_dataset] (calls that fail, a
    merge that aborts), a file that exists when it starts and is not the
    merged file keeps its content: the run only adds the missing artifacts
    and writes the merged file. *)
Theorem download_dataset_keeps_files
    fuel env lib sched start_year end_year filename workers w q :
  q <> "data/" +:+ filename +:+ ".nc" -> is_Some (fs w !! q) ->
  fs (download_dataset fuel env lib sched start_year end_year filename workers w).2 !! q
  = fs w !! q.
Proof.
  intros Hq. revert w.
  change (keeps q (download_dataset fuel env lib sched start_year end_year filename workers)).
  unfold download_dataset.
  apply keeps_bind; [apply keeps_print | intros _].
  apply keeps_bind; [apply keeps_lift | intros date_ranges].
  apply keeps_bind; [apply keeps_print | intros _].
  apply keeps_bind; [apply keeps_print | intros _].
  apply keeps_bind; [apply keeps_retrieve_missing_data | intros output_files].
  apply keeps_bind; [apply keeps_print | intros _].
  apply keeps_bind; [apply keeps_merge_netcdf_files_xarray, Hq | intros _].
  apply keeps_bind; [apply keeps_print | intros _; apply keeps_print].
Qed.

(** The first artifact of January 2021 is kept while the others are
    downloaded and the three are merged. *)
Lemma download_dataset_keeps_files_witness :
  fs (download_dataset 1 (mkenvironment user serving_archive) day_codec in_order
        2021 2021 "SST" 2 second_artifact_missing).2 !! "data/partial/2021-01-01.nc"
  = fs second_artifact_missing !! "data/partial/2021-01-01.nc".
Proof.
  apply download_dataset_keeps_files.
  - vm_compute. discriminate.
  - eexists. vm_compute. reflexivity.
Defined.
